(** * dalmatian/fctools.py: status reduction and cost accounting

    A shallow embedding of the status-aggregation and cost-accounting
    functions of [src/dalmatian/fctools.py]:

    - [workflow_time] and [get_vm_cost] (module level),
    - [WorkspaceManager.get_submission_status],
    - [WorkspaceManager.display_status],
    - [WorkspaceManager.get_stats],
    - [WorkspaceManager.get_samples],
      [WorkspaceManager.update_participant_samples],
      [WorkspaceManager.check_configuration] and
      [WorkspaceManager.publish_config],
    - [get_method], [get_method_version], [get_config],
      [get_config_version], [redact_outdated_method_versions] and
      [update_method] (module level),
    - [parse_google_stats] and [calculate_google_cost] (module level).

    Conventions of the embedding.

    - A Python exception is a value of [exn]; a function that may raise
      returns [result].
    - An ISO-8601 date string is represented by the instant it denotes, a
      rational number of seconds since the epoch ([isotime]); parsing by
      the [iso8601] package is outside the embedding.
    - A Python [float] is a [pyfloat]: an exact rational or [NaN].  The
      rounding of binary64 arithmetic and the infinities are not
      represented; [NaN] propagates as in IEEE-754.
    - A Python [dict] (and a JSON object) is an insertion-ordered
      association list with unique keys ([dict]).
    - The remote service is a record of pure functions ([Remote]): every
      call of the source is an idempotent read.  The functions that
      change the workspace or the method repository are embedded over a
      log of the calls made so far ([Repository.api]), and the answer of
      the service may depend on that log. *)

From Stdlib Require Import List String Ascii Bool ZArith QArith Lqa Lia Permutation Sorted.
Import ListNotations.

Local Open Scope string_scope.
Local Open Scope list_scope.

(* ================================================================== *)
(** ** Exceptions *)

Inductive exn : Type :=
| AssertionError
| KeyError (key : string)
| IndexError
| ValueError
| UnboundLocalError.

Inductive result (A : Type) : Type :=
| Ok (a : A)
| Raise (e : exn).

Arguments Ok {A} a.
Arguments Raise {A} e.

Definition bind {A B : Type} (m : result A) (k : A -> result B) : result B :=
  match m with
  | Ok a => k a
  | Raise e => Raise e
  end.

Notation "x <- m ;; k" := (bind m (fun x => k))
  (at level 61, m at next level, right associativity).

(** [for x in xs: acc = body(acc, x)], stopping at the first exception. *)
Fixpoint for_each {A S : Type} (body : S -> A -> result S) (xs : list A) (acc : S)
  : result S :=
  match xs with
  | [] => Ok acc
  | x :: xs' => acc' <- body acc x ;; for_each body xs' acc'
  end.

(** [[f(x) for x in xs]], stopping at the first exception. *)
Fixpoint comprehension {A B : Type} (f : A -> result B) (xs : list A)
  : result (list B) :=
  match xs with
  | [] => Ok []
  | x :: xs' => y <- f x ;; ys <- comprehension f xs' ;; Ok (y :: ys)
  end.

Definition is_ok {A : Type} (m : result A) : bool :=
  match m with Ok _ => true | Raise _ => false end.

(* ================================================================== *)
(** ** Floats *)

Inductive pyfloat : Type :=
| Fin (q : Q)
| NaN.

Definition fadd (x y : pyfloat) : pyfloat :=
  match x, y with
  | Fin a, Fin b => Fin (a + b)
  | _, _ => NaN
  end.

Definition fsub (x y : pyfloat) : pyfloat :=
  match x, y with
  | Fin a, Fin b => Fin (a - b)
  | _, _ => NaN
  end.

Definition fmul (x y : pyfloat) : pyfloat :=
  match x, y with
  | Fin a, Fin b => Fin (a * b)
  | _, _ => NaN
  end.

(** [x/3600], the only division of the embedded code. *)
Definition per_3600 (x : pyfloat) : pyfloat :=
  match x with
  | Fin a => Fin (a / 3600)
  | NaN => NaN
  end.

(** [x > y]; false as soon as one side is [NaN]. *)
Definition fgtb (x y : pyfloat) : bool :=
  match x, y with
  | Fin a, Fin b => negb (Qle_bool a b)
  | _, _ => false
  end.

Definition fmax (x y : pyfloat) : pyfloat :=
  match x, y with
  | Fin a, Fin b => if Qle_bool a b then Fin b else Fin a
  | _, _ => NaN
  end.

(** [np.sum] of a list of floats. *)
Definition np_sum (xs : list pyfloat) : pyfloat :=
  fold_left fadd xs (Fin 0).

(** [np.max] of a list of floats; it raises on the empty list and
    propagates [NaN]. *)
Definition np_max (xs : list pyfloat) : result pyfloat :=
  match xs with
  | [] => Raise ValueError
  | x :: xs' => Ok (fold_left fmax xs' x)
  end.

(** The float is the number [q]. *)
Definition is_num (x : pyfloat) (q : Q) : Prop :=
  match x with
  | Fin a => a == q
  | NaN => False
  end.

(** Both floats are numbers and [x <= y]. *)
Definition fle (x y : pyfloat) : Prop :=
  match x, y with
  | Fin a, Fin b => a <= b
  | _, _ => False
  end.

(** A cell of a [pd.DataFrame] created without data holds NaN. *)
Definition unset : pyfloat := NaN.

(* ================================================================== *)
(** ** Dictionaries *)

Definition dict (V : Type) : Type := list (string * V).

Fixpoint dict_get {V : Type} (k : string) (d : dict V) : option V :=
  match d with
  | [] => None
  | (k', v) :: d' => if String.eqb k k' then Some v else dict_get k d'
  end.

(** [k in d] *)
Definition dict_mem {V : Type} (k : string) (d : dict V) : bool :=
  match dict_get k d with Some _ => true | None => false end.

(** [d[k] = v]: an existing key keeps its position. *)
Fixpoint dict_set {V : Type} (k : string) (v : V) (d : dict V) : dict V :=
  match d with
  | [] => [(k, v)]
  | (k', v') :: d' =>
      if String.eqb k k' then (k, v) :: d' else (k', v') :: dict_set k v d'
  end.

(** A dict display [{k1: v1, k2: v2, ...}]: the items are stored from
    left to right, so a repeated key keeps its last value. *)
Definition dict_display {V : Type} (items : list (string * V)) : dict V :=
  fold_left (fun d kv => dict_set (fst kv) (snd kv) d) items [].

(** [d[k]] *)
Definition dict_item {V : Type} (d : dict V) (k : string) : result V :=
  match dict_get k d with
  | Some v => Ok v
  | None => Raise (KeyError k)
  end.

Definition dict_keys {V : Type} (d : dict V) : list string := map fst d.

(** [xs[-1]] *)
Definition last_item {A : Type} (xs : list A) : result A :=
  match rev xs with
  | [] => Raise IndexError
  | x :: _ => Ok x
  end.

(** [xs[0]] *)
Definition first_item {A : Type} (xs : list A) : result A :=
  match xs with
  | [] => Raise IndexError
  | x :: _ => Ok x
  end.

(* ================================================================== *)
(** ** Strings *)

(** [needle in hay] *)
Definition str_in (needle hay : string) : bool :=
  match index 0 needle hay with
  | Some _ => true
  | None => false
  end.

(** The fields of [s.split(sep)], from left to right. *)
Fixpoint split_aux (sep : ascii) (s : string) (cur : string) : list string :=
  match s with
  | EmptyString => [cur]
  | String c s' =>
      if Ascii.eqb c sep then cur :: split_aux sep s' EmptyString
      else split_aux sep s' (cur ++ String c EmptyString)
  end.

Definition split (sep : ascii) (s : string) : list string :=
  split_aux sep s EmptyString.

(** [s.rsplit(sep)[-1]]; with no [maxsplit], [rsplit] yields the fields
    of [split]. *)
Definition rsplit_last (sep : ascii) (s : string) : string :=
  last (split sep s) EmptyString.

(* ================================================================== *)
(** ** VM costs *)

Module Pricing.

(** The items of the two dict displays of [get_vm_cost], as written. *)
Definition preemptible_items : list (string * Q) :=
  [ ("n1-standard-1", 0.0100);
    ("n1-standard-2", 0.0200);
    ("n1-standard-4", 0.0400);
    ("n1-standard-8", 0.0800);
    ("n1-standard-16", 0.1600);
    ("n1-standard-32", 0.3200);
    ("n1-standard-32", 0.6400);
    ("n1-highmem-2", 0.0250);
    ("n1-highmem-4", 0.0500);
    ("n1-highmem-8", 0.1000);
    ("n1-highmem-16", 0.2000);
    ("n1-highmem-32", 0.4000);
    ("n1-highmem-64", 0.8000) ]%Q.

Definition standard_items : list (string * Q) :=
  [ ("n1-standard-1", 0.0475);
    ("n1-standard-2", 0.0950);
    ("n1-standard-4", 0.1900);
    ("n1-standard-8", 0.3800);
    ("n1-standard-16", 0.7600);
    ("n1-standard-32", 1.5200);
    ("n1-standard-64", 3.0400);
    ("n1-highmem-2", 0.1184);
    ("n1-highmem-4", 0.2368);
    ("n1-highmem-8", 0.4736);
    ("n1-highmem-16", 0.9472);
    ("n1-highmem-32", 1.8944);
    ("n1-highmem-64", 3.7888) ]%Q.

Definition preemptible_dict : dict Q := dict_display preemptible_items.
Definition standard_dict : dict Q := dict_display standard_items.

(** Cost per hour. *)
Definition get_vm_cost (machine_type : string) (preemptible : bool)
  : result pyfloat :=
  if preemptible then
    c <- dict_item preemptible_dict machine_type ;; Ok (Fin c)
  else
    c <- dict_item standard_dict machine_type ;; Ok (Fin c).

End Pricing.

(* ================================================================== *)
(** ** Remote service and its JSON documents *)

(** The instant denoted by an ISO-8601 string, in seconds since the epoch. *)
Definition isotime : Type := Q.

(** [datetime.timestamp(iso8601.parse_date(x))] *)
Definition convert_time (x : isotime) : pyfloat := Fin x.

(** Documents with a ['start'] key and an optional ['end'] key: workflow
    metadata and the attempts of a call. *)
Class Timed (A : Type) : Type := {
  start : A -> isotime;
  end_ : A -> option isotime
}.

(** One attempt of a call, [metadata['calls'][t][k]]. *)
Record Attempt : Type := mkAttempt {
  att_start : isotime;
  att_end : option isotime;
  executionStatus : string;
  jobId : string;
  stderr : string;
  preemptible : bool;
  jes_machineType : string        (* ['jes']['machineType'] *)
}.

(** The body of a [get_workflow_metadata] response. *)
Record Metadata : Type := mkMetadata {
  md_start : isotime;
  md_end : option isotime;
  workflowName : string;
  calls : dict (list Attempt)
}.

#[export] Instance Timed_Attempt : Timed Attempt :=
  {| start := att_start; end_ := att_end |}.

#[export] Instance Timed_Metadata : Timed Metadata :=
  {| start := md_start; end_ := md_end |}.

(** An item of the [list_submissions] response. *)
Record Submission : Type := mkSubmission {
  submissionId : string;
  methodConfigurationName : string;
  submissionDate : isotime;
  entityType : string;            (* ['submissionEntity']['entityType'] *)
  entityName : string             (* ['submissionEntity']['entityName'] *)
}.

(** An item of [get_submission(...)['workflows']]. *)
Record Workflow : Type := mkWorkflow {
  workflowId : string;
  status : string;
  workflowEntity : option string  (* ['workflowEntity']['entityName'] *)
}.

Record Response (A : Type) : Type := mkResponse {
  status_code : Z;
  json : A
}.

Arguments mkResponse {A} status_code json.
Arguments status_code {A} r.
Arguments json {A} r.

(** The calls of [firecloud.api] that the embedded functions make, for a
    fixed namespace and workspace. *)
Record Remote : Type := mkRemote {
  list_submissions : Response (list Submission);
  get_submission : string -> Response (list Workflow);
  get_workflow_metadata : string -> string -> Response Metadata
}.

(** [assert r.status_code==200; r = r.json()] *)
Definition assert_200 {A : Type} (r : Response A) : result A :=
  if Z.eqb (status_code r) 200 then Ok (json r) else Raise AssertionError.

(** Convert API output to timestamp difference. *)
Definition workflow_time {A : Type} `{Timed A} (workflow : A) : pyfloat :=
  match end_ workflow with
  | Some e => fsub (convert_time e) (convert_time (start workflow))
  | None => NaN
  end.

(* ================================================================== *)
(** ** Status of the latest submission *)

(** A row of the status table. *)
Record StatusRecord : Type := mkStatusRecord {
  sr_status : string;
  sr_timestamp : pyfloat;
  sr_submission_id : string;
  sr_configuration : string;
  sr_workflow_id : string
}.

Module StatusReducer.

(** [x < y] on timestamps. *)
Definition ts_ltb (x : pyfloat) (y : isotime) : bool := fgtb (Fin y) x.

(** [sample_id not in sample_dict or sample_dict[sample_id]['timestamp']<ts] *)
Definition fresh_or_older (sample_dict : dict StatusRecord) (sample_id : string)
  (ts : isotime) : bool :=
  match dict_get sample_id sample_dict with
  | None => true
  | Some r => ts_ltb (sr_timestamp r) ts
  end.

Definition mk_record (s : Submission) (w : Workflow) : StatusRecord :=
  {| sr_status := status w;
     sr_timestamp := convert_time (submissionDate s);
     sr_submission_id := submissionId s;
     sr_configuration := methodConfigurationName s;
     sr_workflow_id := workflowId w |}.

(** The branch shared by entity types [sample] and [participant] and by
    a [sample_set] with one workflow: the record is built from
    [r['workflows'][0]] under the name of the submission entity. *)
Definition update_from_root (sample_dict : dict StatusRecord) (s : Submission)
  (workflows : list Workflow) : result (dict StatusRecord) :=
  let sample_id := entityName s in
  if fresh_or_older sample_dict sample_id (submissionDate s) then
    w <- first_item workflows ;;
    Ok (dict_set sample_id (mk_record s w) sample_dict)
  else Ok sample_dict.

(** The loop over the workflows of a [sample_set] with several (or no)
    workflows. *)
Definition update_from_member (s : Submission) (sample_dict : dict StatusRecord)
  (w : Workflow) : result (dict StatusRecord) :=
  match workflowEntity w with
  | None => Raise (KeyError "workflowEntity")
  | Some sample_id =>
      if fresh_or_older sample_dict sample_id (submissionDate s) then
        Ok (dict_set sample_id (mk_record s w) sample_dict)
      else Ok sample_dict
  end.

(** The body of [for s in submissions]. *)
Definition step (remote : Remote) (sample_dict : dict StatusRecord)
  (s : Submission) : result (dict StatusRecord) :=
  r <- assert_200 (get_submission remote (submissionId s)) ;;
  if String.eqb (entityType s) "sample" then
    update_from_root sample_dict s r
  else if String.eqb (entityType s) "sample_set" then
    if Nat.eqb (List.length r) 1 then update_from_root sample_dict s r
    else for_each (update_from_member s) r sample_dict
  else if String.eqb (entityType s) "participant" then
    update_from_root sample_dict s r
  else Ok sample_dict.

(** [[s for s in submissions if configuration in s['methodConfigurationName']]] *)
Definition matching (configuration : string) (submissions : list Submission)
  : list Submission :=
  filter (fun s => str_in configuration (methodConfigurationName s)) submissions.

(** The status table is the transposed frame of [sample_dict]: one row
    per key, in insertion order.  Selecting the column ['status'] of the
    frame of an empty dict raises [KeyError]. *)
Definition get_submission_status (remote : Remote) (configuration : string)
  : result (dict StatusRecord) :=
  submissions <- assert_200 (list_submissions remote) ;;
  sample_dict <- for_each (step remote) (matching configuration submissions) [] ;;
  match sample_dict with
  | [] => Raise (KeyError "status")
  | _ => Ok sample_dict
  end.

End StatusReducer.

(* ================================================================== *)
(** ** Failure state matrix *)

Module Diagnostics.

Record StateRow : Type := mkStateRow {
  cells : list Z;
  st_workflow_id : string;
  st_submission_id : string
}.

Record StateFrame : Type := mkStateFrame {
  columns : list string;
  rows : dict StateRow
}.

Definition status_code : dict Z :=
  dict_display [("Running", 1%Z); ("Done", 2%Z); ("Failed", (-1)%Z)].

(** [status_code[metadata['calls'][t][-1]['executionStatus']]
     if t in metadata['calls'] else 0] *)
Definition cell (metadata : Metadata) (t : string) : result Z :=
  match dict_get t (calls metadata) with
  | Some attempts =>
      a <- last_item attempts ;;
      dict_item status_code (executionStatus a)
  | None => Ok 0%Z
  end.

(** The body of [for i in fail_idx]. *)
Definition state_row (remote : Remote) (workflow_tasks : list string)
  (row : string * StatusRecord) : result (string * StateRow) :=
  metadata <- assert_200 (get_workflow_metadata remote
                            (sr_submission_id (snd row)) (sr_workflow_id (snd row))) ;;
  cs <- comprehension (cell metadata) workflow_tasks ;;
  Ok (fst row, {| cells := cs;
                  st_workflow_id := sr_workflow_id (snd row);
                  st_submission_id := sr_submission_id (snd row) |}).

(** [i.split('.')[1]] *)
Definition bare_name (i : string) : result string :=
  match split "." i with
  | _ :: n :: _ => Ok n
  | _ => Raise IndexError
  end.

Definition display_status (remote : Remote) (configuration : string)
  : result StateFrame :=
  status_df <- StatusReducer.get_submission_status remote configuration ;;
  row0 <- first_item status_df ;;
  metadata <- assert_200 (get_workflow_metadata remote
                            (sr_submission_id (snd row0)) (sr_workflow_id (snd row0))) ;;
  let workflow_tasks := dict_keys (calls metadata) in
  let fail_idx :=
    filter (fun row => negb (String.eqb (sr_status (snd row)) "Succeeded")) status_df in
  state_rows <- comprehension (state_row remote workflow_tasks) fail_idx ;;
  names <- comprehension bare_name workflow_tasks ;;
  Ok {| columns := names; rows := state_rows |}.

End Diagnostics.

(* ================================================================== *)
(** ** Time, attempts and cost of succeeded workflows *)

Module Aggregator.

Import Pricing.

(** A row of a task table. *)
Record TaskRow : Type := mkTaskRow {
  time_h : pyfloat;
  total_time_h : pyfloat;
  max_preempt_time_h : pyfloat;
  machine_type : string;
  attempts : pyfloat;
  start_time : isotime;         (* the instant that is printed as %H:%M *)
  est_cost : pyfloat;
  job_ids : string
}.

(** [j['jes']['machineType'].rsplit('/')[-1]] *)
Definition machine_of (j : Attempt) : string :=
  rsplit_last "/" (jes_machineType j).

(** [get_vm_cost(m,p)*h] for an item [(h, m, p)] of the zipped lists. *)
Definition attempt_cost (hmp : pyfloat * (string * bool)) : result pyfloat :=
  let '(h, (m, p)) := hmp in
  c <- get_vm_cost m p ;; Ok (fmul c h).

(** Lines 339-359: the row of entity [i] in the table of task [t],
    from [metadata_dict[i]['calls'][t]]. *)
Definition task_row (call : list Attempt) : result TaskRow :=
  last_attempt <- last_item call ;;
  let time_h := per_3600 (workflow_time last_attempt) in
  let exec_times_h := map (fun t_attempt => per_3600 (workflow_time t_attempt)) call in
  let total_time_h := np_sum exec_times_h in
  let machine_type := machine_of last_attempt in
  let was_preemptible := map preemptible call in
  first_preemptible <- first_item was_preemptible ;;
  let attempts :=
    if first_preemptible : bool
    then Fin (inject_Z (Z.of_nat (List.length call)))
    else unset in
  max_preempt_time_h <-
    (if fgtb attempts (Fin 1) then
       m <- np_max (map workflow_time (removelast call)) ;; Ok (per_3600 m)
     else Ok unset) ;;
  let start_time := att_start last_attempt in
  let machine_types := map machine_of call in
  costs <- comprehension attempt_cost
             (combine exec_times_h (combine machine_types was_preemptible)) ;;
  let est_cost := np_sum costs in
  let job_ids := String.concat "," (map jobId call) in
  Ok {| time_h := time_h;
        total_time_h := total_time_h;
        max_preempt_time_h := max_preempt_time_h;
        machine_type := machine_type;
        attempts := attempts;
        start_time := start_time;
        est_cost := est_cost;
        job_ids := job_ids |}.

(** Lines 315-320: one metadata request per row, each one asserted. *)
Definition fetch_metadata (remote : Remote) (status_df : dict StatusRecord)
  : result (dict Metadata) :=
  for_each
    (fun metadata_dict irow =>
       metadata <- assert_200 (get_workflow_metadata remote
                     (sr_submission_id (snd irow)) (sr_workflow_id (snd irow))) ;;
       Ok (dict_set (fst irow) metadata metadata_dict))
    status_df [].

(** [np.sort] and [np.unique] on strings (code point order). *)
Fixpoint insert_sorted (s : string) (l : list string) : list string :=
  match l with
  | [] => [s]
  | x :: l' => if String.leb s x then s :: l else x :: insert_sorted s l'
  end.

Definition np_sort (l : list string) : list string :=
  fold_right insert_sorted [] l.

Fixpoint drop_repeats (l : list string) : list string :=
  match l with
  | x :: (y :: _) as l' =>
      if String.eqb x y then drop_repeats l' else x :: drop_repeats l'
  | _ => l
  end.

Definition np_unique (l : list string) : list string :=
  drop_repeats (np_sort l).

(** Lines 337-359 for one task [t]: the table indexed like
    [workflow_status_df]. *)
Definition task_df (metadata_dict : dict Metadata) (index : list string)
  (t : string) : result (dict TaskRow) :=
  for_each
    (fun df i =>
       metadata <- dict_item metadata_dict i ;;
       call <- dict_item (calls metadata) t ;;
       row <- task_row call ;;
       Ok (dict_set i row df))
    index [].

(** The body of [for w in np.unique(workflows)], up to line 359. *)
Definition workflow_tables (status_df : dict StatusRecord)
  (metadata_dict : dict Metadata) (workflows : list string) (w : string)
  : result (list string * dict (dict TaskRow)) :=
  let workflow_status_df :=
    map fst (filter (fun rw => String.eqb (snd rw) w) (combine status_df workflows)) in
  let index := dict_keys workflow_status_df in
  i0 <- first_item index ;;
  metadata0 <- dict_item metadata_dict i0 ;;
  let tasks := np_sort (dict_keys (calls metadata0)) in
  task_dfs <- for_each
                (fun task_dfs t =>
                   let task_name := rsplit_last "." t in
                   df <- task_df metadata_dict index t ;;
                   Ok (dict_set task_name df task_dfs))
                tasks [] ;;
  Ok (index, task_dfs).

(** [get_stats] up to line 359.  The result is the index of
    [workflow_status_df] and [task_dfs] as the last iteration of the loop
    over workflow names leaves them; the four summary columns that
    lines 362-365 add to [workflow_status_df] are not part of the
    embedding.  An exception here is an exception of [get_stats]. *)
Definition get_stats (remote : Remote) (status_df : dict StatusRecord)
  : result (list string * dict (dict TaskRow)) :=
  let status_df :=
    filter (fun row => String.eqb (sr_status (snd row)) "Succeeded") status_df in
  metadata_dict <- fetch_metadata remote status_df ;;
  let workflows := map (fun kv => workflowName (snd kv)) metadata_dict in
  last_tables <- for_each
                   (fun _ w =>
                      tables <- workflow_tables status_df metadata_dict workflows w ;;
                      Ok (Some tables))
                   (np_unique workflows) None ;;
  match last_tables with
  | Some tables => Ok tables
  | None => Raise UnboundLocalError
  end.

End Aggregator.

(* ================================================================== *)
(** ** Methods and configurations in the repository *)

Module Repository.

(** An item of [list_repository_methods()] or
    [list_repository_configs()]. *)
Record Entry : Type := mkEntry {
  en_namespace : string;
  en_name : string;
  snapshotId : Z
}.

(** An item of [list_workspace_configs(...)]. *)
Record WorkspaceConfig : Type := mkWorkspaceConfig {
  wc_name : string;
  methodNamespace : string;     (* ['methodRepoMethod']['methodNamespace'] *)
  methodName : string;          (* ['methodRepoMethod']['methodName'] *)
  methodVersion : Z             (* ['methodRepoMethod']['methodVersion'] *)
}.

(** The calls of [firecloud.api] made by the functions below, with their
    arguments; the workspace of a [WorkspaceManager] is fixed, the
    access list is always the public reader, and the attribute that
    [update_entity] sets is always [samples_], a list of references to
    samples. *)
Inductive Call : Type :=
| list_repository_methods
| list_repository_configs
| list_workspace_configs
| update_repository_method (namespace method synopsis wdl_file : string)
| update_repository_method_acl (namespace method : string) (snapshot_id : Z)
| delete_repository_method (namespace method : string) (snapshot_id : Z)
| copy_config_to_repo (from_cnamespace from_config to_cnamespace to_config : string)
| update_repository_config_acl (namespace config : string) (snapshot_id : Z)
| delete_repository_config (namespace config : string) (snapshot_id : Z)
| get_entities_tsv (etype : string)
| update_entity (etype ename : string) (samples_ : list string).

(** What the functions read of a response: its status code, the
    listing that [json()] is for the three list calls,
    [json()['snapshotId']], and for the sample table the rows that
    [pd.read_csv] makes of [text], each a sample id (the index) with
    its participant; every sample is taken to have one. *)
Record Reply : Type := mkReply {
  rp_status_code : Z;
  rp_entries : list Entry;
  rp_configs : list WorkspaceConfig;
  rp_snapshotId : Z;
  rp_samples : list (string * string)
}.

(** The service answers a call according to the calls made before it. *)
Definition Service : Type := list Call -> Call -> Reply.

(** A computation that makes calls: it extends the list of the calls
    made so far and returns or raises. *)
Definition api (A : Type) : Type := list Call -> list Call * result A.

Definition pure {A : Type} (a : A) : api A := fun log => (log, Ok a).

Definition lift {A : Type} (m : result A) : api A := fun log => (log, m).

Definition and_then {A B : Type} (m : api A) (k : A -> api B) : api B :=
  fun log =>
    match m log with
    | (log', Ok a) => k a log'
    | (log', Raise e) => (log', Raise e)
    end.

Notation "x <~ m ;; k" := (and_then m (fun x => k))
  (at level 61, m at next level, right associativity).

Definition request (service : Service) (c : Call) : api Reply :=
  fun log => (log ++ [c], Ok (service log c)).

(** [assert r.status_code==code] *)
Definition assert_status (r : Reply) (code : Z) : api unit :=
  if Z.eqb (rp_status_code r) code then pure tt else lift (Raise AssertionError).

(** [for x in xs: body(x)] *)
Fixpoint for_api {A : Type} (body : A -> api unit) (xs : list A) : api unit :=
  match xs with
  | [] => pure tt
  | x :: xs' => _ <~ body x ;; for_api body xs'
  end.

(** [np.max] of a list of integers. *)
Definition np_max_int (xs : list Z) : result Z :=
  match xs with
  | [] => Raise ValueError
  | x :: xs' => Ok (fold_left Z.max xs' x)
  end.

(** [[m for m in r if m['name']==name and m['namespace']==namespace]] *)
Definition versions_of (namespace name : string) (r : list Entry) : list Entry :=
  filter (fun m => String.eqb (en_name m) name && String.eqb (en_namespace m) namespace) r.

(** Get all available versions of a method from the repository. *)
Definition get_method (service : Service) (namespace name : string)
  : api (list Entry) :=
  r <~ request service list_repository_methods ;;
  _ <~ assert_status r 200 ;;
  pure (versions_of namespace name (rp_entries r)).

(** Get latest method version. *)
Definition get_method_version (service : Service) (namespace name : string)
  : api Z :=
  r <~ get_method service namespace name ;;
  lift (np_max_int (map snapshotId r)).

(** Get all versions of a configuration from the repository. *)
Definition get_config (service : Service) (namespace name : string)
  : api (list Entry) :=
  r <~ request service list_repository_configs ;;
  _ <~ assert_status r 200 ;;
  pure (versions_of namespace name (rp_entries r)).

(** Get latest config version. *)
Definition get_config_version (service : Service) (namespace name : string)
  : api Z :=
  r <~ get_config service namespace name ;;
  lift (np_max_int (map snapshotId r)).

(** [WorkspaceManager.check_configuration]: the version of the method
    that the configuration uses; the latest version in the repository
    is looked up for the message that is printed. *)
Definition check_configuration (service : Service) (config_name : string)
  : api Z :=
  r <~ request service list_workspace_configs ;;
  _ <~ assert_status r 200 ;;
  r <~ lift (first_item
               (filter (fun i => String.eqb (wc_name i) config_name) (rp_configs r))) ;;
  mrversion <~ get_method_version service (methodNamespace r) (methodName r) ;;
  pure (methodVersion r).

(** [redact_outdated_method_versions]: [np.max(versions)] is printed
    first, then every other version is deleted. *)
Definition redact_outdated_method_versions (service : Service)
    (method_namespace method_name : string) : api unit :=
  r <~ request service list_repository_methods ;;
  _ <~ assert_status r 200 ;;
  let r := versions_of method_namespace method_name (rp_entries r) in
  let versions := map snapshotId r in
  latest <~ lift (np_max_int versions) ;;
  let versions := filter (fun v => negb (Z.eqb v latest)) versions in
  for_api
    (fun i =>
       r <~ request service (delete_repository_method method_namespace method_name i) ;;
       assert_status r 200)
    versions.

(** [old_version = None; if r: old_version = np.max(...)] *)
Definition prior_version (r : list Entry) : api (option Z) :=
  match r with
  | [] => pure None
  | _ => v <~ lift (np_max_int (map snapshotId r)) ;; pure (Some v)
  end.

(** [update_method]: push new version, then redact previous version. *)
Definition update_method (service : Service)
    (namespace method synopsis wdl_file : string) (public : bool) : api unit :=
  r <~ get_method service namespace method ;;
  old_version <~ prior_version r ;;
  r <~ request service (update_repository_method namespace method synopsis wdl_file) ;;
  _ <~ assert_status r 201 ;;
  r <~ (if public
        then request service
               (update_repository_method_acl namespace method (rp_snapshotId r))
        else pure r) ;;
  match old_version with
  | Some v =>
      r <~ request service (delete_repository_method namespace method v) ;;
      assert_status r 200
  | None => pure tt
  end.

(** [WorkspaceManager.publish_config]: copy configuration to
    repository, then delete the previous version. *)
Definition publish_config (service : Service)
    (from_cnamespace from_config to_cnamespace to_config : string) (public : bool)
  : api unit :=
  r <~ get_config service to_cnamespace to_config ;;
  old_version <~ prior_version r ;;
  r <~ request service
         (copy_config_to_repo from_cnamespace from_config to_cnamespace to_config) ;;
  _ <~ assert_status r 200 ;;
  r <~ (if public
        then request service
               (update_repository_config_acl to_cnamespace to_config (rp_snapshotId r))
        else pure r) ;;
  match old_version with
  | Some v =>
      r <~ request service (delete_repository_config to_cnamespace to_config v) ;;
      assert_status r 200
  | None => pure tt
  end.



(** The calls a computation makes and its outcome, from no call made. *)
Definition run {A : Type} (m : api A) : list Call * result A := m [].

(** A repository with three snapshots of [broad/align] and one of
    [other/align], and a workspace whose configuration [cfg] uses
    [broad/align] version 2; a push is answered with status 201 and
    snapshot 4, every other call with status 200. *)
Definition sample_entries : list Entry :=
  [ mkEntry "broad" "align" 1; mkEntry "broad" "align" 3;
    mkEntry "other" "align" 9; mkEntry "broad" "align" 2 ].

Definition sample_service : Service :=
  fun _ c =>
    mkReply
      (match c with update_repository_method _ _ _ _ => 201%Z | _ => 200%Z end)
      sample_entries
      [ mkWorkspaceConfig "cfg" "broad" "align" 2 ]
      4
      [ ("s1", "p2"); ("s2", "p1"); ("s3", "p2") ].

End Repository.
(*ENDDEFS*)

(* ================================================================== *)
(** ** Google operation metadata *)

Module GoogleStats.

Import Pricing.

(** An item of [j['metadata']['events']]. *)
Record Event : Type := mkEvent {
  description : string;
  startTime : isotime;
  has_copied : bool             (* ['copied' in k] *)
}.

(** The metadata of one operation, as [get_google_metadata] returns it. *)
Record Operation : Type := mkOperation {
  op_name : string;             (* ['name'] *)
  events : list Event;          (* ['metadata']['events'] *)
  machineType : string;
    (* ['metadata']['runtimeMetadata']['computeEngine']['machineType'] *)
  op_preemptible : bool
    (* ['metadata']['request']['ephemeralPipeline']['resources']['preemptible'] *)
}.

(** The columns of the frame of [parse_google_stats]. *)
Record Row : Type := mkRow {
  g_time_h : pyfloat;
  g_machine_type : string;
  g_preemptible : bool;
  g_preempted : bool
}.

(** A frame created from an index alone: every row is unset. *)
Definition frame : Type := list (string * option Row).

Definition fmin (x y : pyfloat) : pyfloat :=
  match x, y with
  | Fin a, Fin b => if Qle_bool a b then Fin a else Fin b
  | _, _ => NaN
  end.

(** [np.min] of a list of floats. *)
Definition np_min (xs : list pyfloat) : result pyfloat :=
  match xs with
  | [] => Raise ValueError
  | x :: xs' => Ok (fold_left fmin xs' x)
  end.

(** [df.loc[label, columns] = values]: every row with that label. *)
Definition loc_set (label : string) (values : Row) (df : frame) : frame :=
  map (fun row => if String.eqb (fst row) label then (fst row, Some values) else row) df.

(** [df.loc[label]]: the rows with that label. *)
Definition loc (label : string) (df : frame) : frame :=
  filter (fun row => String.eqb (fst row) label) df.

(** [[... for k in j['metadata']['events'] if 'copied' not in k]] *)
Definition retained (j : Operation) : list Event :=
  filter (fun k => negb (has_copied k)) (events j).

(** Lines 530-542: the values written for one operation. *)
Definition operation_stats (j : Operation) : result Row :=
  let event_dict :=
    dict_display (map (fun k => (description k, convert_time (startTime k)))
                      (retained j)) in
  let event_times := map (fun k => convert_time (startTime k)) (retained j) in
  latest <- np_max event_times ;;
  earliest <- np_min event_times ;;
  let time_delta := fsub latest earliest in
  let mt := rsplit_last "/" (machineType j) in    (* [.split('/')[-1]] *)
  let p := op_preemptible j in
  Ok {| g_time_h := per_3600 time_delta;
        g_machine_type := mt;
        g_preemptible := p;
        g_preempted := negb (dict_mem "ok" event_dict) |}.

(** Parse job start and end times, machine type, and preemption status
    from Google metadata. *)
Definition parse_google_stats (json_list : list Operation) : result frame :=
  let df : frame := map (fun j => (op_name j, None)) json_list in
  for_each
    (fun df j => values <- operation_stats j ;; Ok (loc_set (op_name j) values df))
    json_list df.

(** [x < q]; false when [x] is NaN. *)
Definition fltb (x : pyfloat) (q : Q) : bool := fgtb (Fin q) x.

(** Calculate cost.  One row with the label is a series; several are a
    frame, whose column has no truth value; an unset row holds NaN in
    every column, and NaN is true and is no key of the price table. *)
Definition calculate_google_cost (jobid : string) (jobid_lookup_df : frame)
  : result pyfloat :=
  match loc jobid jobid_lookup_df with
  | [] => Raise (KeyError jobid)
  | [(_, Some r)] =>
      if g_preempted r && fltb (g_time_h r) (1 / 6) then Ok (Fin 0)
      else
        c <- get_vm_cost (g_machine_type r) (g_preemptible r) ;;
        Ok (fmul (g_time_h r) c)
  | [(_, None)] => Raise (KeyError "nan")
  | _ => Raise ValueError
  end.

(** The row of an operation: its time is the span from the earliest
    to the latest retained event, in hours, and it counts as preempted
    when no retained event is described as [ok]. *)
Definition spans (j : Operation) (r : Row) : Prop :=
  exists first last,
    In first (retained j) /\ In last (retained j) /\
    (forall k, In k (retained j) ->
               startTime first <= startTime k /\ startTime k <= startTime last) /\
    r = {| g_time_h := Fin ((startTime last - startTime first) / 3600);
           g_machine_type := rsplit_last "/" (machineType j);
           g_preemptible := op_preemptible j;
           g_preempted :=
             negb (existsb (fun k => String.eqb (description k) "ok") (retained j)) |}.

(** Two operations: [op-1] ran for an hour and ended with [ok]; [op-2]
    was preempted after five minutes on a machine type without price. *)
Definition sample_operations : list Operation :=
  [ mkOperation "op-1"
      [ mkEvent "start" 0 false; mkEvent "pulling-image" 60 false;
        mkEvent "ok" 3600 false; mkEvent "copied" 5000 true ]
      "zones/us-central1-b/machineTypes/n1-standard-4" true;
    mkOperation "op-2"
      [ mkEvent "start" 100 false; mkEvent "start-shutdown" 400 false ]
      "zones/us-central1-b/machineTypes/custom-2-4096" true ].

End GoogleStats.
(*ENDDEFS*)

(* ================================================================== *)
(** ** Vocabulary of the statements *)

(** The number held by a float (0 for NaN). *)
Definition num_of (x : pyfloat) : Q :=
  match x with Fin q => q | NaN => 0 end.

Definition finite (x : pyfloat) : Prop := x <> NaN.

Definition qsum (qs : list Q) : Q := fold_right Qplus 0 qs.

Module AggregatorSpec.
Import Pricing Aggregator.

(** Elapsed hours of one attempt. *)
Definition hours (a : Attempt) : pyfloat := per_3600 (workflow_time a).

(** The cost of one attempt: its own hours at its own rate. *)
Definition attempt_cost_of (a : Attempt) : result pyfloat :=
  attempt_cost (hours a, (machine_of a, preemptible a)).

(** The machine type of the attempt has a price in the table selected by
    its preemptible flag. *)
Definition priced (a : Attempt) : Prop :=
  is_ok (get_vm_cost (machine_of a) (preemptible a)) = true.

(** The attempt has ended, not before it started. *)
Definition ended (a : Attempt) : Prop :=
  exists e, att_end a = Some e /\ att_start a <= e.

(** [np.max([workflow_time(a) for a in call[:-1]])/3600], unset when
    there is no attempt before the last. *)
Definition max_before_last (call : list Attempt) : pyfloat :=
  match map workflow_time (removelast call) with
  | [] => unset
  | x :: xs => per_3600 (fold_left fmax xs x)
  end.

Definition with_status (a : Attempt) (s : string) : Attempt :=
  {| att_start := att_start a;
     att_end := att_end a;
     executionStatus := s;
     jobId := jobId a;
     stderr := stderr a;
     preemptible := preemptible a;
     jes_machineType := jes_machineType a |}.

(** An attempt that is still running. *)
Definition non_terminal (a : Attempt) : bool :=
  String.eqb (executionStatus a) "Running".

(** Some attempt before the last is non-terminal. *)
Definition non_terminal_before_last (call : list Attempt) : Prop :=
  exists pre a post,
    call = pre ++ a :: post /\ post <> [] /\ non_terminal a = true.

Definition terminal_only (call : list Attempt) : list Attempt :=
  filter (fun a => negb (non_terminal a)) call.

(** What claim C8 asks of a task's row: the input is rejected, or the
    row is the one of the terminal attempts alone. *)
Definition rejected_or_terminal_only (call : list Attempt) : Prop :=
  is_ok (task_row call) = false \/ task_row call = task_row (terminal_only call).

End AggregatorSpec.

Module FetchSpec.
Import Aggregator.

(** The rows that [get_stats] keeps: [status_df[status_df['status']=='Succeeded']]. *)
Definition succeeded (status_df : dict StatusRecord) : dict StatusRecord :=
  filter (fun row => String.eqb (sr_status (snd row)) "Succeeded") status_df.

(** The metadata response for a row of the status table. *)
Definition metadata_response (remote : Remote) (row : string * StatusRecord)
  : Response Metadata :=
  get_workflow_metadata remote (sr_submission_id (snd row)) (sr_workflow_id (snd row)).

Definition fetch_ok (remote : Remote) (row : string * StatusRecord) : bool :=
  Z.eqb (status_code (metadata_response remote row)) 200.

(** What claim C1 asks of [get_stats]: with a failed fetch among the
    succeeded rows there is still a result, and it lists every entity
    whose fetch succeeded. *)
Definition tolerates_failed_fetch : Prop :=
  forall (remote : Remote) (status_df : dict StatusRecord),
    existsb (fun row => negb (fetch_ok remote row)) (succeeded status_df) = true ->
    exists tables,
      get_stats remote status_df = Ok tables /\
      forall row, In row (succeeded status_df) -> fetch_ok remote row = true ->
                  In (fst row) (fst tables).

(** A service that answers the metadata request of submission [sub-1]
    with status 500 and every other one with status 200. *)
Definition failing_remote : Remote :=
  {| list_submissions := mkResponse 200%Z [];
     get_submission := fun _ => mkResponse 200%Z [];
     get_workflow_metadata := fun submission_id _ =>
       mkResponse (if String.eqb submission_id "sub-1" then 500%Z else 200%Z)
                  (mkMetadata 0 (Some 3600) "wf" []) |}.

Definition two_succeeded : dict StatusRecord :=
  [ ("sample-1", mkStatusRecord "Succeeded" (Fin 10) "sub-1" "cfg" "wf-1");
    ("sample-2", mkStatusRecord "Succeeded" (Fin 20) "sub-2" "cfg" "wf-2") ].

Definition one_succeeded : dict StatusRecord :=
  [ ("sample-2", mkStatusRecord "Succeeded" (Fin 20) "sub-2" "cfg" "wf-2");
    ("sample-3", mkStatusRecord "Failed" (Fin 30) "sub-1" "cfg" "wf-3") ].

End FetchSpec.

Module DiagnosticsSpec.
Import Diagnostics FetchSpec.

(** An execution status outside the keys of [status_code]. *)
Definition unrecognized (s : string) : Prop := dict_get s status_code = None.

(** [status_df[status_df['status']!='Succeeded']] *)
Definition failing (status_df : dict StatusRecord) : dict StatusRecord :=
  filter (fun row => negb (String.eqb (sr_status (snd row)) "Succeeded")) status_df.

(** The metadata that [display_status] reads for a row. *)
Definition metadata_of (remote : Remote) (row : string * StatusRecord) : Metadata :=
  json (metadata_response remote row).

(** Every request for a failing row is answered with status 200 and no
    call of its metadata has an empty list of attempts. *)
Definition readable (remote : Remote) (rows : dict StatusRecord) : Prop :=
  forall row, In row rows ->
    fetch_ok remote row = true /\
    forall t, dict_get t (calls (metadata_of remote row)) <> Some [].

(** The cell of task [t] is 0 exactly when [t] is not a call of the
    metadata, and is otherwise the code of the last attempt's status. *)
Definition cell_reads (metadata : Metadata) (t : string) (c : Z) : Prop :=
  (c = 0%Z <-> dict_get t (calls metadata) = None) /\
  (forall attempts, dict_get t (calls metadata) = Some attempts ->
     exists a, last_item attempts = Ok a /\
               dict_get (executionStatus a) status_code = Some c).

(** Two sample submissions: [sample-1] succeeded with calls [wf.align]
    and [wf.call]; [sample-2] failed in [wf.align] and never started
    [wf.call].  The status of the failed attempt is a parameter. *)
Definition two_samples (failed_status : string) : Remote :=
  {| list_submissions :=
       mkResponse 200%Z
         [ mkSubmission "sub-1" "ns/cfg" 10 "sample" "sample-1";
           mkSubmission "sub-2" "ns/cfg" 20 "sample" "sample-2" ];
     get_submission := fun submission_id =>
       mkResponse 200%Z
         (if String.eqb submission_id "sub-1"
          then [ mkWorkflow "wf-1" "Succeeded" None ]
          else [ mkWorkflow "wf-2" "Failed" None ]);
     get_workflow_metadata := fun submission_id _ =>
       mkResponse 200%Z
         (if String.eqb submission_id "sub-1"
          then mkMetadata 0 (Some 7200) "wf"
                 [ ("wf.align",
                    [ mkAttempt 0 (Some 3600) "Done" "j1" "gs://b/1" true "z/n1-standard-4" ]);
                   ("wf.call",
                    [ mkAttempt 3600 (Some 7200) "Done" "j2" "gs://b/2" true "z/n1-standard-4" ]) ]
          else mkMetadata 0 (Some 100) "wf"
                 [ ("wf.align",
                    [ mkAttempt 0 (Some 100) failed_status "j3" "gs://b/3" true "z/n1-standard-4" ]) ]) |}.

(** What claim C9 asks: an execution status outside [status_code] on
    the last attempt of any task of a failing entity makes
    [display_status] raise. *)
Definition unknown_status_raises : Prop :=
  forall (remote : Remote) (configuration : string)
         (status_df : dict StatusRecord) (row : string * StatusRecord)
         (t : string) (attempts : list Attempt) (a : Attempt),
    StatusReducer.get_submission_status remote configuration = Ok status_df ->
    In row (failing status_df) ->
    dict_get t (calls (metadata_of remote row)) = Some attempts ->
    last_item attempts = Ok a ->
    unrecognized (executionStatus a) ->
    exists e, display_status remote configuration = Raise e.

(** Two sample submissions: [sample-1] succeeded with the one call
    [wf.align]; [sample-2] failed in [wf.align] and has a further call
    [wf.qc], the status of which is a parameter. *)
Definition stray_task (qc_status : string) : Remote :=
  {| list_submissions :=
       mkResponse 200%Z
         [ mkSubmission "sub-1" "ns/cfg" 10 "sample" "sample-1";
           mkSubmission "sub-2" "ns/cfg" 20 "sample" "sample-2" ];
     get_submission := fun submission_id =>
       mkResponse 200%Z
         (if String.eqb submission_id "sub-1"
          then [ mkWorkflow "wf-1" "Succeeded" None ]
          else [ mkWorkflow "wf-2" "Failed" None ]);
     get_workflow_metadata := fun submission_id _ =>
       mkResponse 200%Z
         (if String.eqb submission_id "sub-1"
          then mkMetadata 0 (Some 3600) "wf"
                 [ ("wf.align",
                    [ mkAttempt 0 (Some 3600) "Done" "j1" "gs://b/1" true "z/n1-standard-4" ]) ]
          else mkMetadata 0 (Some 200) "wf"
                 [ ("wf.align",
                    [ mkAttempt 0 (Some 100) "Failed" "j2" "gs://b/2" true "z/n1-standard-4" ]);
                   ("wf.qc",
                    [ mkAttempt 100 (Some 200) qc_status "j3" "gs://b/3" true "z/n1-standard-4" ]) ]) |}.

End DiagnosticsSpec.

Module ReducerSpec.
Import StatusReducer.

(** [get_submission(...)['workflows']] of a submission. *)
Definition workflows_of (remote : Remote) (s : Submission) : list Workflow :=
  json (get_submission remote (submissionId s)).

Definition root_pair (s : Submission) (workflows : list Workflow)
  : list (string * Workflow) :=
  match workflows with
  | w :: _ => [(entityName s, w)]
  | [] => []
  end.

Definition member_pair (w : Workflow) : list (string * Workflow) :=
  match workflowEntity w with
  | Some sample_id => [(sample_id, w)]
  | None => []
  end.

(** The (entity id, workflow) pairs that a submission stands for: the
    submission entity with the first workflow for a sample, a
    participant or a sample set with one workflow; each workflow with
    its own entity for a sample set otherwise. *)
Definition derived (remote : Remote) (s : Submission) : list (string * Workflow) :=
  let workflows := workflows_of remote s in
  if String.eqb (entityType s) "sample" then root_pair s workflows
  else if String.eqb (entityType s) "sample_set" then
    if Nat.eqb (List.length workflows) 1 then root_pair s workflows
    else flat_map member_pair workflows
  else if String.eqb (entityType s) "participant" then root_pair s workflows
  else [].

(** The submission touches the entity. *)
Definition touches (remote : Remote) (s : Submission) (e : string) : Prop :=
  In e (map fst (derived remote s)).

(** The record that the submission gives the entity: from the first of
    its pairs for that entity. *)
Definition record_for (remote : Remote) (s : Submission) (e : string)
  : option StatusRecord :=
  match find (fun p => String.eqb (fst p) e) (derived remote s) with
  | Some p => Some (mk_record s (snd p))
  | None => None
  end.

(** The request for the submission is answered with status 200; a
    sample or participant submission has a workflow; the workflows of a
    sample set that has not exactly one carry their entity. *)
Definition shaped (remote : Remote) (s : Submission) : Prop :=
  status_code (get_submission remote (submissionId s)) = 200%Z /\
  (entityType s = "sample" \/ entityType s = "participant" ->
     workflows_of remote s <> []) /\
  (entityType s = "sample_set" ->
   List.length (workflows_of remote s) <> 1%nat ->
   Forall (fun w => workflowEntity w <> None) (workflows_of remote s)).

(** The submissions of the service that match the configuration. *)
Definition matched (remote : Remote) (configuration : string) : list Submission :=
  matching configuration (json (list_submissions remote)).

(** Every request succeeds, the documents have the expected shape and
    some matching submission touches an entity. *)
Definition well_formed (remote : Remote) (configuration : string) : Prop :=
  status_code (list_submissions remote) = 200%Z /\
  Forall (shaped remote) (matched remote configuration) /\
  Exists (fun s => derived remote s <> []) (matched remote configuration).

(** The record of [e] comes from a matching submission that touches [e]
    and none that touches [e] is later. *)
Definition latest_for (remote : Remote) (submissions : list Submission)
    (e : string) (r : StatusRecord) : Prop :=
  exists s, In s submissions /\
            record_for remote s e = Some r /\
            sr_timestamp r = Fin (submissionDate s) /\
            forall s', In s' submissions -> touches remote s' e ->
                       submissionDate s' <= submissionDate s.

(** The same service with another list of submissions. *)
Definition with_submissions (remote : Remote) (submissions : list Submission)
  : Remote :=
  {| list_submissions := mkResponse 200%Z submissions;
     get_submission := get_submission remote;
     get_workflow_metadata := get_workflow_metadata remote |}.

(** Two runs of the reducer give every entity the same record. *)
Definition same_records (x y : result (dict StatusRecord)) : Prop :=
  forall d d', x = Ok d -> y = Ok d' -> forall e, dict_get e d = dict_get e d'.

(** What claim C3 asks: the order of the submissions does not change
    any record. *)
Definition order_independent : Prop :=
  forall (remote : Remote) (configuration : string)
         (submissions submissions' : list Submission),
    Permutation submissions submissions' ->
    same_records
      (get_submission_status (with_submissions remote submissions) configuration)
      (get_submission_status (with_submissions remote submissions') configuration).

(** No two matching submissions that touch a common entity carry the
    same timestamp. *)
Definition no_ties (remote : Remote) (submissions : list Submission) : Prop :=
  forall s s' e, In s submissions -> In s' submissions ->
    touches remote s e -> touches remote s' e ->
    submissionDate s == submissionDate s' -> s = s'.

(** The loop body without its exceptions: the pairs of one submission
    stored in turn. *)
Definition absorb (s : Submission) (sample_dict : dict StatusRecord)
    (pairs : list (string * Workflow)) : dict StatusRecord :=
  fold_left
    (fun d p =>
       if fresh_or_older d (fst p) (submissionDate s)
       then dict_set (fst p) (mk_record s (snd p)) d else d)
    pairs sample_dict.

(** The dictionary holds, for every entity, the latest record among
    the submissions processed so far, and nothing for an entity that
    none of them touches. *)
Definition tracks (remote : Remote) (processed : list Submission)
    (d : dict StatusRecord) : Prop :=
  forall e,
    match dict_get e d with
    | Some r => latest_for remote processed e r
    | None => forall s, In s processed -> ~ touches remote s e
    end.

(** A service with two submissions of [sample-1]: [sub-1] at time [t1]
    with a failed workflow, [sub-2] at time [t2] with a succeeded one. *)
Definition resubmitted (t1 t2 : isotime) : Remote :=
  {| list_submissions :=
       mkResponse 200%Z
         [ mkSubmission "sub-1" "ns/cfg" t1 "sample" "sample-1";
           mkSubmission "sub-2" "ns/cfg" t2 "sample" "sample-1" ];
     get_submission := fun submission_id =>
       mkResponse 200%Z
         (if String.eqb submission_id "sub-1"
          then [ mkWorkflow "wf-1" "Failed" None ]
          else [ mkWorkflow "wf-2" "Succeeded" None ]);
     get_workflow_metadata := fun _ _ =>
       mkResponse 200%Z (mkMetadata 0 None "wf" []) |}.

(** The record of [e] comes from the first of the latest submissions
    that touch [e]: every submission touching [e] before it in the list
    is strictly older, and none after it is later. *)
Definition first_latest_for (remote : Remote) (submissions : list Submission)
    (e : string) (r : StatusRecord) : Prop :=
  exists before s after,
    submissions = before ++ s :: after /\
    record_for remote s e = Some r /\
    (forall s', In s' before -> touches remote s' e ->
                submissionDate s' < submissionDate s) /\
    (forall s', In s' after -> touches remote s' e ->
                submissionDate s' <= submissionDate s).

(** The dictionary holds, for every entity, the record of the first of
    the latest submissions processed so far, in the order in which they
    were processed. *)
Definition tracks_first (remote : Remote) (processed : list Submission)
    (d : dict StatusRecord) : Prop :=
  forall e,
    match dict_get e d with
    | Some r => first_latest_for remote processed e r
    | None => forall s, In s processed -> ~ touches remote s e
    end.

(** The service of [resubmitted] where the request for [sub-1] is
    answered without workflow. *)
Definition abandoned (t1 t2 : isotime) : Remote :=
  {| list_submissions := list_submissions (resubmitted t1 t2);
     get_submission := fun submission_id =>
       mkResponse 200%Z
         (if String.eqb submission_id "sub-1"
          then []
          else [ mkWorkflow "wf-2" "Succeeded" None ]);
     get_workflow_metadata := get_workflow_metadata (resubmitted t1 t2) |}.

End ReducerSpec.

Module StatsSpec.
Import Aggregator FetchSpec DiagnosticsSpec.

(** The workflow name in the metadata of a row of the status table. *)
Definition workflow_of (remote : Remote) (row : string * StatusRecord) : string :=
  workflowName (metadata_of remote row).

(** The succeeded rows whose workflow has name [w]. *)
Definition rows_of_workflow (remote : Remote) (status_df : dict StatusRecord)
    (w : string) : dict StatusRecord :=
  filter (fun row => String.eqb (workflow_of remote row) w) (succeeded status_df).

(** In the order of [np.sort]. *)
Definition ascending : list string -> Prop :=
  StronglySorted (fun a b => String.leb a b = true).

(** A service with one failed and three succeeded samples; the
    metadata of [sub-2] belongs to workflow [rnaseq], with call
    [rnaseq.star], every other one to workflow [align], with call
    [align.bwa]. *)
Definition two_workflows : Remote :=
  {| list_submissions := mkResponse 200%Z [];
     get_submission := fun _ => mkResponse 200%Z [];
     get_workflow_metadata := fun submission_id _ =>
       mkResponse 200%Z
         (if String.eqb submission_id "sub-2"
          then mkMetadata 0 (Some 7200) "rnaseq"
                 [ ("rnaseq.star",
                    [ mkAttempt 0 (Some 7200) "Done" "j2" "gs://b/2" true
                        "z/n1-highmem-8" ]) ]
          else mkMetadata 0 (Some 3600) "align"
                 [ ("align.bwa",
                    [ mkAttempt 0 (Some 3600) "Done" "j1" "gs://b/1" true
                        "z/n1-standard-4" ]) ]) |}.

Definition four_samples : dict StatusRecord :=
  [ ("sample-1", mkStatusRecord "Succeeded" (Fin 10) "sub-1" "cfg" "wf-1");
    ("sample-2", mkStatusRecord "Succeeded" (Fin 20) "sub-2" "cfg" "wf-2");
    ("sample-3", mkStatusRecord "Failed" (Fin 30) "sub-3" "cfg" "wf-3");
    ("sample-4", mkStatusRecord "Succeeded" (Fin 40) "sub-4" "cfg" "wf-4") ].

End StatsSpec.
(*ENDDEFS*)

Module OrderSpec.
Import StatusReducer ReducerSpec.

(** [keys] followed by [k] unless [k] is among them. *)
Definition add_new (keys : list string) (k : string) : list string :=
  if existsb (String.eqb k) keys then keys else keys ++ [k].

(** The distinct elements of a list, in the order of their first
    occurrence. *)
Definition first_occurrences (l : list string) : list string :=
  fold_left add_new l [].

(** The entity ids of the submissions matching the configuration, in
    the order of the list and, within a submission, of its workflows. *)
Definition entity_ids (remote : Remote) (configuration : string) : list string :=
  flat_map (fun s => map fst (derived remote s)) (matched remote configuration).

(** The string has no dot. *)
Definition dotless (s : string) : Prop :=
  forall c, In c (list_ascii_of_string s) -> c <> "."%char.

End OrderSpec.
(*ENDDEFS*)

(* ================================================================== *)
(** * Properties *)

(* ================================================================== *)
(** ** Basic facts: results, lists, dictionaries *)

Lemma bind_ok {A B : Type} (m : result A) (k : A -> result B) (b : B) :
  bind m k = Ok b -> exists a, m = Ok a /\ k a = Ok b.
Proof.
  destruct m as [a|e]; simpl; intros H; [exists a; auto | discriminate].
Qed.

Lemma last_item_cons {A : Type} (x : A) (xs : list A) :
  last_item (x :: xs) = Ok (last (x :: xs) x).
Proof.
  unfold last_item.
  destruct (rev (x :: xs)) as [|y ys] eqn:E.
  - apply (f_equal (@List.length A)) in E. rewrite length_rev in E. discriminate.
  - f_equal.
    assert (H : x :: xs = rev ys ++ [y]).
    { rewrite <- (rev_involutive (x :: xs)), E. reflexivity. }
    rewrite H. symmetry. apply last_last.
Qed.

Lemma last_item_snoc {A : Type} (xs : list A) (x : A) :
  last_item (xs ++ [x]) = Ok x.
Proof. unfold last_item. rewrite rev_unit. reflexivity. Qed.

Lemma dict_get_In {V : Type} (k : string) (v : V) (d : dict V) :
  dict_get k d = Some v -> In (k, v) d.
Proof.
  induction d as [|[k' v'] d IH]; simpl; [discriminate|].
  destruct (String.eqb_spec k k') as [->|_].
  - intros [= ->]. now left.
  - intros H. right. auto.
Qed.

Lemma dict_get_set_eq {V : Type} (k : string) (v : V) (d : dict V) :
  dict_get k (dict_set k v d) = Some v.
Proof.
  induction d as [|[k' v'] d IH]; simpl.
  - now rewrite String.eqb_refl.
  - destruct (String.eqb_spec k k') as [->|N]; simpl.
    + now rewrite String.eqb_refl.
    + destruct (String.eqb_spec k k'); [contradiction|exact IH].
Qed.

Lemma dict_get_set_neq {V : Type} (k k' : string) (v : V) (d : dict V) :
  k' <> k -> dict_get k' (dict_set k v d) = dict_get k' d.
Proof.
  intros N. induction d as [|[k0 v0] d IH]; simpl.
  - destruct (String.eqb_spec k' k); [contradiction|reflexivity].
  - destruct (String.eqb_spec k k0) as [->|N0]; simpl.
    + destruct (String.eqb_spec k' k0); [contradiction|reflexivity].
    + destruct (String.eqb_spec k' k0); [reflexivity|exact IH].
Qed.

Lemma dict_keys_set {V : Type} (k : string) (v : V) (d : dict V) :
  dict_keys (dict_set k v d) =
  if dict_mem k d then dict_keys d else dict_keys d ++ [k].
Proof.
  unfold dict_mem.
  induction d as [|[k' v'] d IH]; simpl; [reflexivity|].
  destruct (String.eqb_spec k k') as [->|N]; simpl; [reflexivity|].
  rewrite IH. now destruct (dict_get k d).
Qed.

Lemma dict_get_None_keys {V : Type} (k : string) (d : dict V) :
  dict_get k d = None <-> ~ In k (dict_keys d).
Proof.
  induction d as [|[k' v'] d IH]; simpl; [tauto|].
  destruct (String.eqb_spec k k') as [->|N].
  - split; [discriminate|]. intros H. exfalso. apply H. now left.
  - rewrite IH. split; [intros H [E|I]; [congruence|auto] | tauto].
Qed.

(* ================================================================== *)
(** ** Sums of floats *)

Lemma qsum_app (l1 l2 : list Q) : qsum (l1 ++ l2) == qsum l1 + qsum l2.
Proof.
  induction l1 as [|q l1 IH]; simpl; [lra|]. rewrite IH. lra.
Qed.

Lemma fold_fadd_finite (xs : list pyfloat) (a : Q) :
  Forall finite xs ->
  exists s, fold_left fadd xs (Fin a) = Fin s /\ s == a + qsum (map num_of xs).
Proof.
  revert a. induction xs as [|x xs IH]; intros a F; simpl.
  - exists a. split; [reflexivity|lra].
  - inversion F as [|? ? Fx Fxs]; subst.
    destruct x as [q|]; [|now elim Fx]. simpl.
    destruct (IH (a + q) Fxs) as (s & E & Hs).
    exists s. split; [exact E|]. rewrite Hs. lra.
Qed.

Lemma np_sum_finite (xs : list pyfloat) :
  Forall finite xs ->
  exists s, np_sum xs = Fin s /\ s == qsum (map num_of xs).
Proof.
  intros F. destruct (fold_fadd_finite xs 0 F) as (s & E & Hs).
  exists s. split; [exact E|]. rewrite Hs. lra.
Qed.

Lemma fold_fadd_NaN (xs : list pyfloat) : fold_left fadd xs NaN = NaN.
Proof. induction xs as [|x xs IH]; simpl; [reflexivity|exact IH]. Qed.

Lemma fold_fadd_In_NaN (xs : list pyfloat) (a : pyfloat) :
  In NaN xs -> fold_left fadd xs a = NaN.
Proof.
  revert a. induction xs as [|x xs IH]; intros a; simpl; [tauto|].
  intros [->|I].
  - destruct a; simpl; apply fold_fadd_NaN.
  - now apply IH.
Qed.

Lemma np_sum_In_NaN (xs : list pyfloat) : In NaN xs -> np_sum xs = NaN.
Proof. apply fold_fadd_In_NaN. Qed.

Section TaskRow.
Import Pricing Aggregator AggregatorSpec.

Lemma comprehension_zip (call : list Attempt) :
  comprehension attempt_cost
    (combine (map (fun t_attempt => per_3600 (workflow_time t_attempt)) call)
             (combine (map machine_of call) (map preemptible call)))
  = comprehension attempt_cost_of call.
Proof.
  induction call as [|a call IH]; [reflexivity|].
  cbn [map combine comprehension]. rewrite IH. reflexivity.
Qed.

Lemma comprehension_Forall2 {A B : Type} (f : A -> result B) xs ys :
  comprehension f xs = Ok ys -> Forall2 (fun x y => f x = Ok y) xs ys.
Proof.
  revert ys. induction xs as [|x xs IH]; simpl; intros ys H.
  - injection H as <-. constructor.
  - apply bind_ok in H as (y & Hy & H).
    apply bind_ok in H as (ys' & Hys & H).
    injection H as <-. constructor; auto.
Qed.

Lemma comprehension_total {A B : Type} (f : A -> result B) xs :
  Forall (fun x => is_ok (f x) = true) xs ->
  exists ys, comprehension f xs = Ok ys.
Proof.
  induction 1 as [|x xs Hx _ (ys & IH)]; simpl.
  - now exists [].
  - destruct (f x) as [y|]; [|discriminate]. simpl. rewrite IH. simpl.
    now exists (y :: ys).
Qed.

Lemma many_attempts (n : nat) :
  fgtb (Fin (inject_Z (Z.of_nat (S (S n))))) (Fin 1) = true.
Proof.
  simpl fgtb. apply negb_true_iff.
  destruct (Qle_bool _ _) eqn:E; [|reflexivity].
  apply Qle_bool_iff in E. unfold Qle in E. cbn [Qnum Qden inject_Z] in E. lia.
Qed.

(** The row of a non-empty call, field by field. *)
Lemma task_row_cons (a0 : Attempt) (rest : list Attempt) :
  let call := a0 :: rest in
  task_row call =
    (costs <- comprehension attempt_cost_of call ;;
     Ok {| time_h := hours (last call a0);
           total_time_h := np_sum (map hours call);
           max_preempt_time_h :=
             if preemptible a0 then max_before_last call else unset;
           machine_type := machine_of (last call a0);
           attempts :=
             if preemptible a0
             then Fin (inject_Z (Z.of_nat (List.length call)))
             else unset;
           start_time := att_start (last call a0);
           est_cost := np_sum costs;
           job_ids := String.concat "," (map jobId call) |}).
Proof.
  intros call. subst call. unfold task_row. rewrite last_item_cons. cbn [bind].
  rewrite comprehension_zip.
  change (first_item (map preemptible (a0 :: rest))) with (Ok (preemptible a0)).
  cbn [bind]. destruct (preemptible a0).
  - destruct rest as [|b rest].
    + reflexivity.
    + cbn [List.length]. rewrite many_attempts.
      unfold max_before_last.
      change (removelast (a0 :: b :: rest)) with (a0 :: removelast (b :: rest)).
      reflexivity.
  - reflexivity.
Qed.

Lemma task_row_nil : task_row [] = Raise IndexError.
Proof. reflexivity. Qed.

Lemma comprehension_app {A B : Type} (f : A -> result B) (l1 l2 : list A) :
  comprehension f (l1 ++ l2) =
  (ys1 <- comprehension f l1 ;; ys2 <- comprehension f l2 ;; Ok (ys1 ++ ys2)).
Proof.
  induction l1 as [|x l1 IH]; simpl.
  - destruct (comprehension f l2); reflexivity.
  - destruct (f x) as [y|]; [simpl|reflexivity]. rewrite IH.
    destruct (comprehension f l1) as [ys1|]; [simpl|reflexivity].
    destruct (comprehension f l2); reflexivity.
Qed.

Lemma price_positive (m : string) (p : bool) (x : pyfloat) :
  get_vm_cost m p = Ok x -> exists c, x = Fin c /\ 0 < c.
Proof.
  unfold get_vm_cost, dict_item. intros H.
  destruct p.
  - destruct (dict_get m preemptible_dict) as [c|] eqn:E; [|discriminate].
    injection H as <-. exists c. split; [reflexivity|].
    apply dict_get_In in E. vm_compute in E.
    repeat (destruct E as [E|E]; [injection E as _ <-; reflexivity|]).
    contradiction.
  - destruct (dict_get m standard_dict) as [c|] eqn:E; [|discriminate].
    injection H as <-. exists c. split; [reflexivity|].
    apply dict_get_In in E. vm_compute in E.
    repeat (destruct E as [E|E]; [injection E as _ <-; reflexivity|]).
    contradiction.
Qed.

Lemma priced_cost (a : Attempt) :
  priced a ->
  exists c, 0 < c /\ attempt_cost_of a = Ok (fmul (Fin c) (hours a)).
Proof.
  unfold priced, attempt_cost_of, attempt_cost. intros P.
  destruct (get_vm_cost (machine_of a) (preemptible a)) as [x|] eqn:E;
    [|discriminate].
  destruct (price_positive _ _ _ E) as (c & -> & Hc).
  exists c. split; [exact Hc|reflexivity].
Qed.

Lemma priced_costs (call : list Attempt) :
  Forall priced call ->
  exists costs, comprehension attempt_cost_of call = Ok costs.
Proof.
  intros P. apply comprehension_total.
  apply Forall_impl with (2 := P). intros a Pa.
  destruct (priced_cost a Pa) as (c & _ & ->). reflexivity.
Qed.

Lemma ended_hours (a : Attempt) :
  ended a -> exists h, hours a = Fin h /\ 0 <= h.
Proof.
  intros (e & E & Hle). unfold hours, workflow_time. cbn [end_ start Timed_Attempt].
  rewrite E. cbn [convert_time fsub per_3600].
  eexists. split; [reflexivity|].
  apply Qle_shift_div_l; lra.
Qed.

(** An attempt that has ended on a priced machine costs a non-negative
    amount. *)
Lemma billable_cost (a : Attempt) :
  ended a -> priced a ->
  exists x, attempt_cost_of a = Ok (Fin x) /\ 0 <= x.
Proof.
  intros En P.
  destruct (ended_hours a En) as (h & Hh & Hpos).
  destruct (priced_cost a P) as (c & Hc & E).
  rewrite Hh in E. exists (c * h). split; [exact E|].
  apply Qmult_le_0_compat; lra.
Qed.

Lemma billable_costs (call : list Attempt) :
  Forall ended call -> Forall priced call ->
  exists qs, comprehension attempt_cost_of call = Ok (map Fin qs)
             /\ Forall (fun q => 0 <= q) qs.
Proof.
  induction call as [|a call IH]; intros En P.
  - exists []. split; [reflexivity|constructor].
  - inversion En; inversion P; subst.
    destruct IH as (qs & E & Hqs); auto.
    destruct (billable_cost a) as (x & Ex & Hx); auto.
    exists (x :: qs). split; [|constructor; auto].
    simpl. rewrite Ex. simpl. rewrite E. reflexivity.
Qed.

Lemma ended_hours_list (call : list Attempt) :
  Forall ended call ->
  exists hs, map hours call = map Fin hs /\ Forall (fun q => 0 <= q) hs.
Proof.
  induction 1 as [|a call En _ (hs & E & Hhs)].
  - exists []. split; [reflexivity|constructor].
  - destruct (ended_hours a En) as (h & Eh & Hh).
    exists (h :: hs). split; [|constructor; auto].
    simpl. now rewrite Eh, E.
Qed.

Lemma np_sum_Fin (qs : list Q) :
  exists s, np_sum (map Fin qs) = Fin s /\ s == qsum qs.
Proof.
  destruct (np_sum_finite (map Fin qs)) as (s & E & Hs).
  - apply Forall_forall. intros x Hx. apply in_map_iff in Hx as (q & <- & _).
    discriminate.
  - exists s. split; [exact E|]. rewrite Hs, map_map. simpl. now rewrite map_id.
Qed.


End TaskRow.

Section Claims_TaskRow.
Import Pricing Aggregator AggregatorSpec.



(** The maximum that [np.max] returns on finite floats. *)
Lemma np_max_finite (xs : list pyfloat) (m : pyfloat) :
  np_max xs = Ok m -> Forall finite xs ->
  In m xs /\ Forall (fun x => fle x m) xs.
Proof.
  destruct xs as [|x xs]; [discriminate|]. simpl. intros [= <-] F.
  inversion F as [|? ? Fx Fxs]; subst. clear F.
  destruct x as [q|]; [clear Fx|now elim Fx].
  assert (G : forall xs q, Forall finite xs ->
            exists s, fold_left fmax xs (Fin q) = Fin s /\ q <= s /\
                      (s = q \/ In (Fin s) xs) /\
                      Forall (fun x => fle x (Fin s)) xs).
  { clear. induction xs as [|y ys IH]; intros q F; simpl.
    - exists q. split; [reflexivity|]. split; [lra|]. split; [now left|constructor].
    - inversion F as [|? ? Fy Fys]; subst.
      destruct y as [p|]; [|now elim Fy]. simpl.
      destruct (Qle_bool q p) eqn:E.
      + apply Qle_bool_iff in E.
        destruct (IH p Fys) as (s & Es & Hs & Hin & Hall).
        exists s. split; [exact Es|]. split; [lra|]. split.
        * destruct Hin as [->|Hin]; [right; now left|right; now right].
        * constructor; [simpl; lra|exact Hall].
      + assert (p < q).
        { apply Qnot_le_lt. intros H. apply Qle_bool_iff in H. congruence. }
        destruct (IH q Fys) as (s & Es & Hs & Hin & Hall).
        exists s. split; [exact Es|]. split; [exact Hs|]. split.
        * destruct Hin as [->|Hin]; [now left|right; now right].
        * constructor; [simpl; lra|exact Hall]. }
  destruct (G xs q Fxs) as (s & -> & Hs & Hin & Hall).
  split.
  - destruct Hin as [->|Hin]; [now left|now right].
  - constructor; [exact Hs|exact Hall].
Qed.

(** C7.  For a call whose row is computed (at least one attempt, every
    machine priced): [attempts] is the number of attempts when the first
    attempt was preemptible and stays unset otherwise, whatever the number of
    attempts; [max_preempt_time_h] is written only when [attempts > 1]
    holds of that cell, with the [np.max] of the elapsed times of all
    attempts but the last (over 3600), and stays unset otherwise.  On
    finite elapsed times that [np.max] is one of them and bounds them
    all. *)
Theorem C7_attempts_and_max_preempt (call : list Attempt) :
  call <> [] ->
  Forall priced call ->
  exists r a0,
    task_row call = Ok r /\
    hd_error call = Some a0 /\
    attempts r =
      (if preemptible a0
       then Fin (inject_Z (Z.of_nat (List.length call))) else unset) /\
    (fgtb (attempts r) (Fin 1) = true <->
       preemptible a0 = true /\ (1 < List.length call)%nat) /\
    (fgtb (attempts r) (Fin 1) = false -> max_preempt_time_h r = unset) /\
    (fgtb (attempts r) (Fin 1) = true ->
       exists m, np_max (map workflow_time (removelast call)) = Ok m /\
                 max_preempt_time_h r = per_3600 m /\
                 (Forall finite (map workflow_time (removelast call)) ->
                    In m (map workflow_time (removelast call)) /\
                    Forall (fun x => fle x m)
                      (map workflow_time (removelast call)))).
Proof.
  intros NE P. destruct call as [|a0 rest]; [contradiction|].
  destruct (priced_costs (a0 :: rest) P) as (costs & E).
  rewrite task_row_cons, E. cbn [bind].
  eexists. exists a0. split; [reflexivity|]. split; [reflexivity|].
  cbn [attempts max_preempt_time_h].
  destruct (preemptible a0); destruct rest as [|b rest].
  - split; [reflexivity|]. split; [|split].
    + cbn. split; [discriminate|]. intros [_ H]. lia.
    + reflexivity.
    + cbn. discriminate.
  - split; [reflexivity|]. cbn [List.length]. rewrite many_attempts.
    split; [|split].
    + split; [intros _; split; [reflexivity|lia]|reflexivity].
    + discriminate.
    + intros _. unfold max_before_last.
      change (removelast (a0 :: b :: rest)) with (a0 :: removelast (b :: rest)).
      cbn [map np_max]. eexists. split; [reflexivity|]. split; [reflexivity|].
      intros F. apply np_max_finite; [reflexivity|exact F].
  - split; [reflexivity|]. split; [|split].
    + cbn. split; [discriminate|]. intros [H _]. discriminate.
    + reflexivity.
    + cbn. discriminate.
  - split; [reflexivity|]. split; [|split].
    + cbn. split; [discriminate|]. intros [H _]. discriminate.
    + reflexivity.
    + cbn. discriminate.
Qed.

Lemma C7_attempts_and_max_preempt_witness :
  let a1 := mkAttempt 0 (Some 1440) "Failed" "j1" "gs://b/1" false "z/n1-standard-4" in
  let a2 := mkAttempt 3000 (Some 7320) "Done" "j2" "gs://b/2" false "z/n1-standard-4" in
  exists r,
    task_row [a1; a2] = Ok r /\ attempts r = unset /\ max_preempt_time_h r = unset.
Proof.
  intros a1 a2.
  destruct (C7_attempts_and_max_preempt [a1; a2]) as (r & a0 & E & H0 & Ha & _ & Hu & _).
  - discriminate.
  - repeat constructor.
  - injection H0 as <-. exists r. split; [exact E|]. split; [exact Ha|].
    apply Hu. rewrite Ha. reflexivity.
Defined.

(** C5.  Three preemptible attempts of 0.4 h, 0.05 h and 1.2 h (1440 s,
    180 s and 4320 s, whenever they start) on an [n1-standard-4], which
    the preemptible table bills at $0.04 per hour, with statuses Failed,
    Failed, Done: the row has [time_h] = 1.2, [total_time_h] = 1.65,
    [attempts] = 3, [max_preempt_time_h] = 0.4 and
    [est_cost] = (0.4+0.05+1.2)*0.04 = 0.066. *)
Theorem C5_three_preemptible_attempts (t1 t2 t3 : isotime) (j1 j2 j3 : string) :
  exists r,
    task_row
      [ mkAttempt t1 (Some (t1 + 1440)) "Failed" j1 "gs://b/1" true
          "us-central1-b/n1-standard-4";
        mkAttempt t2 (Some (t2 + 180)) "Failed" j2 "gs://b/2" true
          "us-central1-b/n1-standard-4";
        mkAttempt t3 (Some (t3 + 4320)) "Done" j3 "gs://b/3" true
          "us-central1-b/n1-standard-4" ] = Ok r /\
    machine_type r = "n1-standard-4" /\
    get_vm_cost "n1-standard-4" true = Ok (Fin 0.0400) /\
    is_num (time_h r) 1.2 /\
    is_num (total_time_h r) 1.65 /\
    is_num (attempts r) 3 /\
    is_num (max_preempt_time_h r) 0.4 /\
    is_num (est_cost r) ((0.4 + 0.05 + 1.2) * 0.04) /\
    is_num (est_cost r) 0.066.
Proof.
  rewrite task_row_cons.
  eexists. split; [reflexivity|].
  cbn [machine_type time_h total_time_h attempts max_preempt_time_h est_cost
       preemptible].
  split; [reflexivity|].
  split; [reflexivity|].
  split.
  { cbn. field_simplify_eq. reflexivity. }
  split.
  { cbn. field_simplify_eq. reflexivity. }
  split.
  { cbn. reflexivity. }
  split.
  { unfold max_before_last. cbn [removelast map workflow_time end_ start
      Timed_Attempt att_end att_start convert_time fsub fold_left fmax].
    destruct (Qle_bool (t1 + 1440 - t1) (t2 + 180 - t2)) eqn:E.
    - apply Qle_bool_iff in E. lra.
    - cbn. field_simplify_eq. reflexivity. }
  assert (C : is_num
    (np_sum [ fmul (Fin 0.0400) (hours (mkAttempt t1 (Some (t1 + 1440)) "Failed" j1 "gs://b/1" true "us-central1-b/n1-standard-4"));
              fmul (Fin 0.0400) (hours (mkAttempt t2 (Some (t2 + 180)) "Failed" j2 "gs://b/2" true "us-central1-b/n1-standard-4"));
              fmul (Fin 0.0400) (hours (mkAttempt t3 (Some (t3 + 4320)) "Done" j3 "gs://b/3" true "us-central1-b/n1-standard-4"))])
    0.066).
  { cbn. field_simplify_eq. reflexivity. }
  split; [|exact C].
  revert C. cbn. intros C. rewrite C. reflexivity.
Qed.

Lemma hours_no_end (a : Attempt) : att_end a = None -> hours a = NaN.
Proof.
  intros E. unfold hours, workflow_time. cbn [end_ Timed_Attempt].
  now rewrite E.
Qed.

Lemma last_In {A : Type} (xs : list A) (d : A) :
  xs <> [] -> In (last xs d) xs.
Proof.
  induction xs as [|x xs IH]; [contradiction|]. intros _.
  destruct xs as [|y ys]; [now left|].
  right. apply IH. discriminate.
Qed.

Lemma Forall2_In_left {A B : Type} (R : A -> B -> Prop) xs ys x :
  Forall2 R xs ys -> In x xs -> exists y, In y ys /\ R x y.
Proof.
  induction 1 as [|x' y' xs ys Hxy _ IH]; simpl; [tauto|].
  intros [->|I].
  - exists y'. auto.
  - destruct (IH I) as (y & Hy & Hr). exists y. auto.
Qed.

(** C10.  A record without ['end'] has elapsed time NaN, with no
    exception.  For a call whose last attempt has no end time (every
    machine priced), the row is computed and its [time_h],
    [total_time_h] and [est_cost] are NaN. *)
Theorem C10_missing_end_is_NaN (A : Type) (T : Timed A) (w : A)
    (call : list Attempt) (a : Attempt) :
  end_ w = None ->
  last_item call = Ok a ->
  att_end a = None ->
  Forall priced call ->
  workflow_time w = NaN /\
  exists r, task_row call = Ok r /\
            time_h r = NaN /\ total_time_h r = NaN /\ est_cost r = NaN.
Proof.
  intros Ew La Ea P. split.
  { unfold workflow_time. now rewrite Ew. }
  destruct call as [|a0 rest]; [discriminate|].
  rewrite last_item_cons in La.
  assert (La' : last (a0 :: rest) a0 = a) by congruence. clear La.
  assert (Hin : In a (a0 :: rest)).
  { rewrite <- La'. apply last_In. discriminate. }
  destruct (priced_costs _ P) as (costs & E).
  rewrite task_row_cons, E. cbn [bind].
  eexists. split; [reflexivity|].
  cbn [time_h total_time_h est_cost]. rewrite La'.
  split; [now apply hours_no_end|]. split.
  - apply np_sum_In_NaN. apply in_map_iff. exists a. split; [|exact Hin].
    now apply hours_no_end.
  - apply np_sum_In_NaN.
    apply comprehension_Forall2 in E.
    destruct (Forall2_In_left _ _ _ _ E Hin) as (y & Hy & Ey).
    rewrite Forall_forall in P.
    destruct (priced_cost a (P a Hin)) as (c & _ & Ec).
    rewrite Ec, hours_no_end in Ey by exact Ea.
    injection Ey as <-. exact Hy.
Qed.

Lemma C10_missing_end_is_NaN_witness :
  let a1 := mkAttempt 0 (Some 1440) "Failed" "j1" "gs://b/1" true "z/n1-standard-4" in
  let a2 := mkAttempt 3000 None "Running" "j2" "gs://b/2" true "z/n1-standard-4" in
  workflow_time (mkMetadata 0 None "wf" []) = NaN /\
  exists r, task_row [a1; a2] = Ok r /\
            time_h r = NaN /\ total_time_h r = NaN /\ est_cost r = NaN.
Proof.
  intros a1 a2.
  apply (C10_missing_end_is_NaN Metadata _ (mkMetadata 0 None "wf" []) [a1; a2] a2).
  - reflexivity.
  - reflexivity.
  - reflexivity.
  - repeat constructor.
Defined.

Lemma last_map {A B : Type} (f : A -> B) (xs : list A) (d : A) :
  last (map f xs) (f d) = f (last xs d).
Proof.
  induction xs as [|x xs IH]; [reflexivity|].
  destruct xs as [|y ys]; [reflexivity|]. exact IH.
Qed.

Lemma removelast_map {A B : Type} (f : A -> B) (xs : list A) :
  removelast (map f xs) = map f (removelast xs).
Proof.
  induction xs as [|x xs IH]; [reflexivity|].
  destruct xs as [|y ys]; [reflexivity|].
  cbn [map removelast] in *. now rewrite IH.
Qed.

(** C8, as the code has it.  [get_stats] never reads
    ['executionStatus']: relabelling the statuses of the attempts in any
    way leaves the row of the task, or the exception raised, unchanged.
    A non-terminal attempt before the last one is aggregated like every
    other attempt. *)
Theorem C8_status_is_not_inspected (relabel : Attempt -> string)
    (call : list Attempt) :
  task_row (map (fun a => with_status a (relabel a)) call) = task_row call.
Proof.
  set (f := fun a => with_status a (relabel a)).
  destruct call as [|a0 rest]; [reflexivity|].
  cbn [map]. rewrite !task_row_cons.
  change (f a0 :: map f rest) with (map f (a0 :: rest)).
  assert (Ec : comprehension attempt_cost_of (map f (a0 :: rest))
               = comprehension attempt_cost_of (a0 :: rest)).
  { generalize (a0 :: rest). intros l.
    induction l as [|x l IH]; [reflexivity|].
    cbn [map comprehension]. rewrite IH. reflexivity. }
  rewrite Ec.
  destruct (comprehension attempt_cost_of (a0 :: rest)) as [costs|]; [|reflexivity].
  cbn [bind]. rewrite last_map, length_map, !map_map.
  unfold max_before_last. rewrite removelast_map, map_map.
  reflexivity.
Qed.

(** C8, counterexample.  A first attempt that is still running (no end
    time) followed by a finished one: the row is computed, nothing is
    rejected, and it is not the row of the terminal attempt alone. *)
Lemma C8_counterexample :
  ~ (forall call, non_terminal_before_last call -> rejected_or_terminal_only call).
Proof.
  intros H.
  set (a1 := mkAttempt 0 None "Running" "j1" "gs://b/1" true "z/n1-standard-1").
  set (a2 := mkAttempt 100 (Some 3700) "Done" "j2" "gs://b/2" true "z/n1-standard-1").
  destruct (H [a1; a2]) as [R|R].
  - exists [], a1, [a2]. split; [reflexivity|]. split; [discriminate|reflexivity].
  - discriminate R.
  - discriminate R.
Qed.

End Claims_TaskRow.

(* ================================================================== *)
(** ** VM costs *)

Section Claims_Pricing.
Import Pricing.

Lemma get_vm_cost_absent (m : string) (p : bool) :
  dict_get m (if p then preemptible_dict else standard_dict) = None ->
  get_vm_cost m p = Raise (KeyError m).
Proof.
  unfold get_vm_cost, dict_item. destruct p; intros ->; reflexivity.
Qed.

Lemma get_vm_cost_present (m : string) (p : bool) (c : Q) :
  dict_get m (if p then preemptible_dict else standard_dict) = Some c ->
  get_vm_cost m p = Ok (Fin c).
Proof.
  unfold get_vm_cost, dict_item. destruct p; intros ->; reflexivity.
Qed.

(** Every item of the on-demand display is returned as written. *)
Lemma standard_round_trip (m : string) (c : Q) :
  In (m, c) standard_items -> get_vm_cost m false = Ok (Fin c).
Proof.
  intros H. unfold standard_items in H. cbn [In] in H.
  repeat (destruct H as [H|H]; [injection H as <- <-; reflexivity|]).
  contradiction.
Qed.

(** Every item of the preemptible display but the first of the two
    written for [n1-standard-32] is returned as written. *)
Lemma preemptible_round_trip (m : string) (c : Q) :
  In (m, c) preemptible_items ->
  (m, c) <> ("n1-standard-32", 0.3200) ->
  get_vm_cost m true = Ok (Fin c).
Proof.
  intros H N. unfold preemptible_items in H. cbn [In] in H.
  repeat (destruct H as [H|H];
          [injection H as <- <-; first [reflexivity | now elim N]|]).
  contradiction.
Qed.

(** C4.  The preemptible display writes the key [n1-standard-32] twice,
    with 0.32 and then with 0.64, and has no key [n1-standard-64]: the
    item [n1-standard-32: 0.32] is not returned, the lookup gives 0.64;
    [n1-standard-64] raises [KeyError] in the preemptible table although
    the on-demand table prices it. *)
Theorem C4_preemptible_table_repeats_a_key :
  In ("n1-standard-32", 0.3200) preemptible_items /\
  get_vm_cost "n1-standard-32" true = Ok (Fin 0.6400) /\
  get_vm_cost "n1-standard-64" true = Raise (KeyError "n1-standard-64") /\
  get_vm_cost "n1-standard-64" false = Ok (Fin 3.0400).
Proof.
  split.
  - unfold preemptible_items. cbn [In]. tauto.
  - repeat split; reflexivity.
Qed.

End Claims_Pricing.

(* ================================================================== *)
(** ** Metadata requests of [get_stats] *)

Section Claims_Fetch.
Import Aggregator FetchSpec.

Lemma assert_200_ok {A : Type} (r : Response A) :
  Z.eqb (status_code r) 200 = true -> assert_200 r = Ok (json r).
Proof. unfold assert_200. now intros ->. Qed.

Lemma assert_200_fails {A : Type} (r : Response A) :
  Z.eqb (status_code r) 200 = false -> assert_200 r = Raise AssertionError.
Proof. unfold assert_200. now intros ->. Qed.

(** The loop of lines 315-320 from any accumulated dictionary. *)
Lemma fetch_loop (remote : Remote) (rows : dict StatusRecord) (acc : dict Metadata) :
  for_each
    (fun metadata_dict irow =>
       metadata <- assert_200 (get_workflow_metadata remote
                     (sr_submission_id (snd irow)) (sr_workflow_id (snd irow))) ;;
       Ok (dict_set (fst irow) metadata metadata_dict))
    rows acc
  = if forallb (fetch_ok remote) rows
    then Ok (fold_left
               (fun d row => dict_set (fst row) (json (metadata_response remote row)) d)
               rows acc)
    else Raise AssertionError.
Proof.
  revert acc. induction rows as [|row rows IH]; intros acc; [reflexivity|].
  cbn [for_each forallb fold_left].
  unfold fetch_ok at 1, metadata_response at 1.
  destruct (Z.eqb _ 200) eqn:E.
  - rewrite assert_200_ok by exact E. cbn [bind andb]. apply IH.
  - rewrite assert_200_fails by exact E. reflexivity.
Qed.

Lemma fold_left_over_map {A B C : Type} (f : C -> B -> C) (g : A -> B)
    (xs : list A) (acc : C) :
  fold_left f (map g xs) acc = fold_left (fun c x => f c (g x)) xs acc.
Proof.
  revert acc. induction xs as [|x xs IH]; intros acc; [reflexivity|]. apply IH.
Qed.

Lemma fetch_metadata_eq (remote : Remote) (rows : dict StatusRecord) :
  fetch_metadata remote rows
  = if forallb (fetch_ok remote) rows
    then Ok (dict_display
               (map (fun row => (fst row, json (metadata_response remote row))) rows))
    else Raise AssertionError.
Proof.
  unfold fetch_metadata. rewrite fetch_loop.
  destruct (forallb _ _); [|reflexivity]. f_equal.
  unfold dict_display. rewrite fold_left_over_map. reflexivity.
Qed.

Lemma dict_display_keys_from {V : Type} (items : list (string * V)) (acc : dict V) :
  NoDup (dict_keys acc ++ map fst items) ->
  dict_keys (fold_left (fun d kv => dict_set (fst kv) (snd kv) d) items acc)
  = dict_keys acc ++ map fst items.
Proof.
  revert acc. induction items as [|[k v] items IH]; intros acc ND; simpl.
  - now rewrite app_nil_r.
  - assert (Hk : dict_mem k acc = false).
    { unfold dict_mem. destruct (dict_get k acc) eqn:E; [|reflexivity].
      exfalso. apply NoDup_remove_2 in ND. apply ND. apply in_or_app. left.
      apply dict_get_In in E. apply in_map_iff. now exists (k, v0). }
    rewrite IH.
    + rewrite dict_keys_set, Hk, <- app_assoc. reflexivity.
    + rewrite dict_keys_set, Hk, <- app_assoc. exact ND.
Qed.

Lemma dict_display_keys {V : Type} (items : list (string * V)) :
  NoDup (map fst items) -> dict_keys (dict_display items) = map fst items.
Proof. intros ND. apply (dict_display_keys_from items []). exact ND. Qed.

Lemma dict_display_other {V : Type} (items : list (string * V)) (acc : dict V)
    (k : string) :
  ~ In k (map fst items) ->
  dict_get k (fold_left (fun d kv => dict_set (fst kv) (snd kv) d) items acc)
  = dict_get k acc.
Proof.
  revert acc. induction items as [|[k' v'] items IH]; intros acc N; [reflexivity|].
  simpl in *. rewrite IH by tauto.
  apply dict_get_set_neq. intros ->. apply N. now left.
Qed.

Lemma dict_display_get_from {V : Type} (items : list (string * V)) (acc : dict V)
    (k : string) (v : V) :
  NoDup (map fst items) -> In (k, v) items ->
  dict_get k (fold_left (fun d kv => dict_set (fst kv) (snd kv) d) items acc) = Some v.
Proof.
  revert acc. induction items as [|[k' v'] items IH]; intros acc ND I; [contradiction|].
  simpl in *. inversion ND as [|? ? Hk ND']; subst.
  destruct I as [[= -> ->]|I].
  - rewrite dict_display_other by exact Hk. apply dict_get_set_eq.
  - now apply IH.
Qed.

Lemma dict_display_get {V : Type} (items : list (string * V)) (k : string) (v : V) :
  NoDup (map fst items) -> In (k, v) items ->
  dict_get k (dict_display items) = Some v.
Proof. apply dict_display_get_from. Qed.

(** C1, as the code has it.  Every metadata request is asserted: when a
    request for one of the succeeded rows does not return status 200,
    [get_stats] raises [AssertionError] and there is no result for any
    entity.  Only when every request returns 200 does the loop end, with
    the metadata of every succeeded row under its entity, in the order
    of the rows. *)
Theorem C1_failed_fetch_aborts (remote : Remote) (status_df : dict StatusRecord) :
  (existsb (fun row => negb (fetch_ok remote row)) (succeeded status_df) = true ->
     get_stats remote status_df = Raise AssertionError) /\
  (forallb (fetch_ok remote) (succeeded status_df) = true ->
     NoDup (dict_keys (succeeded status_df)) ->
     exists metadata_dict,
       fetch_metadata remote (succeeded status_df) = Ok metadata_dict /\
       dict_keys metadata_dict = dict_keys (succeeded status_df) /\
       forall row, In row (succeeded status_df) ->
         dict_get (fst row) metadata_dict = Some (json (metadata_response remote row))).
Proof.
  split.
  - intros H. unfold get_stats. fold (succeeded status_df).
    rewrite fetch_metadata_eq.
    destruct (forallb (fetch_ok remote) (succeeded status_df)) eqn:E; [|reflexivity].
    exfalso. apply existsb_exists in H as (row & I & N).
    rewrite forallb_forall in E. rewrite (E row I) in N. discriminate.
  - intros H ND. rewrite fetch_metadata_eq, H.
    set (items := map (fun row => (fst row, json (metadata_response remote row)))
                      (succeeded status_df)).
    assert (K : map fst items = dict_keys (succeeded status_df)).
    { unfold items, dict_keys. rewrite map_map. reflexivity. }
    exists (dict_display items). split; [reflexivity|]. split.
    + rewrite dict_display_keys; [exact K|]. now rewrite K.
    + intros row I. apply dict_display_get; [now rewrite K|].
      unfold items. apply in_map_iff. now exists row.
Qed.

Lemma C1_failed_fetch_aborts_witness :
  get_stats failing_remote two_succeeded = Raise AssertionError /\
  exists metadata_dict,
    fetch_metadata failing_remote (succeeded one_succeeded) = Ok metadata_dict /\
    dict_keys metadata_dict = ["sample-2"].
Proof.
  split.
  - apply (proj1 (C1_failed_fetch_aborts failing_remote two_succeeded)).
    reflexivity.
  - destruct (proj2 (C1_failed_fetch_aborts failing_remote one_succeeded))
      as (metadata_dict & E & K & _).
    + reflexivity.
    + repeat constructor. intros [].
    + exists metadata_dict. split; [exact E|exact K].
Defined.

(** C1, counterexample.  Two succeeded rows, the request for the first
    one answered with status 500: [get_stats] raises, so the second
    entity is in no result. *)
Lemma C1_counterexample : ~ tolerates_failed_fetch.
Proof.
  intros H.
  destruct (H failing_remote two_succeeded) as (tables & E & _); [reflexivity|].
  discriminate E.
Qed.

End Claims_Fetch.

(* ================================================================== *)
(** ** Failure state matrix *)

Section Claims_Diagnostics.
Import Diagnostics FetchSpec DiagnosticsSpec.

(** A comprehension with a raising item raises, and what it raises is
    raised by one of its items. *)
Lemma comprehension_raises {A B : Type} (f : A -> result B) (Q : exn -> Prop)
    (xs : list A) :
  (exists x, In x xs /\ is_ok (f x) = false) ->
  (forall x e, In x xs -> f x = Raise e -> Q e) ->
  exists e, comprehension f xs = Raise e /\ Q e.
Proof.
  induction xs as [|x xs IH]; intros (x0 & I & N) HQ; [contradiction|].
  cbn [comprehension]. destruct (f x) as [y|e] eqn:E.
  - destruct IH as (e & Ee & Qe).
    + destruct I as [->|I]; [rewrite E in N; discriminate|]. now exists x0.
    + intros x1 e I1. apply HQ. now right.
    + exists e. cbn [bind]. rewrite Ee. auto.
  - exists e. split; [reflexivity|]. apply (HQ x); [now left|exact E].
Qed.

Lemma status_code_known (s : string) (c : Z) :
  dict_get s status_code = Some c ->
  (s = "Running" /\ c = 1%Z) \/ (s = "Done" /\ c = 2%Z) \/ (s = "Failed" /\ c = (-1)%Z).
Proof.
  intros H. apply dict_get_In in H. vm_compute in H.
  destruct H as [[= <- <-]|[[= <- <-]|[[= <- <-]|[]]]]; auto.
Qed.

Lemma cell_absent (metadata : Metadata) (t : string) :
  dict_get t (calls metadata) = None -> cell metadata t = Ok 0%Z.
Proof. unfold cell. now intros ->. Qed.

Lemma cell_unrecognized (metadata : Metadata) (t : string) attempts a :
  dict_get t (calls metadata) = Some attempts ->
  last_item attempts = Ok a ->
  unrecognized (executionStatus a) ->
  cell metadata t = Raise (KeyError (executionStatus a)).
Proof.
  unfold cell, dict_item, unrecognized. intros -> -> U. cbn [bind]. now rewrite U.
Qed.

Lemma cell_ok (metadata : Metadata) (t : string) (c : Z) :
  cell metadata t = Ok c -> cell_reads metadata t c.
Proof.
  unfold cell, cell_reads.
  destruct (dict_get t (calls metadata)) as [attempts|].
  - intros H. apply bind_ok in H as (a & La & H). unfold dict_item in H.
    destruct (dict_get (executionStatus a) status_code) as [c'|] eqn:E;
      [|discriminate].
    injection H as ->. split.
    + split; [|discriminate]. intros ->.
      apply status_code_known in E. intuition discriminate.
    + intros ? [= <-]. exists a. auto.
  - intros [= <-]. split; [tauto|discriminate].
Qed.

(** What a cell raises when no list of attempts is empty. *)
Lemma cell_raises (metadata : Metadata) (t : string) (e : exn) :
  dict_get t (calls metadata) <> Some [] ->
  cell metadata t = Raise e ->
  exists s, e = KeyError s /\ unrecognized s.
Proof.
  unfold cell, dict_item, unrecognized. intros NE.
  destruct (dict_get t (calls metadata)) as [attempts|]; [|discriminate].
  destruct attempts as [|a0 rest]; [now elim NE|].
  rewrite last_item_cons. cbn [bind].
  destruct (dict_get _ status_code) eqn:E; [discriminate|].
  intros [= <-]. eauto.
Qed.

Lemma comprehension_raise_inv {A B : Type} (f : A -> result B) (xs : list A)
    (e : exn) :
  comprehension f xs = Raise e -> exists x, In x xs /\ f x = Raise e.
Proof.
  induction xs as [|x xs IH]; [discriminate|]. cbn [comprehension].
  destruct (f x) as [y|e'] eqn:E; cbn [bind].
  - destruct (comprehension f xs) as [ys|e']; [discriminate|].
    intros [= ->]. destruct IH as (x' & I & E'); [reflexivity|].
    exists x'. split; [now right|exact E'].
  - intros [= ->]. exists x. split; [now left|exact E].
Qed.

Lemma state_row_raises (remote : Remote) (workflow_tasks : list string)
    (row : string * StatusRecord) (e : exn) :
  fetch_ok remote row = true ->
  (forall t, dict_get t (calls (metadata_of remote row)) <> Some []) ->
  state_row remote workflow_tasks row = Raise e ->
  exists s, e = KeyError s /\ unrecognized s.
Proof.
  intros F NE. unfold state_row.
  fold (metadata_response remote row). rewrite assert_200_ok by exact F.
  cbn [bind]. fold (metadata_of remote row).
  destruct (comprehension (cell (metadata_of remote row)) workflow_tasks)
    as [cs|e'] eqn:E; [discriminate|].
  intros [= ->].
  apply comprehension_raise_inv in E as (t & _ & E).
  eapply cell_raises; [apply NE|exact E].
Qed.

Lemma state_row_ok (remote : Remote) (workflow_tasks : list string)
    (row : string * StatusRecord) (srow : string * StateRow) :
  state_row remote workflow_tasks row = Ok srow ->
  fetch_ok remote row = true /\
  fst srow = fst row /\
  Forall2 (cell_reads (metadata_of remote row)) workflow_tasks (cells (snd srow)).
Proof.
  unfold state_row. fold (metadata_response remote row).
  destruct (fetch_ok remote row) eqn:F.
  - rewrite assert_200_ok by exact F. cbn [bind]. fold (metadata_of remote row).
    intros H. apply bind_ok in H as (cs & E & H). injection H as <-.
    split; [reflexivity|]. split; [reflexivity|]. cbn [snd cells].
    apply comprehension_Forall2 in E.
    eapply Forall2_impl; [|exact E]. intros t c. apply cell_ok.
  - rewrite assert_200_fails by exact F. discriminate.
Qed.

(** C9, as the code has it.  With the status table computed and the
    reference metadata read (that of the first row of the table, the
    calls of which are the columns of the matrix): when the last
    attempt of a task of a failing entity carries a status outside
    Running, Done and Failed and the task is a call of the reference
    run, [display_status] raises and returns no matrix; when moreover
    every failing entity is readable, what it raises is [KeyError] on
    such a status.  When it returns a matrix, a cell is 0 exactly for a
    task that is absent from the metadata of that run, and is otherwise
    the code of the last attempt's status.  The status of a task that
    is no call of the reference run is never read: when the failing
    entities are readable, the reference calls have a name of two
    components and their last attempts carry known statuses, a matrix
    is returned, whatever the statuses of the other tasks are. *)
Theorem C9_unrecognized_status_raises (remote : Remote) (configuration : string)
    (status_df : dict StatusRecord) (row0 : string * StatusRecord) :
  StatusReducer.get_submission_status remote configuration = Ok status_df ->
  hd_error status_df = Some row0 ->
  fetch_ok remote row0 = true ->
  (forall row t attempts a,
     In row (failing status_df) ->
     fetch_ok remote row = true ->
     In t (dict_keys (calls (metadata_of remote row0))) ->
     dict_get t (calls (metadata_of remote row)) = Some attempts ->
     last_item attempts = Ok a ->
     unrecognized (executionStatus a) ->
     exists e,
       display_status remote configuration = Raise e /\
       (readable remote (failing status_df) ->
        exists s, e = KeyError s /\ unrecognized s)) /\
  (forall frame,
     display_status remote configuration = Ok frame ->
     Forall2
       (fun row srow =>
          fst srow = fst row /\
          Forall2 (cell_reads (metadata_of remote row))
            (dict_keys (calls (metadata_of remote row0))) (cells (snd srow)))
       (failing status_df) (rows frame)) /\
  (readable remote (failing status_df) ->
   (forall t, In t (dict_keys (calls (metadata_of remote row0))) ->
              is_ok (bare_name t) = true) ->
   (forall row t attempts a,
      In row (failing status_df) ->
      In t (dict_keys (calls (metadata_of remote row0))) ->
      dict_get t (calls (metadata_of remote row)) = Some attempts ->
      last_item attempts = Ok a ->
      ~ unrecognized (executionStatus a)) ->
   exists frame, display_status remote configuration = Ok frame).
Proof.
  intros Hs H0 F0.
  assert (D : display_status remote configuration =
              (state_rows <- comprehension
                 (state_row remote (dict_keys (calls (metadata_of remote row0))))
                 (failing status_df) ;;
               names <- comprehension bare_name
                          (dict_keys (calls (metadata_of remote row0))) ;;
               Ok {| columns := names; rows := state_rows |})).
  { unfold display_status. rewrite Hs. cbn [bind].
    destruct status_df as [|r0 rest]; [discriminate|]. injection H0 as ->.
    cbn [first_item bind]. fold (metadata_response remote row0).
    rewrite assert_200_ok by exact F0. reflexivity. }
  split; [|split].
  - intros row t attempts a I F It Hc Hl U.
    destruct (comprehension_raises
                (state_row remote (dict_keys (calls (metadata_of remote row0))))
                (fun e => readable remote (failing status_df) ->
                          exists s, e = KeyError s /\ unrecognized s)
                (failing status_df)) as (e & Ee & Qe).
    + exists row. split; [exact I|].
      unfold state_row. fold (metadata_response remote row).
      rewrite assert_200_ok by exact F. cbn [bind]. fold (metadata_of remote row).
      destruct (comprehension_raises (cell (metadata_of remote row)) (fun _ => True)
                  (dict_keys (calls (metadata_of remote row0)))) as (e & -> & _).
      * exists t. split; [exact It|].
        now rewrite (cell_unrecognized _ _ _ _ Hc Hl U).
      * trivial.
      * reflexivity.
    + intros row' e I' E R. destruct (R row' I') as (F' & NE).
      eapply state_row_raises; eauto.
    + exists e. split; [|exact Qe]. rewrite D, Ee. reflexivity.
  - intros frame Hf. rewrite D in Hf.
    apply bind_ok in Hf as (state_rows & E & Hf).
    apply bind_ok in Hf as (names & _ & Hf). injection Hf as <-. cbn [rows].
    apply comprehension_Forall2 in E.
    eapply Forall2_impl; [|exact E]. intros row srow H.
    apply state_row_ok in H. tauto.
  - intros R Hn Hk. rewrite D.
    destruct (comprehension_total
                (state_row remote (dict_keys (calls (metadata_of remote row0))))
                (failing status_df)) as (state_rows & ->).
    { apply Forall_forall. intros row I. destruct (R row I) as (F & NE).
      unfold state_row. fold (metadata_response remote row).
      rewrite assert_200_ok by exact F. cbn [bind]. fold (metadata_of remote row).
      destruct (comprehension_total (cell (metadata_of remote row))
                  (dict_keys (calls (metadata_of remote row0)))) as (cs & ->);
        [|reflexivity].
      apply Forall_forall. intros t It. unfold cell.
      destruct (dict_get t (calls (metadata_of remote row))) as [attempts|] eqn:G;
        [|reflexivity].
      destruct attempts as [|a0 rest]; [now elim (NE t)|].
      rewrite last_item_cons. cbn [bind]. unfold dict_item.
      destruct (dict_get (executionStatus (last (a0 :: rest) a0)) status_code) eqn:U;
        [reflexivity|].
      exfalso.
      exact (Hk row t (a0 :: rest) _ I It G (last_item_cons a0 rest) U). }
    cbn [bind].
    destruct (comprehension_total bare_name
                (dict_keys (calls (metadata_of remote row0)))) as (names & ->).
    { apply Forall_forall. exact Hn. }
    cbn [bind]. eauto.
Qed.

Lemma C9_unrecognized_status_raises_witness :
  (exists s, display_status (two_samples "Aborted") "cfg" = Raise (KeyError s)
             /\ unrecognized s) /\
  display_status (two_samples "Failed") "cfg"
  = Ok {| columns := ["align"; "call"];
          rows := [ ("sample-2", {| cells := [(-1)%Z; 0%Z];
                                    st_workflow_id := "wf-2";
                                    st_submission_id := "sub-2" |}) ] |} /\
  exists frame, display_status (stray_task "Aborted") "cfg" = Ok frame.
Proof.
  split; [|split; [reflexivity|]].
  - set (row0 := ("sample-1", mkStatusRecord "Succeeded" (Fin 10) "sub-1" "ns/cfg" "wf-1")).
    set (row1 := ("sample-2", mkStatusRecord "Failed" (Fin 20) "sub-2" "ns/cfg" "wf-2")).
    destruct (C9_unrecognized_status_raises (two_samples "Aborted") "cfg"
                [row0; row1] row0) as (H & _).
    + reflexivity.
    + reflexivity.
    + reflexivity.
    + destruct (H row1 "wf.align"
                  [ mkAttempt 0 (Some 100) "Aborted" "j3" "gs://b/3" true "z/n1-standard-4" ]
                  (mkAttempt 0 (Some 100) "Aborted" "j3" "gs://b/3" true "z/n1-standard-4"))
        as (e & E & R).
      * now left.
      * reflexivity.
      * now left.
      * reflexivity.
      * reflexivity.
      * reflexivity.
      * destruct R as (s & -> & U).
        -- intros row [<-|[]]. split; [reflexivity|].
           intros t. cbn.
           destruct (String.eqb t "wf.align"); discriminate.
        -- exists s. split; [exact E|exact U].
  - set (row0 := ("sample-1", mkStatusRecord "Succeeded" (Fin 10) "sub-1" "ns/cfg" "wf-1")).
    set (row1 := ("sample-2", mkStatusRecord "Failed" (Fin 20) "sub-2" "ns/cfg" "wf-2")).
    destruct (C9_unrecognized_status_raises (stray_task "Aborted") "cfg"
                [row0; row1] row0) as (_ & _ & H).
    + reflexivity.
    + reflexivity.
    + reflexivity.
    + apply H.
      * intros row [<-|[]]. split; [reflexivity|].
        intros t. cbn.
        destruct (String.eqb t "wf.align"); [discriminate|].
        destruct (String.eqb t "wf.qc"); discriminate.
      * intros t [<-|[]]. reflexivity.
      * intros row t attempts a [<-|[]] [<-|[]] [= <-] [= <-]. discriminate.
Defined.

(** C9, counterexample.  The failing entity [sample-2] has the call
    [wf.qc] with last status [Aborted], which the succeeded reference
    run [sample-1] does not have: the status is not read and the matrix
    is returned, with the one column [align]. *)
Lemma C9_counterexample : ~ unknown_status_raises.
Proof.
  intros H.
  set (row0 := ("sample-1", mkStatusRecord "Succeeded" (Fin 10) "sub-1" "ns/cfg" "wf-1")).
  set (row1 := ("sample-2", mkStatusRecord "Failed" (Fin 20) "sub-2" "ns/cfg" "wf-2")).
  set (a := mkAttempt 100 (Some 200) "Aborted" "j3" "gs://b/3" true "z/n1-standard-4").
  destruct (H (stray_task "Aborted") "cfg" [row0; row1] row1 "wf.qc" [a] a
              eq_refl (or_introl eq_refl) eq_refl eq_refl eq_refl) as (e & E).
  discriminate E.
Qed.

End Claims_Diagnostics.

(* ================================================================== *)
(** ** Status of the latest submission *)

Section Reducer.
Import StatusReducer ReducerSpec.

Variable remote : Remote.

Lemma fresh_or_older_ext (d d' : dict StatusRecord) (e : string) (ts : isotime) :
  dict_get e d = dict_get e d' -> fresh_or_older d e ts = fresh_or_older d' e ts.
Proof. unfold fresh_or_older. now intros ->. Qed.

Lemma ts_ltb_irrefl (ts : isotime) : ts_ltb (Fin ts) ts = false.
Proof.
  unfold ts_ltb, fgtb. apply negb_false_iff, Qle_bool_iff. lra.
Qed.

Lemma ts_ltb_spec (x ts : isotime) : ts_ltb (Fin x) ts = true <-> x < ts.
Proof.
  unfold ts_ltb, fgtb. rewrite negb_true_iff. split.
  - intros H. apply Qnot_le_lt. intros L. apply Qle_bool_iff in L. congruence.
  - intros H. destruct (Qle_bool ts x) eqn:E; [|reflexivity].
    apply Qle_bool_iff in E. lra.
Qed.

(** The record of an entity after the pairs of one submission. *)
Lemma absorb_get (s : Submission) (pairs : list (string * Workflow))
    (d : dict StatusRecord) (e : string) :
  dict_get e (absorb s d pairs) =
  match find (fun p => String.eqb (fst p) e) pairs with
  | Some p =>
      if fresh_or_older d e (submissionDate s)
      then Some (mk_record s (snd p)) else dict_get e d
  | None => dict_get e d
  end.
Proof.
  revert d. induction pairs as [|[e1 w1] pairs IH]; intros d; [reflexivity|].
  cbn [absorb fold_left find fst snd]. fold (absorb s).
  change (fold_left _ pairs ?x) with (absorb s x pairs).
  rewrite IH. destruct (String.eqb_spec e1 e) as [->|N].
  - destruct (fresh_or_older d e (submissionDate s)) eqn:F.
    + assert (F1 : fresh_or_older (dict_set e (mk_record s w1) d) e (submissionDate s)
                   = false).
      { unfold fresh_or_older. rewrite dict_get_set_eq. apply ts_ltb_irrefl. }
      rewrite F1, dict_get_set_eq. now destruct (find _ pairs).
    + rewrite F. now destruct (find _ pairs).
  - destruct (fresh_or_older d e1 (submissionDate s)).
    + rewrite (fresh_or_older_ext (dict_set e1 (mk_record s w1) d) d),
        dict_get_set_neq by (try apply dict_get_set_neq; congruence).
      reflexivity.
    + reflexivity.
Qed.

Lemma absorb_keys_NoDup (s : Submission) (pairs : list (string * Workflow))
    (d : dict StatusRecord) :
  NoDup (dict_keys d) -> NoDup (dict_keys (absorb s d pairs)).
Proof.
  revert d. induction pairs as [|[e1 w1] pairs IH]; intros d ND; [exact ND|].
  cbn [absorb fold_left fst snd]. apply IH.
  destruct (fresh_or_older d e1 (submissionDate s)); [|exact ND].
  rewrite dict_keys_set. unfold dict_mem.
  destruct (dict_get e1 d) eqn:E; [exact ND|].
  apply dict_get_None_keys in E.
  apply NoDup_app; [exact ND| repeat constructor; intros [] |].
  intros x Hx [<-|[]]. contradiction.
Qed.

Lemma update_from_root_cons (d : dict StatusRecord) (s : Submission)
    (w : Workflow) (ws : list Workflow) :
  update_from_root d s (w :: ws) = Ok (absorb s d (root_pair s (w :: ws))).
Proof.
  unfold update_from_root, absorb, root_pair. cbn [fold_left fst snd first_item bind].
  now destruct (fresh_or_older d (entityName s) (submissionDate s)).
Qed.

Lemma update_from_members (s : Submission) (ws : list Workflow)
    (d : dict StatusRecord) :
  Forall (fun w => workflowEntity w <> None) ws ->
  for_each (update_from_member s) ws d = Ok (absorb s d (flat_map member_pair ws)).
Proof.
  intros F. revert d. induction F as [|w ws Hw _ IH]; intros d; [reflexivity|].
  cbn [for_each flat_map]. unfold update_from_member at 1, member_pair at 1.
  destruct (workflowEntity w) as [e|]; [|now elim Hw].
  cbn [app]. unfold absorb. cbn [fold_left fst snd]. fold (absorb s).
  destruct (fresh_or_older d e (submissionDate s)); cbn [bind]; apply IH.
Qed.

(** On a shaped submission the loop body raises nothing and stores the
    derived pairs. *)
Lemma step_shaped (d : dict StatusRecord) (s : Submission) :
  shaped remote s -> step remote d s = Ok (absorb s d (derived remote s)).
Proof.
  intros (H200 & Hroot & Hset). unfold step, derived.
  rewrite assert_200_ok by (now apply Z.eqb_eq). cbn [bind].
  fold (workflows_of remote s).
  destruct (String.eqb_spec (entityType s) "sample") as [E1|N1].
  { destruct (workflows_of remote s) as [|w ws] eqn:W; [now elim Hroot; auto|].
    apply update_from_root_cons. }
  destruct (String.eqb_spec (entityType s) "sample_set") as [E2|N2].
  { destruct (Nat.eqb_spec (List.length (workflows_of remote s)) 1) as [L|L].
    - destruct (workflows_of remote s) as [|w ws] eqn:W; [discriminate|].
      apply update_from_root_cons.
    - apply update_from_members. now apply Hset. }
  destruct (String.eqb_spec (entityType s) "participant") as [E3|N3].
  { destruct (workflows_of remote s) as [|w ws] eqn:W; [now elim Hroot; auto|].
    apply update_from_root_cons. }
  reflexivity.
Qed.

Lemma loop_shaped (submissions : list Submission) (d : dict StatusRecord) :
  Forall (shaped remote) submissions ->
  for_each (step remote) submissions d
  = Ok (fold_left (fun d s => absorb s d (derived remote s)) submissions d).
Proof.
  intros F. revert d. induction F as [|s ss Hs _ IH]; intros d; [reflexivity|].
  cbn [for_each fold_left]. rewrite step_shaped by exact Hs. cbn [bind]. apply IH.
Qed.

Lemma find_entity (pairs : list (string * Workflow)) (e : string) :
  In e (map fst pairs) <->
  exists p, find (fun p => String.eqb (fst p) e) pairs = Some p.
Proof.
  induction pairs as [|[e1 w1] pairs IH]; cbn [map In find fst].
  - split; [tauto|intros (p & H); discriminate].
  - destruct (String.eqb_spec e1 e) as [->|N].
    + split; [eauto|auto].
    + rewrite <- IH. tauto.
Qed.

Lemma record_for_touches (s : Submission) (e : string) :
  touches remote s e <-> exists r, record_for remote s e = Some r.
Proof.
  unfold touches, record_for. rewrite find_entity. split.
  - intros (p & ->). eauto.
  - intros (r & H). destruct (find _ _) as [p|]; [eauto|discriminate].
Qed.

Lemma record_for_timestamp (s : Submission) (e : string) (r : StatusRecord) :
  record_for remote s e = Some r -> sr_timestamp r = Fin (submissionDate s).
Proof.
  unfold record_for. destruct (find _ _); [|discriminate]. now intros [= <-].
Qed.

(** One more submission keeps the dictionary on the latest records. *)
Lemma tracks_absorb (processed : list Submission) (d : dict StatusRecord)
    (s : Submission) :
  tracks remote processed d ->
  tracks remote (s :: processed) (absorb s d (derived remote s)).
Proof.
  intros T e. specialize (T e). rewrite absorb_get.
  pose proof (record_for_touches s e) as RT. unfold record_for in RT.
  unfold fresh_or_older.
  destruct (find (fun p => String.eqb (fst p) e) (derived remote s)) as [p|] eqn:Fd.
  - (* the submission touches [e] *)
    destruct (dict_get e d) as [r|] eqn:G.
    + destruct T as (s1 & I1 & R1 & T1 & M1). rewrite T1.
      destruct (ts_ltb (Fin (submissionDate s1)) (submissionDate s)) eqn:L.
      * apply ts_ltb_spec in L. exists s. split; [now left|].
        unfold record_for. rewrite Fd. split; [reflexivity|]. split; [reflexivity|].
        intros s' [<-|I'] Ht; [lra|]. specialize (M1 s' I' Ht). lra.
      * exists s1. split; [now right|]. split; [exact R1|]. split; [exact T1|].
        intros s' [<-|I'] Ht; [|now apply M1].
        apply Qnot_lt_le. intros Hlt. apply ts_ltb_spec in Hlt. congruence.
    + exists s. split; [now left|].
      unfold record_for. rewrite Fd. split; [reflexivity|]. split; [reflexivity|].
      intros s' [<-|I'] Ht; [lra|]. now elim (T s' I').
  - (* it does not *)
    assert (NT : ~ touches remote s e).
    { intros Ht. apply RT in Ht as (r & Hr). discriminate. }
    destruct (dict_get e d) as [r|] eqn:G.
    + destruct T as (s1 & I1 & R1 & T1 & M1).
      exists s1. split; [now right|]. split; [exact R1|]. split; [exact T1|].
      intros s' [<-|I'] Ht; [contradiction|now apply M1].
    + intros s' [<-|I']; [exact NT|now apply T].
Qed.

Lemma tracks_loop (submissions processed : list Submission) (d : dict StatusRecord) :
  tracks remote processed d ->
  tracks remote (rev submissions ++ processed)
    (fold_left (fun d s => absorb s d (derived remote s)) submissions d).
Proof.
  revert processed d.
  induction submissions as [|s ss IH]; intros processed d T; [exact T|].
  cbn [fold_left rev]. rewrite <- app_assoc. cbn [app].
  apply IH. now apply tracks_absorb.
Qed.

Lemma loop_keys_NoDup (submissions : list Submission) (d : dict StatusRecord) :
  NoDup (dict_keys d) ->
  NoDup (dict_keys (fold_left (fun d s => absorb s d (derived remote s)) submissions d)).
Proof.
  revert d. induction submissions as [|s ss IH]; intros d ND; [exact ND|].
  cbn [fold_left]. apply IH. now apply absorb_keys_NoDup.
Qed.

Lemma tracks_same_elements (processed processed' : list Submission)
    (d : dict StatusRecord) :
  (forall s, In s processed <-> In s processed') ->
  tracks remote processed d -> tracks remote processed' d.
Proof.
  intros Hin T e. specialize (T e). destruct (dict_get e d) as [r|].
  - destruct T as (s & I & R & Ts & M). exists s. split; [now apply Hin|].
    split; [exact R|]. split; [exact Ts|].
    intros s' I'. apply M. now apply Hin.
  - intros s I. apply T. now apply Hin.
Qed.

Lemma tracks_nil : tracks remote [] [].
Proof. intros e. cbn. tauto. Qed.

Lemma update_from_root_ok (d d' : dict StatusRecord) (s : Submission)
    (ws : list Workflow) :
  update_from_root d s ws = Ok d' -> d' = absorb s d (root_pair s ws).
Proof.
  destruct ws as [|w ws].
  - unfold update_from_root, absorb, root_pair. cbn [fold_left first_item bind].
    destruct (fresh_or_older d (entityName s) (submissionDate s)); [discriminate|].
    now intros [= <-].
  - rewrite update_from_root_cons. now intros [= <-].
Qed.

Lemma update_from_members_ok (s : Submission) (ws : list Workflow)
    (d d' : dict StatusRecord) :
  for_each (update_from_member s) ws d = Ok d' ->
  d' = absorb s d (flat_map member_pair ws).
Proof.
  revert d. induction ws as [|w ws IH]; intros d.
  - now intros [= <-].
  - cbn [for_each flat_map]. unfold update_from_member at 1, member_pair at 1.
    destruct (workflowEntity w) as [e|]; [|discriminate].
    cbn [app]. unfold absorb. cbn [fold_left fst snd]. fold (absorb s).
    destruct (fresh_or_older d e (submissionDate s)); cbn [bind]; apply IH.
Qed.

(** Whenever the loop body returns, it has stored the derived pairs. *)
Lemma step_ok (d d' : dict StatusRecord) (s : Submission) :
  step remote d s = Ok d' -> d' = absorb s d (derived remote s).
Proof.
  unfold step, derived. intros H. apply bind_ok in H as (r & Hr & H).
  assert (r = workflows_of remote s) as ->.
  { unfold assert_200 in Hr. destruct (Z.eqb _ 200); [|discriminate].
    now injection Hr as <-. }
  destruct (String.eqb (entityType s) "sample");
    [now apply update_from_root_ok|].
  destruct (String.eqb (entityType s) "sample_set").
  { destruct (Nat.eqb (List.length (workflows_of remote s)) 1);
      [now apply update_from_root_ok|now apply update_from_members_ok]. }
  destruct (String.eqb (entityType s) "participant");
    [now apply update_from_root_ok|].
  now injection H as <-.
Qed.

Lemma loop_ok (submissions : list Submission) (d d' : dict StatusRecord) :
  for_each (step remote) submissions d = Ok d' ->
  d' = fold_left (fun d s => absorb s d (derived remote s)) submissions d.
Proof.
  revert d. induction submissions as [|s ss IH]; intros d.
  - now intros [= <-].
  - cbn [for_each fold_left]. intros H. apply bind_ok in H as (d1 & H1 & H).
    apply step_ok in H1 as ->. now apply IH.
Qed.

Lemma tracks_keys (processed : list Submission) (d : dict StatusRecord) :
  tracks remote processed d ->
  forall e, In e (dict_keys d) <->
            exists s, In s processed /\ touches remote s e.
Proof.
  intros T e. specialize (T e). split.
  - intros I. destruct (dict_get e d) as [r|] eqn:G.
    + destruct T as (s & Is & R & _). exists s. split; [exact Is|].
      apply record_for_touches. eauto.
    + apply dict_get_None_keys in G. contradiction.
  - intros (s & Is & Ht). destruct (dict_get e d) as [r|] eqn:G.
    + apply dict_get_In in G. apply in_map_iff. now exists (e, r).
    + now elim (T s Is).
Qed.

(** The table, whenever there is one: it is what storing the derived
    pairs of the matching submissions in turn leaves, so it has one row
    per touched entity, each with the latest record. *)
Lemma reducer_ok (configuration : string) (d : dict StatusRecord) :
  get_submission_status remote configuration = Ok d ->
  NoDup (dict_keys d) /\
  tracks remote (matched remote configuration) d.
Proof.
  unfold get_submission_status. intros H.
  apply bind_ok in H as (submissions & Hs & H).
  assert (submissions = json (list_submissions remote)) as ->.
  { unfold assert_200 in Hs. destruct (Z.eqb _ 200); [|discriminate].
    now injection Hs as <-. }
  fold (matched remote configuration) in H.
  apply bind_ok in H as (d0 & Hl & H).
  apply loop_ok in Hl.
  assert (d = d0) as -> by (destruct d0; [discriminate|now injection H]).
  subst d0. split.
  - apply loop_keys_NoDup. constructor.
  - apply tracks_same_elements
      with (processed := rev (matched remote configuration) ++ []).
    + intros s. rewrite app_nil_r. symmetry. apply in_rev.
    + apply tracks_loop, tracks_nil.
Qed.

(** On a well-formed service there is a table. *)
Lemma reducer_returns (configuration : string) :
  well_formed remote configuration ->
  exists d, get_submission_status remote configuration = Ok d.
Proof.
  intros (H200 & Hshaped & Hsome).
  set (L := matched remote configuration) in *.
  set (d := fold_left (fun d s => absorb s d (derived remote s)) L []).
  assert (T : tracks remote L d).
  { apply tracks_same_elements with (processed := rev L ++ []).
    - intros s. rewrite app_nil_r. symmetry. apply in_rev.
    - apply tracks_loop, tracks_nil. }
  exists d. unfold get_submission_status.
  rewrite assert_200_ok by (now apply Z.eqb_eq). cbn [bind].
  fold (matched remote configuration). fold L.
  rewrite loop_shaped by exact Hshaped. cbn [bind]. fold d.
  destruct d as [|row rest] eqn:Ed; [|reflexivity].
  exfalso. apply Exists_exists in Hsome as (s & Is & Hd).
  destruct (derived remote s) as [|[e w] pairs] eqn:D; [now elim Hd|].
  assert (I : In e (dict_keys (@nil (string * StatusRecord)))).
  { apply (tracks_keys L [] T). exists s. split; [exact Is|].
    unfold touches. rewrite D. now left. }
  exact I.
Qed.

End Reducer.

Section Claims_Reducer.
Import StatusReducer ReducerSpec.

(** Two submissions for one sample, the earlier one failed and the
    later one succeeded, in either order of the list: the table has the
    one row of the later submission. *)
Lemma failed_then_succeeded (remote : Remote) (configuration : string)
    (s1 s2 : Submission) (w1 w2 : Workflow) (ws1 ws2 : list Workflow) :
  list_submissions remote = mkResponse 200%Z [s1; s2] \/
  list_submissions remote = mkResponse 200%Z [s2; s1] ->
  str_in configuration (methodConfigurationName s1) = true ->
  str_in configuration (methodConfigurationName s2) = true ->
  entityType s1 = "sample" -> entityType s2 = "sample" ->
  entityName s1 = entityName s2 ->
  get_submission remote (submissionId s1) = mkResponse 200%Z (w1 :: ws1) ->
  get_submission remote (submissionId s2) = mkResponse 200%Z (w2 :: ws2) ->
  status w1 = "Failed" -> status w2 = "Succeeded" ->
  submissionDate s1 < submissionDate s2 ->
  get_submission_status remote configuration
  = Ok [ (entityName s1,
          {| sr_status := "Succeeded";
             sr_timestamp := Fin (submissionDate s2);
             sr_submission_id := submissionId s2;
             sr_configuration := methodConfigurationName s2;
             sr_workflow_id := workflowId w2 |}) ].
Proof.
  intros Hl M1 M2 E1 E2 En G1 G2 F S Lt.
  assert (L12 : ts_ltb (Fin (submissionDate s1)) (submissionDate s2) = true)
    by now apply ts_ltb_spec.
  assert (L21 : ts_ltb (Fin (submissionDate s2)) (submissionDate s1) = false).
  { destruct (ts_ltb (Fin (submissionDate s2)) (submissionDate s1)) eqn:E;
      [|reflexivity].
    apply ts_ltb_spec in E. lra. }
  unfold get_submission_status.
  destruct Hl as [-> | ->]; cbn [assert_200 status_code json Z.eqb Pos.eqb bind];
    unfold matching; cbn [filter]; rewrite M1, M2; cbn [for_each];
    unfold step; rewrite G1, G2, E1, E2;
    cbn [assert_200 status_code json Z.eqb Pos.eqb bind String.eqb Ascii.eqb Bool.eqb];
    unfold update_from_root, fresh_or_older;
    cbn [dict_get first_item bind dict_set]; rewrite <- En.
  - rewrite String.eqb_refl. unfold mk_record, convert_time. cbn [sr_timestamp].
    rewrite L12, S. reflexivity.
  - rewrite String.eqb_refl. unfold mk_record, convert_time. cbn [sr_timestamp].
    rewrite L21, S. reflexivity.
Qed.

(** C2.  Whenever the reducer returns a table for the submissions
    matching the configuration, the table has exactly one row per entity
    touched by one of them, and the row of an entity is the record of a
    submission touching it whose timestamp is the maximum over the
    submissions touching it.  It does return one on a service whose
    requests succeed and whose documents have the expected shape.  In
    particular two submissions for one sample at T1 < T2, failed then
    succeeded, give the one row Succeeded with timestamp T2, in either
    order of the list. *)
Theorem C2_one_latest_record_per_entity (remote : Remote) (configuration : string) :
  (forall d,
     get_submission_status remote configuration = Ok d ->
     NoDup (dict_keys d) /\
     (forall e, In e (dict_keys d) <->
                exists s, In s (matched remote configuration) /\ touches remote s e) /\
     (forall e r, dict_get e d = Some r ->
                  latest_for remote (matched remote configuration) e r)) /\
  (well_formed remote configuration ->
     exists d, get_submission_status remote configuration = Ok d) /\
  (forall (s1 s2 : Submission) (w1 w2 : Workflow) (ws1 ws2 : list Workflow),
     list_submissions remote = mkResponse 200%Z [s1; s2] \/
     list_submissions remote = mkResponse 200%Z [s2; s1] ->
     str_in configuration (methodConfigurationName s1) = true ->
     str_in configuration (methodConfigurationName s2) = true ->
     entityType s1 = "sample" -> entityType s2 = "sample" ->
     entityName s1 = entityName s2 ->
     get_submission remote (submissionId s1) = mkResponse 200%Z (w1 :: ws1) ->
     get_submission remote (submissionId s2) = mkResponse 200%Z (w2 :: ws2) ->
     status w1 = "Failed" -> status w2 = "Succeeded" ->
     submissionDate s1 < submissionDate s2 ->
     exists r,
       get_submission_status remote configuration = Ok [(entityName s1, r)] /\
       sr_status r = "Succeeded" /\
       sr_timestamp r = Fin (submissionDate s2)).
Proof.
  split; [|split].
  - intros d E. destruct (reducer_ok remote configuration d E) as (ND & T).
    split; [exact ND|]. split; [now apply tracks_keys|].
    intros e r G. specialize (T e). now rewrite G in T.
  - apply reducer_returns.
  - intros s1 s2 w1 w2 ws1 ws2 Hl M1 M2 E1 E2 En G1 G2 F S Lt.
    rewrite (failed_then_succeeded remote configuration s1 s2 w1 w2 ws1 ws2)
      by assumption.
    eexists. split; [reflexivity|]. split; reflexivity.
Qed.

Lemma C2_one_latest_record_per_entity_witness :
  exists d r,
    get_submission_status (resubmitted 10 20) "cfg" = Ok d /\
    d = [("sample-1", r)] /\
    sr_status r = "Succeeded" /\ sr_timestamp r = Fin 20 /\
    latest_for (resubmitted 10 20) (matched (resubmitted 10 20) "cfg") "sample-1" r.
Proof.
  destruct (C2_one_latest_record_per_entity (resubmitted 10 20) "cfg")
    as (P & R & S).
  destruct R as (d & E).
  { split; [reflexivity|]. split.
    - repeat constructor; try discriminate; intros _ H; now elim H.
    - constructor. discriminate. }
  destruct (S (mkSubmission "sub-1" "ns/cfg" 10 "sample" "sample-1")
              (mkSubmission "sub-2" "ns/cfg" 20 "sample" "sample-1")
              (mkWorkflow "wf-1" "Failed" None)
              (mkWorkflow "wf-2" "Succeeded" None) [] [])
    as (r & E' & Hs & Ht); try reflexivity.
  { now left. }
  exists d, r. split; [exact E|].
  assert (Hd : d = [("sample-1", r)]).
  { rewrite E in E'. now injection E' as ->. }
  split; [exact Hd|]. split; [exact Hs|]. split; [exact Ht|].
  destruct (P d E) as (_ & _ & L). apply L. rewrite Hd. reflexivity.
Defined.

(** C3, counterexample.  Two submissions of one sample with the same
    timestamp, one failed and one succeeded: the one that comes first in
    the list gives the record. *)
Lemma C3_counterexample : ~ order_independent.
Proof.
  intros H.
  set (a := mkSubmission "sub-1" "ns/cfg" 10 "sample" "sample-1").
  set (b := mkSubmission "sub-2" "ns/cfg" 10 "sample" "sample-1").
  specialize (H (resubmitted 10 10) "cfg" [a; b] [b; a] (perm_swap b a [])
                _ _ eq_refl eq_refl "sample-1").
  discriminate H.
Qed.

(** One more submission, processed last, keeps every record on the
    first of the latest submissions. *)
Lemma tracks_first_absorb (remote : Remote) (processed : list Submission)
    (d : dict StatusRecord) (s : Submission) :
  tracks_first remote processed d ->
  tracks_first remote (processed ++ [s]) (absorb s d (derived remote s)).
Proof.
  intros T e. specialize (T e). rewrite absorb_get.
  pose proof (record_for_touches remote s e) as RT. unfold record_for in RT.
  unfold fresh_or_older.
  destruct (find (fun p => String.eqb (fst p) e) (derived remote s)) as [p|] eqn:Fd.
  - (* the submission touches [e] *)
    destruct (dict_get e d) as [r|] eqn:G.
    + destruct T as (before & s1 & after & -> & R1 & B1 & A1).
      rewrite (record_for_timestamp remote s1 e r R1).
      destruct (ts_ltb (Fin (submissionDate s1)) (submissionDate s)) eqn:L.
      * apply ts_ltb_spec in L.
        exists (before ++ s1 :: after), s, []. split; [reflexivity|].
        unfold record_for. rewrite Fd. split; [reflexivity|]. split.
        -- intros s' I Ht. apply in_app_or in I as [I|[<-|I]].
           ++ specialize (B1 s' I Ht). lra.
           ++ exact L.
           ++ specialize (A1 s' I Ht). lra.
        -- intros s' [].
      * exists before, s1, (after ++ [s]).
        split; [now rewrite <- app_assoc|].
        split; [exact R1|]. split; [exact B1|].
        intros s' I Ht. apply in_app_or in I as [I|[<-|[]]]; [now apply A1|].
        apply Qnot_lt_le. intros Hlt. apply ts_ltb_spec in Hlt. congruence.
    + exists processed, s, []. split; [reflexivity|].
      unfold record_for. rewrite Fd. split; [reflexivity|]. split.
      * intros s' I Ht. now elim (T s' I).
      * intros s' [].
  - (* it does not *)
    assert (NT : ~ touches remote s e).
    { intros Ht. apply RT in Ht as (r & Hr). discriminate. }
    destruct (dict_get e d) as [r|] eqn:G.
    + destruct T as (before & s1 & after & -> & R1 & B1 & A1).
      exists before, s1, (after ++ [s]).
      split; [now rewrite <- app_assoc|].
      split; [exact R1|]. split; [exact B1|].
      intros s' I Ht. apply in_app_or in I as [I|[<-|[]]];
        [now apply A1|contradiction].
    + intros s' I. apply in_app_or in I as [I|[<-|[]]]; [now apply T|exact NT].
Qed.

Lemma tracks_first_loop (remote : Remote) (submissions processed : list Submission)
    (d : dict StatusRecord) :
  tracks_first remote processed d ->
  tracks_first remote (processed ++ submissions)
    (fold_left (fun d s => absorb s d (derived remote s)) submissions d).
Proof.
  revert processed d.
  induction submissions as [|s ss IH]; intros processed d T.
  - now rewrite app_nil_r.
  - cbn [fold_left]. change (s :: ss) with ([s] ++ ss). rewrite app_assoc.
    apply IH. now apply tracks_first_absorb.
Qed.

(** The table, whenever there is one, holds for every entity the record
    of the first of the latest matching submissions that touch it. *)
Lemma reducer_first (remote : Remote) (configuration : string)
    (d : dict StatusRecord) :
  get_submission_status remote configuration = Ok d ->
  tracks_first remote (matched remote configuration) d.
Proof.
  unfold get_submission_status. intros H.
  apply bind_ok in H as (submissions & Hs & H).
  assert (submissions = json (list_submissions remote)) as ->.
  { unfold assert_200 in Hs. destruct (Z.eqb _ 200); [|discriminate].
    now injection Hs as <-. }
  fold (matched remote configuration) in H.
  apply bind_ok in H as (d0 & Hl & H).
  apply loop_ok in Hl.
  assert (d = d0) as -> by (destruct d0; [discriminate|now injection H]).
  subst d0.
  apply (tracks_first_loop remote (matched remote configuration) [] []).
  intros e s [].
Qed.

(** Two submissions of one sample, the older one answered without
    workflow: after the later one it is not read, before it
    [r['workflows'][0]] raises. *)
Lemma older_without_workflow (remote : Remote) (configuration : string)
    (s_old s_new : Submission) (w : Workflow) (ws : list Workflow) :
  str_in configuration (methodConfigurationName s_old) = true ->
  str_in configuration (methodConfigurationName s_new) = true ->
  entityType s_old = "sample" -> entityType s_new = "sample" ->
  entityName s_old = entityName s_new ->
  get_submission remote (submissionId s_old) = mkResponse 200%Z [] ->
  get_submission remote (submissionId s_new) = mkResponse 200%Z (w :: ws) ->
  submissionDate s_old < submissionDate s_new ->
  get_submission_status (with_submissions remote [s_new; s_old]) configuration
  = Ok [(entityName s_new, mk_record s_new w)] /\
  get_submission_status (with_submissions remote [s_old; s_new]) configuration
  = Raise IndexError.
Proof.
  intros M1 M2 E1 E2 En G1 G2 Lt.
  assert (L21 : ts_ltb (Fin (submissionDate s_new)) (submissionDate s_old) = false).
  { destruct (ts_ltb (Fin (submissionDate s_new)) (submissionDate s_old)) eqn:E;
      [|reflexivity].
    apply ts_ltb_spec in E. lra. }
  unfold get_submission_status, with_submissions.
  cbn [list_submissions assert_200 status_code json Z.eqb Pos.eqb bind].
  unfold matching; cbn [filter]; rewrite M1, M2; cbn [for_each].
  unfold step. cbn [get_submission]. rewrite G1, G2, E1, E2.
  cbn [assert_200 status_code json Z.eqb Pos.eqb bind String.eqb Ascii.eqb Bool.eqb].
  unfold update_from_root, fresh_or_older.
  cbn [dict_get first_item bind dict_set]. rewrite En.
  split; [|reflexivity].
  rewrite String.eqb_refl. unfold mk_record at 1, convert_time. cbn [sr_timestamp].
  rewrite L21. reflexivity.
Qed.

(** C3, as the code has it.  (1) When no two matching submissions that
    touch a common entity carry the same timestamp, the tables of the
    list and of any permutation of it give every entity the same
    record; and when moreover the requests are answered with status
    200, the documents have the shape that the code indexes into and
    some submission stands for an entity, both tables are returned.
    (2) On equal timestamps the order decides: in any table that is
    returned, the record of an entity is that of the first of the
    latest submissions that touch it, every such submission before it
    in the list being strictly older and none after it later.
    (3) Without that shape the order also decides whether there is a
    table: an older submission of a sample that is answered without
    workflow is not read after the later submission, and raises
    [IndexError] before it. *)
Theorem C3_order_independent_without_ties (remote : Remote) (configuration : string)
    (submissions submissions' : list Submission) :
  (Permutation submissions submissions' ->
   no_ties remote (matching configuration submissions) ->
   same_records
     (get_submission_status (with_submissions remote submissions) configuration)
     (get_submission_status (with_submissions remote submissions') configuration) /\
   (Forall (shaped remote) (matching configuration submissions) ->
    Exists (fun s => derived remote s <> []) (matching configuration submissions) ->
    exists d d',
      get_submission_status (with_submissions remote submissions) configuration = Ok d /\
      get_submission_status (with_submissions remote submissions') configuration = Ok d' /\
      forall e, dict_get e d = dict_get e d')) /\
  (forall d e r,
     get_submission_status (with_submissions remote submissions) configuration = Ok d ->
     dict_get e d = Some r ->
     first_latest_for remote (matching configuration submissions) e r) /\
  (forall (s_old s_new : Submission) (w : Workflow) (ws : list Workflow),
     str_in configuration (methodConfigurationName s_old) = true ->
     str_in configuration (methodConfigurationName s_new) = true ->
     entityType s_old = "sample" -> entityType s_new = "sample" ->
     entityName s_old = entityName s_new ->
     get_submission remote (submissionId s_old) = mkResponse 200%Z [] ->
     get_submission remote (submissionId s_new) = mkResponse 200%Z (w :: ws) ->
     submissionDate s_old < submissionDate s_new ->
     get_submission_status (with_submissions remote [s_new; s_old]) configuration
     = Ok [(entityName s_new, mk_record s_new w)] /\
     get_submission_status (with_submissions remote [s_old; s_new]) configuration
     = Raise IndexError).
Proof.
  split; [|split].
  2:{ intros d e r E G.
      pose proof (reducer_first _ _ _ E e) as T. rewrite G in T. exact T. }
  2:{ apply older_without_workflow. }
  intros P Hties.
  assert (Hin : forall s, In s (matching configuration submissions) <->
                          In s (matching configuration submissions')).
  { intros s. unfold matching. rewrite !filter_In.
    split; intros [I M]; (split; [|exact M]).
    - now apply (Permutation_in _ P).
    - now apply (Permutation_in _ (Permutation_sym P)). }
  assert (Same : same_records
    (get_submission_status (with_submissions remote submissions) configuration)
    (get_submission_status (with_submissions remote submissions') configuration)).
  { intros d d' E E' e.
    destruct (reducer_ok _ _ _ E) as (_ & T).
    destruct (reducer_ok _ _ _ E') as (_ & T').
    change (matched (with_submissions remote submissions) configuration)
      with (matching configuration submissions) in T.
    change (matched (with_submissions remote submissions') configuration)
      with (matching configuration submissions') in T'.
    pose proof (tracks_keys _ _ _ T) as K.
    pose proof (tracks_keys _ _ _ T') as K'.
    specialize (T e). specialize (T' e).
    destruct (dict_get e d) as [r|] eqn:G; destruct (dict_get e d') as [r'|] eqn:G'.
    + destruct T as (s & I & R & _ & M).
      destruct T' as (s' & I' & R' & _ & M').
      assert (Ht : touches remote s e) by (apply record_for_touches; eauto).
      assert (Ht' : touches remote s' e) by (apply record_for_touches; eauto).
      apply Hin in I'.
      assert (Heq : s = s').
      { apply (Hties s s' e I I' Ht Ht').
        apply Qle_antisym; [apply M'; [now apply Hin|exact Ht] | now apply M]. }
      subst s'.
      change (record_for (with_submissions remote submissions') s e)
        with (record_for (with_submissions remote submissions) s e) in R'.
      congruence.
    + exfalso. apply dict_get_None_keys in G'. apply G'. apply K'.
      destruct T as (s & I & R & _). exists s. split; [now apply Hin|].
      apply record_for_touches. eauto.
    + exfalso. apply dict_get_None_keys in G. apply G. apply K.
      destruct T' as (s & I & R & _). exists s. split; [now apply Hin|].
      apply record_for_touches. eauto.
    + reflexivity. }
  split; [exact Same|].
  intros Hshaped Hsome.
  destruct (reducer_returns (with_submissions remote submissions) configuration)
    as (d & E).
  { split; [reflexivity|]. split; [exact Hshaped|exact Hsome]. }
  destruct (reducer_returns (with_submissions remote submissions') configuration)
    as (d' & E').
  { split; [reflexivity|]. split.
    - apply Forall_forall. intros s I. rewrite Forall_forall in Hshaped.
      apply Hshaped. now apply Hin.
    - apply Exists_exists in Hsome as (s & I & D).
      apply Exists_exists. exists s. split; [now apply Hin|exact D]. }
  exists d, d'. split; [exact E|]. split; [exact E'|]. exact (Same d d' E E').
Qed.

Lemma C3_order_independent_without_ties_witness :
  let a := mkSubmission "sub-1" "ns/cfg" 10 "sample" "sample-1" in
  let b := mkSubmission "sub-2" "ns/cfg" 20 "sample" "sample-1" in
  let b' := mkSubmission "sub-2" "ns/cfg" 10 "sample" "sample-1" in
  (exists d d',
     get_submission_status (with_submissions (resubmitted 10 20) [a; b]) "cfg" = Ok d /\
     get_submission_status (with_submissions (resubmitted 10 20) [b; a]) "cfg" = Ok d' /\
     forall e, dict_get e d = dict_get e d') /\
  first_latest_for (resubmitted 10 10) [a; b'] "sample-1"
    (mkStatusRecord "Failed" (Fin 10) "sub-1" "ns/cfg" "wf-1") /\
  first_latest_for (resubmitted 10 10) [b'; a] "sample-1"
    (mkStatusRecord "Succeeded" (Fin 10) "sub-2" "ns/cfg" "wf-2") /\
  get_submission_status (with_submissions (abandoned 10 20) [b; a]) "cfg"
  = Ok [("sample-1", mkStatusRecord "Succeeded" (Fin 20) "sub-2" "ns/cfg" "wf-2")] /\
  get_submission_status (with_submissions (abandoned 10 20) [a; b]) "cfg"
  = Raise IndexError.
Proof.
  intros a b b'. split; [|split; [|split]].
  - destruct (C3_order_independent_without_ties (resubmitted 10 20) "cfg" [a; b] [b; a])
      as (Free & _). destruct Free as (_ & Both).
    + apply perm_swap.
    + intros s s' e [<-|[<-|[]]] [<-|[<-|[]]] _ _ Hq; try reflexivity;
        vm_compute in Hq; discriminate.
    + apply Both.
      * repeat constructor; try discriminate; intros _ H; now elim H.
      * constructor. discriminate.
  - destruct (C3_order_independent_without_ties (resubmitted 10 10) "cfg" [a; b'] [b'; a])
      as (_ & First & _).
    exact (First _ "sample-1" _ eq_refl eq_refl).
  - destruct (C3_order_independent_without_ties (resubmitted 10 10) "cfg" [b'; a] [a; b'])
      as (_ & First & _).
    exact (First _ "sample-1" _ eq_refl eq_refl).
  - destruct (C3_order_independent_without_ties (abandoned 10 20) "cfg" [] [])
      as (_ & _ & Unread).
    exact (Unread a b (mkWorkflow "wf-2" "Succeeded" None) []
             eq_refl eq_refl eq_refl eq_refl eq_refl eq_refl eq_refl eq_refl).
Defined.

End Claims_Reducer.

(* ================================================================== *)
(** ** Methods and configurations in the repository *)

Section Repository_Facts.
Import Repository.

Lemma np_max_int_spec (xs : list Z) (m : Z) :
  np_max_int xs = Ok m -> In m xs /\ forall x, In x xs -> (x <= m)%Z.
Proof.
  destruct xs as [|x xs]; [discriminate|]. cbn [np_max_int]. intros [= <-].
  revert x. induction xs as [|y ys IH]; intros x.
  - cbn. split; [now left|]. intros ? [<-|[]]. lia.
  - cbn [fold_left]. destruct (IH (Z.max x y)) as (I & M). split.
    + destruct I as [E|I]; [|right; now right].
      rewrite <- E. destruct (Z.max_spec x y) as [[_ ->]|[_ ->]];
        [right; now left|now left].
    + intros z [<-|[<-|I']].
      * specialize (M (Z.max x y) (or_introl eq_refl)). lia.
      * specialize (M (Z.max x y) (or_introl eq_refl)). lia.
      * apply M. now right.
Qed.

Lemma np_max_int_ok (xs : list Z) :
  xs <> [] -> exists m, np_max_int xs = Ok m.
Proof. destruct xs; [contradiction|]. intros _. cbn. eauto. Qed.

Lemma versions_of_In (namespace name : string) (r : list Entry) (m : Entry) :
  In m (versions_of namespace name r) <->
  In m r /\ en_name m = name /\ en_namespace m = namespace.
Proof.
  unfold versions_of. rewrite filter_In, andb_true_iff, !String.eqb_eq. tauto.
Qed.

(** The outcome of reading the versions of a method or configuration
    through listing call [c]. *)
Lemma listing_outcome (service : Service) (c : Call) (namespace name : string)
    (log : list Call) :
  (r <~ request service c ;;
   _ <~ assert_status r 200 ;;
   pure (versions_of namespace name (rp_entries r))) log
  = (log ++ [c],
     if Z.eqb (rp_status_code (service log c)) 200
     then Ok (versions_of namespace name (rp_entries (service log c)))
     else Raise AssertionError).
Proof.
  unfold and_then, request, assert_status.
  destruct (Z.eqb _ 200); reflexivity.
Qed.

Lemma get_method_outcome (service : Service) (namespace name : string)
    (log : list Call) :
  get_method service namespace name log
  = (log ++ [list_repository_methods],
     if Z.eqb (rp_status_code (service log list_repository_methods)) 200
     then Ok (versions_of namespace name
                (rp_entries (service log list_repository_methods)))
     else Raise AssertionError).
Proof. apply listing_outcome. Qed.

Lemma get_config_outcome (service : Service) (namespace name : string)
    (log : list Call) :
  get_config service namespace name log
  = (log ++ [list_repository_configs],
     if Z.eqb (rp_status_code (service log list_repository_configs)) 200
     then Ok (versions_of namespace name
                (rp_entries (service log list_repository_configs)))
     else Raise AssertionError).
Proof. apply listing_outcome. Qed.

(** The latest version through listing call [c]. *)
Lemma latest_outcome (service : Service) (c : Call) (namespace name : string)
    (log : list Call) :
  (r <~ (r <~ request service c ;;
         _ <~ assert_status r 200 ;;
         pure (versions_of namespace name (rp_entries r))) ;;
   lift (np_max_int (map snapshotId r))) log
  = (log ++ [c],
     if Z.eqb (rp_status_code (service log c)) 200
     then np_max_int
            (map snapshotId (versions_of namespace name (rp_entries (service log c))))
     else Raise AssertionError).
Proof.
  unfold and_then at 1. rewrite listing_outcome.
  destruct (Z.eqb _ 200); reflexivity.
Qed.

Lemma get_method_version_outcome (service : Service) (namespace name : string)
    (log : list Call) :
  get_method_version service namespace name log
  = (log ++ [list_repository_methods],
     if Z.eqb (rp_status_code (service log list_repository_methods)) 200
     then np_max_int
            (map snapshotId
               (versions_of namespace name
                  (rp_entries (service log list_repository_methods))))
     else Raise AssertionError).
Proof. apply latest_outcome. Qed.

Lemma get_config_version_outcome (service : Service) (namespace name : string)
    (log : list Call) :
  get_config_version service namespace name log
  = (log ++ [list_repository_configs],
     if Z.eqb (rp_status_code (service log list_repository_configs)) 200
     then np_max_int
            (map snapshotId
               (versions_of namespace name
                  (rp_entries (service log list_repository_configs))))
     else Raise AssertionError).
Proof. apply latest_outcome. Qed.

Lemma latest_of_versions (namespace name : string) (r : list Entry) (v : Z) :
  np_max_int (map snapshotId (versions_of namespace name r)) = Ok v ->
  (exists m, In m r /\ en_namespace m = namespace /\ en_name m = name /\
             snapshotId m = v) /\
  (forall m, In m r -> en_namespace m = namespace -> en_name m = name ->
             (snapshotId m <= v)%Z).
Proof.
  intros H. apply np_max_int_spec in H as (I & M). split.
  - apply in_map_iff in I as (m & E & I'). apply versions_of_In in I'.
    exists m. tauto.
  - intros m Hm En Em. apply M. apply in_map_iff. exists m. split; [reflexivity|].
    apply versions_of_In. tauto.
Qed.

(** get_method_version, get_config_version: the latest version is a
    snapshot of the named method (configuration) in the listing, and no
    snapshot of it in the listing is greater; it is returned whenever
    the listing is answered with status 200 and has such a snapshot,
    after exactly one listing call. *)
Theorem X_latest_version_is_greatest (service : Service) (namespace name : string)
    (log : list Call) (c : Call) (version : Service -> string -> string -> api Z) :
  (c = list_repository_methods /\ version = get_method_version) \/
  (c = list_repository_configs /\ version = get_config_version) ->
  rp_status_code (service log c) = 200%Z ->
  (exists m, In m (rp_entries (service log c)) /\
             en_namespace m = namespace /\ en_name m = name) ->
  exists v,
    version service namespace name log = (log ++ [c], Ok v) /\
    (exists m, In m (rp_entries (service log c)) /\
               en_namespace m = namespace /\ en_name m = name /\
               snapshotId m = v) /\
    (forall m, In m (rp_entries (service log c)) ->
               en_namespace m = namespace -> en_name m = name ->
               (snapshotId m <= v)%Z).
Proof.
  intros Hc H200 (m0 & I0 & N0 & M0).
  assert (E : version service namespace name log
              = (log ++ [c],
                 np_max_int
                   (map snapshotId
                      (versions_of namespace name (rp_entries (service log c)))))).
  { destruct Hc as [[-> ->]|[-> ->]].
    - rewrite get_method_version_outcome, H200. reflexivity.
    - rewrite get_config_version_outcome, H200. reflexivity. }
  destruct (np_max_int_ok
              (map snapshotId (versions_of namespace name (rp_entries (service log c)))))
    as (v & Hv).
  { assert (I : In m0 (versions_of namespace name (rp_entries (service log c))))
      by (apply versions_of_In; tauto).
    intros Hnil. apply (in_map snapshotId) in I. rewrite Hnil in I. exact I. }
  exists v. split; [now rewrite E, Hv|]. now apply latest_of_versions.
Qed.

(** get_method_version, get_config_version: when the listing is not
    answered with status 200 the assertion fails; when it is and has no
    snapshot of the named method (configuration), [np.max] of the
    empty list raises [ValueError]. *)
Theorem X_latest_version_of_nothing (service : Service) (namespace name : string)
    (log : list Call) (c : Call) (version : Service -> string -> string -> api Z) :
  (c = list_repository_methods /\ version = get_method_version) \/
  (c = list_repository_configs /\ version = get_config_version) ->
  (rp_status_code (service log c) <> 200%Z ->
     version service namespace name log = (log ++ [c], Raise AssertionError)) /\
  (rp_status_code (service log c) = 200%Z ->
   (forall m, In m (rp_entries (service log c)) ->
              ~ (en_namespace m = namespace /\ en_name m = name)) ->
     version service namespace name log = (log ++ [c], Raise ValueError)).
Proof.
  intros Hc.
  assert (E : version service namespace name log
              = (log ++ [c],
                 if Z.eqb (rp_status_code (service log c)) 200
                 then np_max_int
                        (map snapshotId
                           (versions_of namespace name (rp_entries (service log c))))
                 else Raise AssertionError)).
  { destruct Hc as [[-> ->]|[-> ->]].
    - apply get_method_version_outcome.
    - apply get_config_version_outcome. }
  rewrite E. split.
  - intros N. apply Z.eqb_neq in N. now rewrite N.
  - intros H200 None. rewrite H200. cbn [Z.eqb Pos.eqb].
    replace (versions_of namespace name (rp_entries (service log c))) with (@nil Entry);
      [reflexivity|].
    symmetry. destruct (versions_of _ _ _) as [|m ms] eqn:V; [reflexivity|].
    exfalso. assert (I : In m (versions_of namespace name (rp_entries (service log c))))
      by (rewrite V; now left).
    apply versions_of_In in I. apply (None m); tauto.
Qed.

(** check_configuration: with the workspace listing answered and [c]
    the first configuration of that name, the call returns the method
    version recorded in [c] only if the method repository is listed
    with status 200 and holds a snapshot of [c]'s method; without such
    a snapshot it raises [ValueError], and without a configuration of
    that name [IndexError] before the repository is asked. *)
Theorem X_check_configuration_outcome (service : Service) (config_name : string) :
  rp_status_code (service [] list_workspace_configs) = 200%Z ->
  let named :=
    filter (fun i => String.eqb (wc_name i) config_name)
           (rp_configs (service [] list_workspace_configs)) in
  let listing := service [list_workspace_configs] list_repository_methods in
  (named = [] ->
     run (check_configuration service config_name)
     = ([list_workspace_configs], Raise IndexError)) /\
  (forall c rest, named = c :: rest ->
     rp_status_code listing = 200%Z ->
     (versions_of (methodNamespace c) (methodName c) (rp_entries listing) = [] ->
        run (check_configuration service config_name)
        = ([list_workspace_configs; list_repository_methods], Raise ValueError)) /\
     (versions_of (methodNamespace c) (methodName c) (rp_entries listing) <> [] ->
        run (check_configuration service config_name)
        = ([list_workspace_configs; list_repository_methods], Ok (methodVersion c)))).
Proof.
  intros H200 named listing.
  assert (E : run (check_configuration service config_name)
              = match named with
                | [] => ([list_workspace_configs], Raise IndexError)
                | c :: _ =>
                    ([list_workspace_configs; list_repository_methods],
                     if Z.eqb (rp_status_code listing) 200
                     then bind
                            (np_max_int
                               (map snapshotId
                                  (versions_of (methodNamespace c) (methodName c)
                                     (rp_entries listing))))
                            (fun _ => Ok (methodVersion c))
                     else Raise AssertionError)
                end).
  { unfold run, check_configuration, and_then, request, assert_status, lift, pure.
    cbn [app]. rewrite H200. cbn [Z.eqb Pos.eqb]. fold named.
    destruct named as [|c rest]; [reflexivity|]. cbn [first_item].
    rewrite get_method_version_outcome. cbn [app]. fold listing.
    destruct (Z.eqb (rp_status_code listing) 200); [|reflexivity].
    destruct (np_max_int _); reflexivity. }
  rewrite E. split.
  - intros ->. reflexivity.
  - intros c rest -> L200. rewrite L200. cbn [Z.eqb Pos.eqb]. split.
    + intros ->. reflexivity.
    + intros NE.
      destruct (np_max_int_ok
                  (map snapshotId
                     (versions_of (methodNamespace c) (methodName c)
                        (rp_entries listing)))) as (v & ->).
      * destruct (versions_of _ _ _); [now elim NE|discriminate].
      * reflexivity.
Qed.

Lemma In_firstn {A : Type} (k : nat) (l : list A) (x : A) :
  In x (firstn k l) -> In x l.
Proof.
  revert l. induction k as [|k IH]; intros [|y l]; cbn; try tauto.
  intros [->|I]; [now left|right; now apply IH].
Qed.

Lemma delete_step (service : Service) (namespace name : string) (v : Z)
    (vs : list Z) (log : list Call) :
  for_api
    (fun i =>
       r <~ request service (delete_repository_method namespace name i) ;;
       assert_status r 200) (v :: vs) log
  = if Z.eqb (rp_status_code
                (service log (delete_repository_method namespace name v))) 200
    then for_api
           (fun i =>
              r <~ request service (delete_repository_method namespace name i) ;;
              assert_status r 200) vs
           (log ++ [delete_repository_method namespace name v])
    else (log ++ [delete_repository_method namespace name v], Raise AssertionError).
Proof.
  cbn [for_api]. unfold and_then, request, assert_status, pure, lift.
  destruct (Z.eqb _ 200); reflexivity.
Qed.

(** The deletion loop of [redact_outdated_method_versions]: it deletes
    a prefix of the versions, all of them exactly when it returns. *)
Lemma delete_loop (service : Service) (namespace name : string) (vs : list Z)
    (log : list Call) :
  exists k,
    fst (for_api
           (fun i =>
              r <~ request service (delete_repository_method namespace name i) ;;
              assert_status r 200) vs log)
    = log ++ map (delete_repository_method namespace name) (firstn k vs) /\
    ((forall log' v,
        rp_status_code (service log' (delete_repository_method namespace name v))
        = 200%Z) ->
     firstn k vs = vs /\
     snd (for_api
            (fun i =>
               r <~ request service (delete_repository_method namespace name i) ;;
               assert_status r 200) vs log) = Ok tt).
Proof.
  revert log. induction vs as [|v vs IH]; intros log.
  - exists 0%nat. cbn. rewrite app_nil_r. auto.
  - rewrite delete_step.
    destruct (Z.eqb (rp_status_code
                       (service log (delete_repository_method namespace name v))) 200)
      eqn:E.
    + destruct (IH (log ++ [delete_repository_method namespace name v]))
        as (k & Hlog & Hall).
      exists (S k). cbn [firstn map]. rewrite Hlog, <- app_assoc. cbn [app].
      split; [reflexivity|].
      intros A. destruct (Hall A) as (-> & R). auto.
    + cbn [fst snd]. exists 1%nat. cbn [firstn map]. split; [reflexivity|].
      intros A. rewrite A in E. discriminate.
Qed.

Lemma redact_unfold (service : Service) (method_namespace method_name : string) :
  run (redact_outdated_method_versions service method_namespace method_name)
  = if Z.eqb (rp_status_code (service [] list_repository_methods)) 200
    then
      match np_max_int
              (map snapshotId
                 (versions_of method_namespace method_name
                    (rp_entries (service [] list_repository_methods)))) with
      | Ok latest =>
          for_api
            (fun i =>
               r <~ request service
                      (delete_repository_method method_namespace method_name i) ;;
               assert_status r 200)
            (filter (fun v => negb (Z.eqb v latest))
               (map snapshotId
                  (versions_of method_namespace method_name
                     (rp_entries (service [] list_repository_methods)))))
            [list_repository_methods]
      | Raise e => ([list_repository_methods], Raise e)
      end
    else ([list_repository_methods], Raise AssertionError).
Proof.
  unfold run, redact_outdated_method_versions.
  unfold and_then at 1, request at 1. cbn [app].
  unfold and_then at 1, assert_status at 1.
  destruct (Z.eqb _ 200); [|reflexivity].
  cbn [pure]. unfold and_then at 1, lift at 1.
  destruct (np_max_int _); reflexivity.
Qed.

(** redact_outdated_method_versions never deletes the latest version:
    every deletion it requests is for the named method and for a
    snapshot in the listing that is smaller than another snapshot of
    that method. *)
Theorem X_redact_spares_latest (service : Service)
    (method_namespace method_name : string) (calls : list Call) (res : result unit)
    (namespace name : string) (v : Z) :
  run (redact_outdated_method_versions service method_namespace method_name)
  = (calls, res) ->
  In (delete_repository_method namespace name v) calls ->
  namespace = method_namespace /\ name = method_name /\
  exists m m',
    In m (rp_entries (service [] list_repository_methods)) /\
    en_namespace m = method_namespace /\ en_name m = method_name /\
    snapshotId m = v /\
    In m' (rp_entries (service [] list_repository_methods)) /\
    en_namespace m' = method_namespace /\ en_name m' = method_name /\
    (v < snapshotId m')%Z.
Proof.
  rewrite redact_unfold.
  destruct (Z.eqb _ 200).
  2:{ intros [= <- _] [H|[]]. discriminate. }
  set (entries := rp_entries (service [] list_repository_methods)).
  destruct (np_max_int
              (map snapshotId (versions_of method_namespace method_name entries)))
    as [latest|e] eqn:L.
  2:{ intros [= <- _] [H|[]]. discriminate. }
  intros R I.
  destruct (delete_loop service method_namespace method_name
              (filter (fun v => negb (Z.eqb v latest))
                 (map snapshotId (versions_of method_namespace method_name entries)))
              [list_repository_methods]) as (k & Hlog & _).
  rewrite R in Hlog. cbn [fst] in Hlog. rewrite Hlog in I. cbn [app] in I.
  destruct I as [I|I]; [discriminate|].
  apply in_map_iff in I as (v' & Ev & Iv). injection Ev as <- <- <-.
  split; [reflexivity|]. split; [reflexivity|].
  apply In_firstn in Iv. apply filter_In in Iv as (Iv & Nv).
  apply negb_true_iff, Z.eqb_neq in Nv.
  apply in_map_iff in Iv as (m & Em & Im). apply versions_of_In in Im.
  destruct (latest_of_versions _ _ _ _ L) as ((m' & Im' & Nm' & Mm' & Sm') & Max).
  exists m, m'. repeat (split; [tauto|]).
  specialize (Max m (proj1 Im) (proj2 (proj2 Im)) (proj1 (proj2 Im))). lia.
Qed.

(** redact_outdated_method_versions, when the listing and every
    deletion are answered with status 200: for a method with a
    snapshot it deletes every snapshot other than the greatest, in the
    order of the listing, and returns; for a method without snapshot it
    raises [ValueError] after the listing. *)
Theorem X_redact_deletes_outdated (service : Service)
    (method_namespace method_name : string) :
  rp_status_code (service [] list_repository_methods) = 200%Z ->
  (forall log v,
     rp_status_code
       (service log (delete_repository_method method_namespace method_name v))
     = 200%Z) ->
  let versions :=
    map snapshotId
        (versions_of method_namespace method_name
           (rp_entries (service [] list_repository_methods))) in
  (versions = [] ->
     run (redact_outdated_method_versions service method_namespace method_name)
     = ([list_repository_methods], Raise ValueError)) /\
  (forall latest, np_max_int versions = Ok latest ->
     run (redact_outdated_method_versions service method_namespace method_name)
     = (list_repository_methods ::
          map (delete_repository_method method_namespace method_name)
              (filter (fun v => negb (Z.eqb v latest)) versions),
        Ok tt)).
Proof.
  intros H200 Hdel versions.
  rewrite redact_unfold, H200. cbn [Z.eqb Pos.eqb]. fold versions. split.
  - intros ->. reflexivity.
  - intros latest ->.
    destruct (delete_loop service method_namespace method_name
                (filter (fun v => negb (Z.eqb v latest)) versions)
                [list_repository_methods]) as (k & Hlog & Hall).
    destruct (Hall Hdel) as (Hk & Hres). rewrite Hk in Hlog.
    destruct (for_api _ _ _) as [calls res]. cbn [fst snd] in *.
    now rewrite Hlog, Hres.
Qed.

Lemma prior_version_outcome (r : list Entry) (log : list Call) :
  prior_version r log
  = (log, Ok (match np_max_int (map snapshotId r) with
              | Ok v => Some v
              | Raise _ => None
              end)).
Proof. destruct r; reflexivity. Qed.

(** The part that [update_method] and [publish_config] share: after
    the listing [list] of the prior versions, the call [push] asserted
    to return [code], the access list, the deletion of the prior
    version. *)
Lemma publish_unfold (service : Service) (list push : Call) (code : Z)
    (acl delete : Z -> Call) (namespace name : string) (public : bool) :
  (r <~ (r <~ request service list ;;
         _ <~ assert_status r 200 ;;
         pure (versions_of namespace name (rp_entries r))) ;;
   old_version <~ prior_version r ;;
   r <~ request service push ;;
   _ <~ assert_status r code ;;
   r <~ (if public then request service (acl (rp_snapshotId r)) else pure r) ;;
   match old_version with
   | Some v => r <~ request service (delete v) ;; assert_status r 200
   | None => pure tt
   end) []
  = if Z.eqb (rp_status_code (service [] list)) 200 then
      if Z.eqb (rp_status_code (service [list] push)) code then
        let pushed :=
          [list; push] ++
          (if public then [acl (rp_snapshotId (service [list] push))] else []) in
        match np_max_int
                (map snapshotId
                   (versions_of namespace name (rp_entries (service [] list)))) with
        | Ok v =>
            (pushed ++ [delete v],
             if Z.eqb (rp_status_code (service pushed (delete v))) 200
             then Ok tt else Raise AssertionError)
        | Raise _ => (pushed, Ok tt)
        end
      else ([list; push], Raise AssertionError)
    else ([list], Raise AssertionError).
Proof.
  unfold and_then at 1. rewrite listing_outcome. cbn [app].
  destruct (Z.eqb (rp_status_code (service [] list)) 200); [|reflexivity].
  unfold and_then at 1. rewrite prior_version_outcome.
  unfold and_then at 1, request at 1. cbn [app].
  unfold and_then at 1, assert_status at 1.
  destruct (Z.eqb (rp_status_code (service [list] push)) code); [|reflexivity].
  cbn [pure]. unfold and_then at 1.
  destruct public; cbn [request pure app];
    (destruct (np_max_int _); [|reflexivity]);
    unfold and_then, request, assert_status; cbn [app];
    destruct (Z.eqb _ 200); reflexivity.
Qed.

Lemma update_method_unfold (service : Service)
    (namespace method synopsis wdl_file : string) (public : bool) :
  run (update_method service namespace method synopsis wdl_file public)
  = if Z.eqb (rp_status_code (service [] list_repository_methods)) 200 then
      let push := update_repository_method namespace method synopsis wdl_file in
      if Z.eqb (rp_status_code (service [list_repository_methods] push)) 201 then
        let pushed :=
          [list_repository_methods; push] ++
          (if public
           then [update_repository_method_acl namespace method
                   (rp_snapshotId (service [list_repository_methods] push))]
           else []) in
        match np_max_int
                (map snapshotId
                   (versions_of namespace method
                      (rp_entries (service [] list_repository_methods)))) with
        | Ok v =>
            (pushed ++ [delete_repository_method namespace method v],
             if Z.eqb (rp_status_code
                         (service pushed (delete_repository_method namespace method v)))
                      200
             then Ok tt else Raise AssertionError)
        | Raise _ => (pushed, Ok tt)
        end
      else ([list_repository_methods; push], Raise AssertionError)
    else ([list_repository_methods], Raise AssertionError).
Proof.
  exact (publish_unfold service list_repository_methods
           (update_repository_method namespace method synopsis wdl_file) 201
           (update_repository_method_acl namespace method)
           (delete_repository_method namespace method) namespace method public).
Qed.

Lemma publish_config_unfold (service : Service)
    (from_cnamespace from_config to_cnamespace to_config : string) (public : bool) :
  run (publish_config service from_cnamespace from_config to_cnamespace to_config public)
  = if Z.eqb (rp_status_code (service [] list_repository_configs)) 200 then
      let push :=
        copy_config_to_repo from_cnamespace from_config to_cnamespace to_config in
      if Z.eqb (rp_status_code (service [list_repository_configs] push)) 200 then
        let pushed :=
          [list_repository_configs; push] ++
          (if public
           then [update_repository_config_acl to_cnamespace to_config
                   (rp_snapshotId (service [list_repository_configs] push))]
           else []) in
        match np_max_int
                (map snapshotId
                   (versions_of to_cnamespace to_config
                      (rp_entries (service [] list_repository_configs)))) with
        | Ok v =>
            (pushed ++ [delete_repository_config to_cnamespace to_config v],
             if Z.eqb (rp_status_code
                         (service pushed
                            (delete_repository_config to_cnamespace to_config v)))
                      200
             then Ok tt else Raise AssertionError)
        | Raise _ => (pushed, Ok tt)
        end
      else ([list_repository_configs; push], Raise AssertionError)
    else ([list_repository_configs], Raise AssertionError).
Proof.
  exact (publish_unfold service list_repository_configs
           (copy_config_to_repo from_cnamespace from_config to_cnamespace to_config) 200
           (update_repository_config_acl to_cnamespace to_config)
           (delete_repository_config to_cnamespace to_config)
           to_cnamespace to_config public).
Qed.

(** update_method deletes a snapshot only of the method it updates,
    only after the push was answered with status 201, and only the
    greatest snapshot that the listing had of that method: the deletion
    is its last call and the push comes before it. *)
Theorem X_update_method_deletes_after_push (service : Service)
    (namespace method synopsis wdl_file : string) (public : bool)
    (calls : list Call) (res : result unit) (namespace' method' : string) (v : Z) :
  run (update_method service namespace method synopsis wdl_file public) = (calls, res) ->
  In (delete_repository_method namespace' method' v) calls ->
  let push := update_repository_method namespace method synopsis wdl_file in
  namespace' = namespace /\ method' = method /\
  rp_status_code (service [list_repository_methods] push) = 201%Z /\
  (exists before,
     calls = before ++ [delete_repository_method namespace method v] /\
     In push before) /\
  (exists m, In m (rp_entries (service [] list_repository_methods)) /\
             en_namespace m = namespace /\ en_name m = method /\
             snapshotId m = v) /\
  (forall m, In m (rp_entries (service [] list_repository_methods)) ->
             en_namespace m = namespace -> en_name m = method ->
             (snapshotId m <= v)%Z).
Proof.
  rewrite update_method_unfold. intros R I push.
  destruct (Z.eqb (rp_status_code (service [] list_repository_methods)) 200).
  2:{ injection R as <- _. destruct I as [I|[]]. discriminate. }
  cbv zeta in R. fold push in R.
  destruct (Z.eqb (rp_status_code (service [list_repository_methods] push)) 201) eqn:P.
  2:{ injection R as <- _. destruct I as [I|[I|[]]]; discriminate. }
  apply Z.eqb_eq in P.
  destruct (np_max_int _) as [v0|e] eqn:L.
  - injection R as <- _.
    assert (Hv : delete_repository_method namespace' method' v
                 = delete_repository_method namespace method v0).
    { destruct I as [I|[I|I]]; [discriminate|discriminate|].
      apply in_app_or in I as [I|[I|[]]]; [|now symmetry].
      destruct public; cbn in I; intuition discriminate. }
    injection Hv as -> -> ->.
    split; [reflexivity|]. split; [reflexivity|]. split; [exact P|]. split.
    + exists (list_repository_methods :: push ::
              (if public
               then [update_repository_method_acl namespace method
                       (rp_snapshotId (service [list_repository_methods] push))]
               else [])).
      split; [reflexivity|]. right. now left.
    + now apply latest_of_versions.
  - injection R as <- _. exfalso.
    destruct public; cbn in I; intuition discriminate.
Qed.

(** publish_config deletes a snapshot only of the configuration it
    publishes to, only after the copy was answered with status 200, and
    only the greatest snapshot that the listing had of that
    configuration: the deletion is its last call and the copy comes
    before it. *)
Theorem X_publish_config_deletes_after_copy (service : Service)
    (from_cnamespace from_config to_cnamespace to_config : string) (public : bool)
    (calls : list Call) (res : result unit) (namespace' config' : string) (v : Z) :
  run (publish_config service from_cnamespace from_config to_cnamespace to_config public)
  = (calls, res) ->
  In (delete_repository_config namespace' config' v) calls ->
  let copy := copy_config_to_repo from_cnamespace from_config to_cnamespace to_config in
  namespace' = to_cnamespace /\ config' = to_config /\
  rp_status_code (service [list_repository_configs] copy) = 200%Z /\
  (exists before,
     calls = before ++ [delete_repository_config to_cnamespace to_config v] /\
     In copy before) /\
  (exists m, In m (rp_entries (service [] list_repository_configs)) /\
             en_namespace m = to_cnamespace /\ en_name m = to_config /\
             snapshotId m = v) /\
  (forall m, In m (rp_entries (service [] list_repository_configs)) ->
             en_namespace m = to_cnamespace -> en_name m = to_config ->
             (snapshotId m <= v)%Z).
Proof.
  rewrite publish_config_unfold. intros R I copy.
  destruct (Z.eqb (rp_status_code (service [] list_repository_configs)) 200).
  2:{ injection R as <- _. destruct I as [I|[]]. discriminate. }
  cbv zeta in R. fold copy in R.
  destruct (Z.eqb (rp_status_code (service [list_repository_configs] copy)) 200) eqn:P.
  2:{ injection R as <- _. destruct I as [I|[I|[]]]; discriminate. }
  apply Z.eqb_eq in P.
  destruct (np_max_int _) as [v0|e] eqn:L.
  - injection R as <- _.
    assert (Hv : delete_repository_config namespace' config' v
                 = delete_repository_config to_cnamespace to_config v0).
    { destruct I as [I|[I|I]]; [discriminate|discriminate|].
      apply in_app_or in I as [I|[I|[]]]; [|now symmetry].
      destruct public; cbn in I; intuition discriminate. }
    injection Hv as -> -> ->.
    split; [reflexivity|]. split; [reflexivity|]. split; [exact P|]. split.
    + exists (list_repository_configs :: copy ::
              (if public
               then [update_repository_config_acl to_cnamespace to_config
                       (rp_snapshotId (service [list_repository_configs] copy))]
               else [])).
      split; [reflexivity|]. right. now left.
    + now apply latest_of_versions.
  - injection R as <- _. exfalso.
    destruct public; cbn in I; intuition discriminate.
Qed.

Lemma X_latest_version_is_greatest_witness :
  run (get_method_version sample_service "broad" "align")
  = ([list_repository_methods], Ok 3%Z) /\
  run (get_config_version sample_service "other" "align")
  = ([list_repository_configs], Ok 9%Z).
Proof.
  split.
  - destruct (X_latest_version_is_greatest sample_service "broad" "align" []
                list_repository_methods get_method_version)
      as (v & E & _ & _).
    + left. split; reflexivity.
    + reflexivity.
    + exists (mkEntry "broad" "align" 1). split; [now left|split; reflexivity].
    + unfold run. rewrite E. vm_compute in E. injection E as <-. reflexivity.
  - destruct (X_latest_version_is_greatest sample_service "other" "align" []
                list_repository_configs get_config_version)
      as (v & E & _ & _).
    + right. split; reflexivity.
    + reflexivity.
    + exists (mkEntry "other" "align" 9).
      split; [right; right; now left|split; reflexivity].
    + unfold run. rewrite E. vm_compute in E. injection E as <-. reflexivity.
Defined.

Lemma X_latest_version_of_nothing_witness :
  run (get_method_version sample_service "broad" "call")
  = ([list_repository_methods], Raise ValueError).
Proof.
  apply (proj2 (X_latest_version_of_nothing sample_service "broad" "call" []
                  list_repository_methods get_method_version
                  (or_introl (conj eq_refl eq_refl)))).
  - reflexivity.
  - intros m [<-|[<-|[<-|[<-|[]]]]] [_ H]; discriminate H.
Defined.

Lemma X_check_configuration_outcome_witness :
  run (check_configuration sample_service "cfg")
  = ([list_workspace_configs; list_repository_methods], Ok 2%Z) /\
  run (check_configuration sample_service "other")
  = ([list_workspace_configs], Raise IndexError).
Proof.
  split.
  - destruct (X_check_configuration_outcome sample_service "cfg" eq_refl) as (_ & H).
    destruct (H (mkWorkspaceConfig "cfg" "broad" "align" 2) [] eq_refl eq_refl)
      as (_ & H').
    apply H'. discriminate.
  - destruct (X_check_configuration_outcome sample_service "other" eq_refl) as (H & _).
    apply H. reflexivity.
Defined.

Lemma X_redact_spares_latest_witness :
  exists m',
    In m' sample_entries /\ en_namespace m' = "broad" /\ en_name m' = "align" /\
    (1 < snapshotId m')%Z.
Proof.
  destruct (X_redact_spares_latest sample_service "broad" "align"
              [list_repository_methods;
               delete_repository_method "broad" "align" 1;
               delete_repository_method "broad" "align" 2]
              (Ok tt) "broad" "align" 1)
    as (_ & _ & m & m' & _ & _ & _ & _ & I & N & M & L).
  - reflexivity.
  - right. now left.
  - exists m'. auto.
Defined.

Lemma X_redact_deletes_outdated_witness :
  run (redact_outdated_method_versions sample_service "broad" "align")
  = ([list_repository_methods;
      delete_repository_method "broad" "align" 1;
      delete_repository_method "broad" "align" 2], Ok tt) /\
  run (redact_outdated_method_versions sample_service "broad" "call")
  = ([list_repository_methods], Raise ValueError).
Proof.
  split.
  - apply (proj2 (X_redact_deletes_outdated sample_service "broad" "align"
                    eq_refl (fun _ _ => eq_refl)) 3%Z).
    reflexivity.
  - apply (proj1 (X_redact_deletes_outdated sample_service "broad" "call"
                    eq_refl (fun _ _ => eq_refl))).
    reflexivity.
Defined.

Lemma X_update_method_deletes_after_push_witness :
  rp_status_code
    (sample_service [list_repository_methods]
       (update_repository_method "broad" "align" "aligner" "align.wdl")) = 201%Z /\
  exists before,
    [ list_repository_methods;
      update_repository_method "broad" "align" "aligner" "align.wdl";
      update_repository_method_acl "broad" "align" 4;
      delete_repository_method "broad" "align" 3 ]
    = before ++ [delete_repository_method "broad" "align" 3] /\
    In (update_repository_method "broad" "align" "aligner" "align.wdl") before.
Proof.
  destruct (X_update_method_deletes_after_push sample_service
              "broad" "align" "aligner" "align.wdl" true
              [ list_repository_methods;
                update_repository_method "broad" "align" "aligner" "align.wdl";
                update_repository_method_acl "broad" "align" 4;
                delete_repository_method "broad" "align" 3 ]
              (Ok tt) "broad" "align" 3)
    as (_ & _ & P & B & _).
  - reflexivity.
  - right. right. right. now left.
  - split; [exact P|exact B].
Defined.

Lemma X_publish_config_deletes_after_copy_witness :
  exists before,
    [ list_repository_configs;
      copy_config_to_repo "ws" "align_cfg" "broad" "align";
      delete_repository_config "broad" "align" 3 ]
    = before ++ [delete_repository_config "broad" "align" 3] /\
    In (copy_config_to_repo "ws" "align_cfg" "broad" "align") before.
Proof.
  destruct (X_publish_config_deletes_after_copy sample_service
              "ws" "align_cfg" "broad" "align" false
              [ list_repository_configs;
                copy_config_to_repo "ws" "align_cfg" "broad" "align";
                delete_repository_config "broad" "align" 3 ]
              (Ok tt) "broad" "align" 3)
    as (_ & _ & _ & B & _).
  - reflexivity.
  - right. right. now left.
  - exact B.
Defined.

End Repository_Facts.

(* ================================================================== *)
(** ** Google operation metadata *)

Section GoogleStats_Facts.
Import Pricing GoogleStats.

Lemma dict_display_keeps {V : Type} (items : list (string * V)) (acc : dict V)
    (k : string) :
  dict_get k acc <> None ->
  dict_get k (fold_left (fun d kv => dict_set (fst kv) (snd kv) d) items acc) <> None.
Proof.
  revert acc. induction items as [|[k' v'] items IH]; intros acc H; [exact H|].
  cbn [fold_left fst snd]. apply IH.
  destruct (String.eqb_spec k k') as [->|N].
  - rewrite dict_get_set_eq. discriminate.
  - now rewrite dict_get_set_neq.
Qed.

(** A key is in a dict display exactly when one of the items has it. *)
Lemma dict_display_mem {V : Type} (items : list (string * V)) (k : string) :
  dict_mem k (dict_display items)
  = existsb (fun kv => String.eqb (fst kv) k) items.
Proof.
  unfold dict_mem, dict_display.
  assert (G : forall acc,
            dict_get k acc = None ->
            match dict_get k (fold_left (fun d kv => dict_set (fst kv) (snd kv) d)
                                items acc) with
            | Some _ => true
            | None => false
            end = existsb (fun kv => String.eqb (fst kv) k) items).
  { induction items as [|[k' v'] items IH]; intros acc H.
    - cbn. now rewrite H.
    - cbn [fold_left existsb fst snd].
      destruct (String.eqb_spec k' k) as [->|N]; cbn [orb].
      + pose proof (dict_display_keeps items (dict_set k v' acc) k) as K.
        destruct (dict_get k (fold_left _ items (dict_set k v' acc)));
          [reflexivity|].
        exfalso. apply K; [|reflexivity]. rewrite dict_get_set_eq. discriminate.
      + apply IH. rewrite dict_get_set_neq by congruence. exact H. }
  apply G. reflexivity.
Qed.

(** The minimum that [np.min] returns on finite floats. *)
Lemma np_min_finite (xs : list pyfloat) (m : pyfloat) :
  np_min xs = Ok m -> Forall finite xs ->
  In m xs /\ Forall (fun x => fle m x) xs.
Proof.
  destruct xs as [|x xs]; [discriminate|]. cbn [np_min]. intros [= <-] F.
  inversion F as [|? ? Fx Fxs]; subst. clear F.
  destruct x as [q|]; [clear Fx|now elim Fx].
  assert (G : forall xs q, Forall finite xs ->
            exists s, fold_left fmin xs (Fin q) = Fin s /\ s <= q /\
                      (s = q \/ In (Fin s) xs) /\
                      Forall (fun x => fle (Fin s) x) xs).
  { clear. induction xs as [|y ys IH]; intros q F; cbn [fold_left].
    - exists q. split; [reflexivity|]. split; [lra|]. split; [now left|constructor].
    - inversion F as [|? ? Fy Fys]; subst.
      destruct y as [p|]; [|now elim Fy]. cbn [fmin].
      destruct (Qle_bool q p) eqn:E.
      + apply Qle_bool_iff in E.
        destruct (IH q Fys) as (s & Es & Hs & Hin & Hall).
        exists s. split; [exact Es|]. split; [exact Hs|]. split.
        * destruct Hin as [->|Hin]; [now left|right; now right].
        * constructor; [cbn; lra|exact Hall].
      + assert (p < q).
        { apply Qnot_le_lt. intros H. apply Qle_bool_iff in H. congruence. }
        destruct (IH p Fys) as (s & Es & Hs & Hin & Hall).
        exists s. split; [exact Es|]. split; [lra|]. split.
        * destruct Hin as [->|Hin]; [right; now left|right; now right].
        * constructor; [cbn; lra|exact Hall]. }
  destruct (G xs q Fxs) as (s & -> & Hs & Hin & Hall).
  split.
  - destruct Hin as [->|Hin]; [now left|now right].
  - constructor; [exact Hs|exact Hall].
Qed.

Lemma existsb_over_map {A B : Type} (f : B -> bool) (g : A -> B) (xs : list A) :
  existsb f (map g xs) = existsb (fun x => f (g x)) xs.
Proof.
  induction xs as [|x xs IH]; [reflexivity|]. cbn. now rewrite IH.
Qed.

Lemma event_times_finite (ks : list Event) :
  Forall finite (map (fun k => convert_time (startTime k)) ks).
Proof.
  apply Forall_forall. intros x I. apply in_map_iff in I as (k & <- & _).
  discriminate.
Qed.

(** The values of one operation: the span of its retained events. *)
Lemma operation_stats_retained (j : Operation) (k0 : Event) (ks : list Event) :
  retained j = k0 :: ks ->
  exists first last,
    In first (retained j) /\ In last (retained j) /\
    (forall k, In k (retained j) ->
               startTime first <= startTime k /\ startTime k <= startTime last) /\
    operation_stats j
    = Ok {| g_time_h := Fin ((startTime last - startTime first) / 3600);
            g_machine_type := rsplit_last "/" (machineType j);
            g_preemptible := op_preemptible j;
            g_preempted :=
              negb (existsb (fun k => String.eqb (description k) "ok") (retained j)) |}.
Proof.
  intros R. unfold operation_stats.
  set (times := map (fun k => convert_time (startTime k)) (retained j)).
  assert (F : Forall finite times) by apply event_times_finite.
  destruct (np_max times) as [latest|] eqn:Emax;
    [|unfold times in Emax; rewrite R in Emax; discriminate].
  destruct (np_min times) as [earliest|] eqn:Emin;
    [|unfold times in Emin; rewrite R in Emin; discriminate].
  destruct (np_max_finite _ _ Emax F) as (Imax & Bmax).
  destruct (np_min_finite _ _ Emin F) as (Imin & Bmin).
  apply in_map_iff in Imax as (last & <- & Ilast).
  apply in_map_iff in Imin as (first & <- & Ifirst).
  exists first, last. split; [exact Ifirst|]. split; [exact Ilast|]. split.
  - intros k I. rewrite Forall_forall in Bmax, Bmin.
    assert (It : In (convert_time (startTime k)) times)
      by (apply in_map_iff; now exists k).
    split; [exact (Bmin _ It)|exact (Bmax _ It)].
  - cbn [bind]. f_equal. f_equal.
    rewrite dict_display_mem. f_equal.
    rewrite existsb_over_map. reflexivity.
Qed.

Lemma operation_stats_spans (j : Operation) (r : Row) :
  operation_stats j = Ok r -> spans j r.
Proof.
  intros H. destruct (retained j) as [|k0 ks] eqn:R.
  - unfold operation_stats in H. rewrite R in H. discriminate.
  - destruct (operation_stats_retained j k0 ks R) as (first & last & I1 & I2 & B & E).
    rewrite R in *. exists first, last. rewrite R.
    repeat (split; [assumption|]). congruence.
Qed.

Lemma operation_stats_total (j : Operation) :
  retained j <> [] -> exists r, operation_stats j = Ok r.
Proof.
  destruct (retained j) as [|k0 ks] eqn:R; [contradiction|]. intros _.
  destruct (operation_stats_retained j k0 ks R) as (first & last & _ & _ & _ & E).
  eauto.
Qed.

Lemma operation_stats_no_event (j : Operation) :
  retained j = [] -> operation_stats j = Raise ValueError.
Proof. unfold operation_stats. now intros ->. Qed.

Lemma operation_stats_raises (j : Operation) (e : exn) :
  operation_stats j = Raise e -> e = ValueError /\ retained j = [].
Proof.
  destruct (retained j) as [|k0 ks] eqn:R.
  - rewrite operation_stats_no_event by exact R. now intros [= <-].
  - destruct (operation_stats_retained j k0 ks R) as (? & ? & _ & _ & _ & ->).
    discriminate.
Qed.

(** The loop of [parse_google_stats] over operations with distinct
    names and values [st]. *)
Lemma parse_loop (st : Operation -> Row) (js : list Operation) (df : frame) :
  NoDup (map op_name js) ->
  (forall j, In j js -> operation_stats j = Ok (st j)) ->
  for_each
    (fun df j => values <- operation_stats j ;; Ok (loc_set (op_name j) values df))
    js df
  = Ok (map (fun row =>
               match find (fun j => String.eqb (op_name j) (fst row)) js with
               | Some j => (fst row, Some (st j))
               | None => row
               end) df).
Proof.
  revert df. induction js as [|j js IH]; intros df ND Hst.
  - cbn. f_equal. symmetry. apply map_id.
  - cbn [for_each]. rewrite (Hst j) by now left. cbn [bind].
    inversion ND as [|? ? Hj ND']; subst.
    rewrite IH by (auto; intros; apply Hst; now right).
    f_equal. unfold loc_set. rewrite map_map. apply map_ext. intros [label v].
    cbn [fst find]. rewrite (String.eqb_sym (op_name j) label).
    destruct (String.eqb_spec label (op_name j)) as [->|N]; cbn [fst].
    + destruct (find _ js) as [j'|] eqn:F; [|reflexivity].
      exfalso. apply find_some in F as (I & E). apply String.eqb_eq in E.
      apply Hj. rewrite <- E. now apply in_map.
    + reflexivity.
Qed.

Lemma find_distinct {A : Type} (f : A -> string) (l : list A) (x : A) :
  NoDup (map f l) -> In x l ->
  find (fun y => String.eqb (f y) (f x)) l = Some x.
Proof.
  induction l as [|y l IH]; intros ND I; [contradiction|].
  cbn [map] in ND. inversion ND as [|? ? Hy ND']; subst. cbn [find].
  destruct I as [->|I]; [now rewrite String.eqb_refl|].
  destruct (String.eqb_spec (f y) (f x)) as [E|_]; [|now apply IH].
  exfalso. apply Hy. rewrite E. now apply in_map.
Qed.

Lemma parse_loop_ok (js : list Operation) (df df' : frame) :
  for_each
    (fun df j => values <- operation_stats j ;; Ok (loc_set (op_name j) values df))
    js df = Ok df' ->
  forall j, In j js -> exists r, operation_stats j = Ok r.
Proof.
  revert df. induction js as [|j js IH]; intros df H j' I; [contradiction|].
  cbn [for_each] in H. apply bind_ok in H as (df1 & H1 & H).
  apply bind_ok in H1 as (r & Hr & _).
  destruct I as [<-|I]; [eauto|]. eapply IH; eauto.
Qed.

Lemma parse_loop_raises (js : list Operation) (df : frame) :
  Exists (fun j => retained j = []) js ->
  for_each
    (fun df j => values <- operation_stats j ;; Ok (loc_set (op_name j) values df))
    js df = Raise ValueError.
Proof.
  intros E. revert df. induction E as [j js Hj|j js _ IH]; intros df.
  - cbn [for_each]. now rewrite operation_stats_no_event.
  - cbn [for_each]. destruct (operation_stats j) as [r|e] eqn:S.
    + cbn [bind]. apply IH.
    + apply operation_stats_raises in S as (-> & _). reflexivity.
Qed.

Lemma parse_google_stats_frame (json_list : list Operation) :
  NoDup (map op_name json_list) ->
  Forall (fun j => retained j <> []) json_list ->
  exists df,
    parse_google_stats json_list = Ok df /\
    Forall2 (fun j row => exists r, row = (op_name j, Some r) /\ spans j r)
            json_list df.
Proof.

  intros ND F.
  set (st := fun j => match operation_stats j with
                      | Ok r => r
                      | Raise _ => mkRow NaN "" false false
                      end).
  assert (Hst : forall j, In j json_list -> operation_stats j = Ok (st j)).
  { intros j I. rewrite Forall_forall in F.
    destruct (operation_stats_total j (F j I)) as (r & E).
    unfold st. now rewrite E. }
  eexists. split.
  - unfold parse_google_stats. apply parse_loop; [exact ND|exact Hst].
  - rewrite map_map. cbn [fst].
    assert (G : forall l, (forall j, In j l -> In j json_list) ->
              Forall2 (fun j row => exists r, row = (op_name j, Some r) /\ spans j r)
                l
                (map (fun j =>
                        match find (fun j' => String.eqb (op_name j') (op_name j))
                                   json_list with
                        | Some j' => (op_name j, Some (st j'))
                        | None => (op_name j, None)
                        end) l)).
    { induction l as [|j l IH]; intros Hl; [constructor|].
      cbn [map]. constructor.
      - rewrite (find_distinct op_name json_list j ND) by (apply Hl; now left).
        exists (st j). split; [reflexivity|].
        apply operation_stats_spans, Hst, Hl. now left.
      - apply IH. intros j' I. apply Hl. now right. }
    apply G. auto.
Qed.

(** parse_google_stats on operations with distinct names: when every
    operation has an event without [copied] key, the frame has one row
    per operation, in order, holding the span of its retained events in
    hours (not negative), the last component of its machine type, its
    preemptible flag, and as [preempted] whether no retained event is
    described as [ok]. *)
Theorem X_parse_google_stats_rows (json_list : list Operation) :
  NoDup (map op_name json_list) ->
  Forall (fun j => retained j <> []) json_list ->
  exists df,
    parse_google_stats json_list = Ok df /\
    Forall2 (fun j row => exists r, row = (op_name j, Some r) /\ spans j r)
            json_list df.
Proof. apply parse_google_stats_frame. Qed.

(** parse_google_stats raises [ValueError] as soon as one operation has
    no event without [copied] key: [np.max] of no event time. *)
Theorem X_parse_google_stats_no_events (json_list : list Operation) :
  Exists (fun j => retained j = []) json_list ->
  parse_google_stats json_list = Raise ValueError.
Proof. intros E. unfold parse_google_stats. now apply parse_loop_raises. Qed.

Lemma loc_absent (df : frame) (label : string) :
  ~ In label (map fst df) -> loc label df = [].
Proof.
  unfold loc. induction df as [|[l w] df IH]; intros N; [reflexivity|].
  cbn [filter fst]. cbn [map fst In] in N.
  destruct (String.eqb_spec l label) as [->|_]; [tauto|]. apply IH. tauto.
Qed.

Lemma loc_single (df : frame) (label : string) (v : option Row) :
  NoDup (map fst df) -> In (label, v) df -> loc label df = [(label, v)].
Proof.
  unfold loc. induction df as [|[l w] df IH]; intros ND I; [contradiction|].
  cbn [map fst] in ND. inversion ND as [|? ? Hl ND']; subst. cbn [filter fst].
  destruct I as [[= -> ->]|I].
  - rewrite String.eqb_refl. f_equal.
    apply loc_absent. exact Hl.
  - destruct (String.eqb_spec l label) as [->|_]; [|now apply IH].
    exfalso. apply Hl. apply in_map_iff. now exists (label, v).
Qed.

(** calculate_google_cost on the frame of parse_google_stats, for
    operations with distinct names.  An operation without [ok] event
    whose retained events span less than a sixth of an hour costs 0,
    whatever its machine type; any other operation costs its hours
    times the rate of its machine type and preemptible flag, and
    raises [KeyError] when that type has no price.  A cost is never
    negative, and a job id that is no operation raises [KeyError]. *)
Theorem X_google_cost_of_parsed (json_list : list Operation) (df : frame) :
  NoDup (map op_name json_list) ->
  parse_google_stats json_list = Ok df ->
  (forall jobid, ~ In jobid (map op_name json_list) ->
     calculate_google_cost jobid df = Raise (KeyError jobid)) /\
  (forall j, In j json_list ->
     exists r h,
       spans j r /\ g_time_h r = Fin h /\ 0 <= h /\
       (g_preempted r = true -> h < 1 / 6 ->
          calculate_google_cost (op_name j) df = Ok (Fin 0)) /\
       (g_preempted r = false \/ 1 / 6 <= h ->
          calculate_google_cost (op_name j) df
          = (c <- get_vm_cost (g_machine_type r) (g_preemptible r) ;;
             Ok (fmul (Fin h) c))) /\
       (forall c, calculate_google_cost (op_name j) df = Ok c -> fle (Fin 0) c)).
Proof.
  intros ND P.
  assert (F : Forall (fun j => retained j <> []) json_list).
  { apply Forall_forall. intros j I Hn.
    unfold parse_google_stats in P.
    destruct (parse_loop_ok _ _ _ P j I) as (r & E).
    rewrite operation_stats_no_event in E by exact Hn. discriminate. }
  destruct (parse_google_stats_frame json_list ND F) as (df' & P' & R).
  assert (df' = df) as -> by congruence. clear P'.
  assert (K : map fst df = map op_name json_list).
  { clear -R. induction R as [|j row l df (r & -> & _) _ IH]; [reflexivity|].
    cbn. now rewrite IH. }
  split.
  - intros jobid N. unfold calculate_google_cost.
    rewrite loc_absent; [reflexivity|]. now rewrite K.
  - intros j I.
    assert (Hrow : exists r, In (op_name j, Some r) df /\ spans j r).
    { clear -R I. induction R as [|j' row l df (r & -> & S) _ IH]; [contradiction|].
      destruct I as [->|I].
      - exists r. split; [now left|exact S].
      - destruct (IH I) as (r' & I' & S'). exists r'. split; [now right|exact S']. }
    destruct Hrow as (r & Ir & S).
    assert (L : loc (op_name j) df = [(op_name j, Some r)]).
    { apply loc_single; [now rewrite K|exact Ir]. }
    assert (Hh : exists h, g_time_h r = Fin h /\ 0 <= h).
    { destruct S as (first & last & I1 & I2 & B & ->). cbn [g_time_h].
      eexists. split; [reflexivity|].
      destruct (B first I1) as (_ & Hle). apply Qle_shift_div_l; lra. }
    destruct Hh as (h & Eh & Hpos).
    exists r, h. split; [exact S|]. split; [exact Eh|]. split; [exact Hpos|].
    unfold calculate_google_cost. rewrite L, Eh.
    assert (Hlt : fltb (Fin h) (1 / 6) = true <-> h < 1 / 6).
    { unfold fltb, fgtb. rewrite negb_true_iff. split.
      - intros E. apply Qnot_le_lt. intros Hle. apply Qle_bool_iff in Hle. congruence.
      - intros Hl. destruct (Qle_bool (1 / 6) h) eqn:E; [|reflexivity].
        apply Qle_bool_iff in E. lra. }
    split; [|split].
    + intros Pr Hl. rewrite Pr. cbn [andb]. now rewrite (proj2 Hlt Hl).
    + intros [Pr|Hge].
      * now rewrite Pr.
      * destruct (fltb (Fin h) (1 / 6)) eqn:E.
        -- assert (h < 1 / 6) by (apply Hlt; reflexivity). lra.
        -- now rewrite andb_false_r.
    + intros c. destruct (g_preempted r && fltb (Fin h) (1 / 6)).
      * intros [= <-]. cbn. lra.
      * intros Hc. apply bind_ok in Hc as (x & Hx & Hc).
        destruct (price_positive _ _ _ Hx) as (q & -> & Hq).
        injection Hc as <-. cbn. apply Qmult_le_0_compat; lra.
Qed.

Lemma X_parse_google_stats_rows_witness :
  exists df,
    parse_google_stats sample_operations = Ok df /\
    Forall2 (fun j row => exists r, row = (op_name j, Some r) /\ spans j r)
            sample_operations df.
Proof.
  apply (X_parse_google_stats_rows sample_operations).
  - repeat constructor; cbn; intuition discriminate.
  - repeat constructor; discriminate.
Defined.

Lemma X_parse_google_stats_no_events_witness :
  parse_google_stats
    [ mkOperation "op-3" [ mkEvent "copied" 10 true ] "zones/z/machineTypes/n1-standard-1"
        false ]
  = Raise ValueError.
Proof.
  apply X_parse_google_stats_no_events. constructor. reflexivity.
Defined.

Lemma X_google_cost_of_parsed_witness :
  exists df,
    parse_google_stats sample_operations = Ok df /\
    calculate_google_cost "op-2" df = Ok (Fin 0) /\
    calculate_google_cost "op-9" df = Raise (KeyError "op-9").
Proof.
  destruct (parse_google_stats sample_operations) as [df|] eqn:P; [|discriminate].
  destruct (X_google_cost_of_parsed sample_operations df) as (Habsent & Hcost).
  - repeat constructor; cbn; intuition discriminate.
  - exact P.
  - exists df. split; [reflexivity|]. split.
    + destruct (Hcost (nth 1 sample_operations (mkOperation "" [] "" false)))
        as (r & h & S & Eh & _ & Hfree & _ & _).
      { right. now left. }
      destruct S as (first & last & I1 & I2 & B & ->).
      cbn [g_time_h g_preempted] in *. injection Eh as <-.
      apply Hfree; [reflexivity|].
      destruct I1 as [<-|[<-|[]]]; destruct I2 as [<-|[<-|[]]]; reflexivity.
    + apply Habsent. cbn. intuition discriminate.
Defined.

End GoogleStats_Facts.

(* ================================================================== *)
(** ** Further properties of the task rows and of the price tables *)

Section TaskRow_More.
Import Pricing Aggregator AggregatorSpec.

Lemma qsum_nonneg (qs : list Q) : Forall (fun q => 0 <= q) qs -> 0 <= qsum qs.
Proof.
  induction 1 as [|q qs Hq _ IH]; [cbn; lra|].
  change (qsum (q :: qs)) with (q + qsum qs). lra.
Qed.

Lemma qsum_bounds_item (qs : list Q) (q : Q) :
  Forall (fun q => 0 <= q) qs -> In q qs -> q <= qsum qs.
Proof.
  induction 1 as [|x qs Hx F IH]; intros I; [contradiction|].
  change (qsum (x :: qs)) with (x + qsum qs).
  pose proof (qsum_nonneg qs F).
  destruct I as [->|I]; [lra|]. specialize (IH I). lra.
Qed.

Lemma ended_time (a : Attempt) :
  ended a ->
  exists d, 0 <= d /\ workflow_time a = Fin d /\ hours a = Fin (d / 3600).
Proof.
  intros (e & E & Hle). unfold hours, workflow_time. cbn [end_ start Timed_Attempt].
  rewrite E. cbn [convert_time fsub per_3600].
  exists (e - att_start a). split; [lra|]. split; reflexivity.
Qed.

(** get_stats, task row.  For a call whose attempts have all ended on
    priced machines: the time of the last attempt is at most the total
    time, the cost is not negative, and when [max_preempt_time_h] is
    written, it and the time of the last attempt together are at most
    the total time. *)
Theorem X_task_row_time_bounds (call : list Attempt) :
  call <> [] ->
  Forall ended call ->
  Forall priced call ->
  exists r t total cost,
    task_row call = Ok r /\
    time_h r = Fin t /\ total_time_h r = Fin total /\ est_cost r = Fin cost /\
    0 <= t /\ t <= total /\ 0 <= cost /\
    (fgtb (attempts r) (Fin 1) = true ->
     exists m, max_preempt_time_h r = Fin m /\ 0 <= m /\ m + t <= total).
Proof.
  intros NE En P.
  destruct (exists_last NE) as (init & lst & Hcall).
  destruct call as [|a0 rest]; [contradiction|]. clear NE.
  destruct (billable_costs _ En P) as (cs & Ecs & Hcs).
  rewrite task_row_cons, Ecs. cbn [bind].
  remember (a0 :: rest) as call eqn:Hc. rewrite Hcall. rewrite last_last.
  assert (En' := En). rewrite Hcall in En'.
  apply Forall_app in En' as (Eninit & Enlst).
  inversion Enlst as [|? ? Elst _]; subst.
  destruct (ended_hours_list init Eninit) as (hs & Ehs & Hhs).
  destruct (ended_time lst Elst) as (d & Hd & Wd & Hl).
  assert (Etot : map hours (init ++ [lst]) = map Fin (hs ++ [d / 3600])).
  { rewrite !map_app, Ehs. cbn [map]. now rewrite Hl. }
  destruct (np_sum_Fin (hs ++ [d / 3600])) as (total & Etotal & Htotal).
  destruct (np_sum_Fin cs) as (cost & Ecost & Hcost).
  rewrite qsum_app in Htotal.
  change (qsum [d / 3600]) with (d / 3600 + 0) in Htotal.
  pose proof (qsum_nonneg hs Hhs) as Hsum.
  pose proof (qsum_nonneg cs Hcs) as Hcsum.
  assert (Ht : 0 <= d / 3600) by (apply Qle_shift_div_l; lra).
  eexists. exists (d / 3600), total, cost.
  split; [reflexivity|]. cbn [time_h total_time_h est_cost attempts max_preempt_time_h].
  split; [exact Hl|]. split; [now rewrite Etot|]. split; [exact Ecost|].
  split; [exact Ht|]. split; [lra|]. split; [lra|].
  intros G.
  assert (Hp : preemptible a0 = true /\ init <> []).
  { destruct (preemptible a0); [|discriminate]. split; [reflexivity|].
    intros ->. cbn in G. discriminate. }
  destruct Hp as (Hp & Hinit). rewrite Hp.
  unfold max_before_last. rewrite removelast_last.
  destruct init as [|b init]; [contradiction|]. cbn [map].
  assert (F : Forall finite (map workflow_time (b :: init))).
  { apply Forall_forall. intros x I. apply in_map_iff in I as (a & <- & Ia).
    rewrite Forall_forall in Eninit.
    destruct (ended_time a (Eninit a Ia)) as (? & _ & -> & _). discriminate. }
  destruct (np_max_finite (map workflow_time (b :: init))
              (fold_left fmax (map workflow_time init) (workflow_time b))
              eq_refl F) as (Im & _).
  apply in_map_iff in Im as (a & Ea & Ia).
  rewrite Forall_forall in Eninit.
  destruct (ended_time a (Eninit a Ia)) as (da & Hda & Wa & Ha).
  rewrite <- Ea, Wa. cbn [per_3600].
  exists (da / 3600). split; [reflexivity|].
  assert (Hin : In (da / 3600) hs).
  { assert (I' : In (Fin (da / 3600)) (map Fin hs)).
    { rewrite <- Ehs, <- Ha. now apply in_map. }
    apply in_map_iff in I' as (q & [= <-] & Iq). exact Iq. }
  pose proof (qsum_bounds_item hs _ Hhs Hin).
  split; [apply Qle_shift_div_l; lra|lra].
Qed.

Lemma X_task_row_time_bounds_witness :
  let a1 := mkAttempt 0 (Some 1440) "Failed" "j1" "gs://b/1" true "z/n1-standard-4" in
  let a2 := mkAttempt 3000 (Some 7320) "Done" "j2" "gs://b/2" true "z/n1-standard-4" in
  exists r t total,
    task_row [a1; a2] = Ok r /\
    time_h r = Fin t /\ total_time_h r = Fin total /\ t <= total.
Proof.
  intros a1 a2.
  destruct (X_task_row_time_bounds [a1; a2])
    as (r & t & total & cost & E & Et & Etot & _ & _ & Hle & _).
  - discriminate.
  - repeat constructor.
    + exists 1440. split; [reflexivity|]. cbn. lra.
    + exists 7320. split; [reflexivity|]. cbn. lra.
  - repeat constructor.
  - exists r, t, total. auto.
Defined.

Lemma unpriced_cost (a : Attempt) :
  ~ priced a -> attempt_cost_of a = Raise (KeyError (machine_of a)).
Proof.
  unfold priced, attempt_cost_of, attempt_cost, get_vm_cost, dict_item.
  destruct (preemptible a).
  - destruct (dict_get (machine_of a) preemptible_dict); [|reflexivity].
    intros N. now elim N.
  - destruct (dict_get (machine_of a) standard_dict); [|reflexivity].
    intros N. now elim N.
Qed.

(** get_stats, task row.  When some attempt of a call ran on a machine
    type that has no price in the table selected by its preemptible
    flag, the row is not computed: [KeyError] is raised on the machine
    type of the first such attempt, whatever the other attempts are. *)
Theorem X_task_row_unpriced_machine (before after : list Attempt) (a : Attempt) :
  Forall priced before ->
  ~ priced a ->
  task_row (before ++ a :: after) = Raise (KeyError (machine_of a)).
Proof.
  intros P N.
  destruct (priced_costs before P) as (cs & Ecs).
  assert (E : comprehension attempt_cost_of (before ++ a :: after)
              = Raise (KeyError (machine_of a))).
  { rewrite comprehension_app, Ecs. cbn [bind comprehension].
    now rewrite unpriced_cost. }
  destruct (before ++ a :: after) as [|a0 rest] eqn:C.
  - now destruct before.
  - rewrite task_row_cons, E. reflexivity.
Qed.

Lemma X_task_row_unpriced_machine_witness :
  let a1 := mkAttempt 0 (Some 1440) "Failed" "j1" "gs://b/1" true "z/n1-standard-4" in
  let a2 := mkAttempt 3000 (Some 7320) "Done" "j2" "gs://b/2" true "z/n1-standard-64" in
  task_row [a1; a2] = Raise (KeyError "n1-standard-64").
Proof.
  intros a1 a2. apply (X_task_row_unpriced_machine [a1] [] a2).
  - repeat constructor.
  - discriminate.
Defined.

(** get_vm_cost: for every machine type that both tables price, the
    preemptible rate is positive and below the on-demand rate. *)
Theorem X_preemptible_rate_is_lower (machine_type : string) (p c : pyfloat) :
  get_vm_cost machine_type true = Ok p ->
  get_vm_cost machine_type false = Ok c ->
  exists pq cq, p = Fin pq /\ c = Fin cq /\ 0 < pq /\ pq < cq.
Proof.
  unfold get_vm_cost, dict_item. intros Hp Hc.
  destruct (dict_get machine_type preemptible_dict) as [pq|] eqn:Ep; [|discriminate].
  destruct (dict_get machine_type standard_dict) as [cq|] eqn:Ec; [|discriminate].
  injection Hp as <-. injection Hc as <-.
  exists pq, cq. split; [reflexivity|]. split; [reflexivity|].
  apply dict_get_In in Ep. vm_compute in Ep.
  repeat (destruct Ep as [Ep|Ep];
          [injection Ep as <- <-; vm_compute in Ec; injection Ec as <-;
           split; reflexivity|]).
  contradiction.
Qed.

Lemma X_preemptible_rate_is_lower_witness :
  exists pq cq,
    Fin 0.6400 = Fin pq /\ Fin 1.5200 = Fin cq /\ 0 < pq /\ pq < cq.
Proof.
  apply (X_preemptible_rate_is_lower "n1-standard-32"); reflexivity.
Defined.

End TaskRow_More.

(* ================================================================== *)
(** ** Further properties of [get_stats] *)

Section GetStats_More.
Import Aggregator FetchSpec DiagnosticsSpec StatsSpec.

(** *** The order of strings *)

Lemma ascii_compare_refl (a : ascii) : Ascii.compare a a = Eq.
Proof. unfold Ascii.compare. apply N.compare_refl. Qed.

Lemma ascii_compare_lt_trans (a b c : ascii) :
  Ascii.compare a b = Lt -> Ascii.compare b c = Lt -> Ascii.compare a c = Lt.
Proof.
  unfold Ascii.compare. rewrite !N.compare_lt_iff. apply N.lt_trans.
Qed.

Lemma string_compare_lt_trans (s1 s2 s3 : string) :
  String.compare s1 s2 = Lt -> String.compare s2 s3 = Lt ->
  String.compare s1 s3 = Lt.
Proof.
  revert s2 s3. induction s1 as [|a s1 IH]; intros [|b s2] [|c s3]; cbn;
    try discriminate; try reflexivity.
  destruct (Ascii.compare a b) eqn:Eab; try discriminate;
    destruct (Ascii.compare b c) eqn:Ebc; try discriminate; intros H1 H2.
  - apply Ascii.compare_eq_iff in Eab, Ebc. subst.
    rewrite ascii_compare_refl. eapply IH; eauto.
  - apply Ascii.compare_eq_iff in Eab. subst. now rewrite Ebc.
  - apply Ascii.compare_eq_iff in Ebc. subst. now rewrite Eab.
  - now rewrite (ascii_compare_lt_trans a b c).
Qed.

Lemma leb_trans (s1 s2 s3 : string) :
  String.leb s1 s2 = true -> String.leb s2 s3 = true -> String.leb s1 s3 = true.
Proof.
  unfold String.leb.
  destruct (String.compare s1 s2) eqn:E12; try discriminate;
    destruct (String.compare s2 s3) eqn:E23; try discriminate; intros _ _.
  - apply String.compare_eq_iff in E12. subst s2. now rewrite E23.
  - apply String.compare_eq_iff in E12. subst s2. now rewrite E23.
  - apply String.compare_eq_iff in E23. subst s3. now rewrite E12.
  - now rewrite (string_compare_lt_trans s1 s2 s3).
Qed.

Lemma leb_refl (s : string) : String.leb s s = true.
Proof. destruct (String.leb_total s s); assumption. Qed.

(** *** [np.sort] and [np.unique] *)

Lemma insert_sorted_In (s x : string) (l : list string) :
  In x (insert_sorted s l) <-> x = s \/ In x l.
Proof.
  induction l as [|y l IH]; cbn [insert_sorted].
  - cbn. intuition.
  - destruct (String.leb s y); cbn [In]; [intuition|]. rewrite IH. intuition.
Qed.

Lemma insert_sorted_ascending (s : string) (l : list string) :
  ascending l -> ascending (insert_sorted s l).
Proof.
  induction 1 as [|y l Hl IH Hy]; cbn [insert_sorted].
  - repeat constructor.
  - destruct (String.leb s y) eqn:E.
    + constructor; [now constructor|]. constructor; [exact E|].
      rewrite Forall_forall in *. intros z Iz. eapply leb_trans; eauto.
    + constructor; [exact IH|]. apply Forall_forall. intros z Iz.
      apply insert_sorted_In in Iz as [->|Iz].
      * destruct (String.leb_total s y); congruence.
      * rewrite Forall_forall in Hy. auto.
Qed.

Lemma np_sort_In (x : string) (l : list string) : In x (np_sort l) <-> In x l.
Proof.
  unfold np_sort. induction l as [|y l IH]; cbn [fold_right]; [tauto|].
  rewrite insert_sorted_In, IH. cbn. intuition.
Qed.

Lemma np_sort_ascending (l : list string) : ascending (np_sort l).
Proof.
  unfold np_sort. induction l as [|y l IH]; cbn [fold_right]; [constructor|].
  now apply insert_sorted_ascending.
Qed.

Lemma drop_repeats_cons (x y : string) (l : list string) :
  drop_repeats (x :: y :: l)
  = if String.eqb x y then drop_repeats (y :: l) else x :: drop_repeats (y :: l).
Proof. reflexivity. Qed.

Lemma drop_repeats_In (x : string) (l : list string) :
  In x (drop_repeats l) <-> In x l.
Proof.
  induction l as [|y l IH]; [tauto|]. destruct l as [|z l]; [tauto|].
  rewrite drop_repeats_cons. destruct (String.eqb_spec y z) as [->|N].
  - rewrite IH. cbn. intuition.
  - cbn [In]. rewrite IH. cbn. intuition.
Qed.

Lemma drop_repeats_last (l : list string) (d : string) :
  last (drop_repeats l) d = last l d.
Proof.
  induction l as [|y l IH]; [reflexivity|]. destruct l as [|z l]; [reflexivity|].
  rewrite drop_repeats_cons. change (last (y :: z :: l) d) with (last (z :: l) d).
  destruct (String.eqb y z); [exact IH|].
  rewrite <- IH.
  destruct (drop_repeats (z :: l)) eqn:D; [|reflexivity].
  exfalso.
  assert (I : In z (drop_repeats (z :: l))) by (apply drop_repeats_In; now left).
  now rewrite D in I.
Qed.

Lemma ascending_last (l : list string) (d x : string) :
  ascending l -> In x l -> String.leb x (last l d) = true.
Proof.
  induction 1 as [|y l Hl IH Hy]; intros I; [contradiction|].
  destruct l as [|z l].
  - destruct I as [->|[]]. apply leb_refl.
  - change (last (y :: z :: l) d) with (last (z :: l) d).
    destruct I as [->|I]; [|now apply IH].
    rewrite Forall_forall in Hy. apply Hy. apply last_In. discriminate.
Qed.

(** The greatest name comes last in [np.unique]. *)
Lemma np_unique_last (l : list string) (d : string) :
  l <> [] ->
  In (last (np_unique l) d) l /\
  forall x, In x l -> String.leb x (last (np_unique l) d) = true.
Proof.
  intros NE. unfold np_unique. rewrite drop_repeats_last.
  assert (NS : np_sort l <> []).
  { destruct l as [|y l]; [contradiction|]. intros E.
    assert (I : In y (np_sort (y :: l))) by (apply np_sort_In; now left).
    now rewrite E in I. }
  split.
  - apply np_sort_In. now apply last_In.
  - intros x I. apply ascending_last; [apply np_sort_ascending|now apply np_sort_In].
Qed.


(** *** The metadata dictionary and the loop over workflow names *)

Lemma dict_set_fresh {V : Type} (k : string) (v : V) (d : dict V) :
  ~ In k (dict_keys d) -> dict_set k v d = d ++ [(k, v)].
Proof.
  induction d as [|[k' v'] d IH]; intros N; [reflexivity|].
  cbn [dict_set]. cbn [dict_keys map fst In] in N.
  destruct (String.eqb_spec k k') as [->|_]; [tauto|].
  cbn [app]. f_equal. apply IH. tauto.
Qed.

Lemma dict_display_from_distinct {V : Type} (items : list (string * V)) (acc : dict V) :
  NoDup (dict_keys acc ++ map fst items) ->
  fold_left (fun d kv => dict_set (fst kv) (snd kv) d) items acc = acc ++ items.
Proof.
  revert acc. induction items as [|[k v] items IH]; intros acc ND.
  - now rewrite app_nil_r.
  - cbn [fold_left fst snd]. cbn [map fst] in ND.
    rewrite dict_set_fresh.
    + rewrite IH.
      * now rewrite <- app_assoc.
      * unfold dict_keys. rewrite map_app, <- app_assoc. exact ND.
    + apply NoDup_remove_2 in ND. intros I. apply ND. apply in_or_app. now left.
Qed.

(** A dict display of items with distinct keys holds the items as
    written. *)
Lemma dict_display_distinct {V : Type} (items : list (string * V)) :
  NoDup (map fst items) -> dict_display items = items.
Proof. intros ND. apply (dict_display_from_distinct items []). exact ND. Qed.

Lemma dict_get_distinct {V : Type} (d : dict V) (k : string) (v : V) :
  NoDup (dict_keys d) -> In (k, v) d -> dict_get k d = Some v.
Proof.
  induction d as [|[k' v'] d IH]; intros ND I; [contradiction|].
  cbn [dict_keys map fst] in ND. inversion ND as [|? ? Hk ND']; subst.
  cbn [dict_get]. destruct I as [[= -> ->]|I].
  - now rewrite String.eqb_refl.
  - destruct (String.eqb_spec k k') as [->|_]; [|now apply IH].
    exfalso. apply Hk. apply in_map_iff. now exists (k', v).
Qed.

Lemma filter_combine_map {A : Type} (f : A -> string) (w : string) (rows : list A) :
  map fst (filter (fun rw => String.eqb (snd rw) w) (combine rows (map f rows)))
  = filter (fun row => String.eqb (f row) w) rows.
Proof.
  induction rows as [|row rows IH]; [reflexivity|].
  cbn [map combine filter snd]. destruct (String.eqb (f row) w); cbn [map fst];
    now rewrite IH.
Qed.

(** The loop that keeps the tables of the last workflow name. *)
Lemma last_tables_loop {T : Type} (F : string -> result T) (ws : list string)
    (acc res : option T) (d : string) :
  for_each (fun _ w => tables <- F w ;; Ok (Some tables)) ws acc = Ok res ->
  match ws with
  | [] => res = acc
  | _ => exists t, F (last ws d) = Ok t /\ res = Some t
  end.
Proof.
  revert acc. induction ws as [|w ws IH]; intros acc H.
  - now injection H as <-.
  - cbn [for_each] in H. apply bind_ok in H as (acc' & H1 & H).
    apply bind_ok in H1 as (t & Ht & [= <-]).
    specialize (IH _ H). destruct ws as [|w' ws].
    + subst res. exists t. auto.
    + exact IH.
Qed.

(** What [get_stats] returns is what the body of the loop computes for
    the greatest workflow name of the succeeded rows. *)
Lemma get_stats_last (remote : Remote) (status_df : dict StatusRecord)
    (tables : list string * dict (dict TaskRow)) :
  NoDup (dict_keys (succeeded status_df)) ->
  get_stats remote status_df = Ok tables ->
  let rows := succeeded status_df in
  let metadata_dict := map (fun row => (fst row, metadata_of remote row)) rows in
  let workflows := map (workflow_of remote) rows in
  exists w,
    In w workflows /\
    (forall w', In w' workflows -> String.leb w' w = true) /\
    workflow_tables rows metadata_dict workflows w = Ok tables.
Proof.
  intros ND H rows metadata_dict workflows.
  unfold get_stats in H. fold (succeeded status_df) in H. fold rows in H.
  rewrite fetch_metadata_eq in H.
  destruct (forallb (fetch_ok remote) rows); [|discriminate].
  cbn [bind] in H.
  rewrite dict_display_distinct in H
    by (rewrite map_map; exact ND).
  change (map (fun row => (fst row, json (metadata_response remote row))) rows)
    with metadata_dict in H.
  assert (W : map (fun kv => workflowName (snd kv)) metadata_dict = workflows).
  { unfold metadata_dict, workflows. rewrite map_map. reflexivity. }
  rewrite W in H.
  apply bind_ok in H as (last_tables & Hl & H).
  apply (last_tables_loop _ _ _ _ "") in Hl.
  destruct (np_unique workflows) as [|w0 ws] eqn:U.
  - subst last_tables. discriminate.
  - destruct Hl as (t & Ht & ->). injection H as <-.
    assert (NE : workflows <> []).
    { intros E. rewrite E in U. discriminate. }
    destruct (np_unique_last workflows "" NE) as (I & M).
    rewrite U in I, M.
    exists (last (w0 :: ws) ""). auto.
Qed.

Lemma workflow_tables_index (remote : Remote) (status_df : dict StatusRecord)
    (w : string) (tables : list string * dict (dict TaskRow)) :
  workflow_tables (succeeded status_df)
    (map (fun row => (fst row, metadata_of remote row)) (succeeded status_df))
    (map (workflow_of remote) (succeeded status_df)) w = Ok tables ->
  fst tables = dict_keys (rows_of_workflow remote status_df w).
Proof.
  unfold workflow_tables. intros H.
  apply bind_ok in H as (i0 & _ & H). apply bind_ok in H as (md0 & _ & H).
  apply bind_ok in H as (task_dfs & _ & H). injection H as <-. cbn [fst].
  unfold dict_keys at 1. rewrite filter_combine_map. reflexivity.
Qed.

(** get_stats returns the tables of one workflow only.  When the
    succeeded rows belong to workflows of several names, what is
    returned is the index and the task tables of the rows whose
    workflow name is the greatest in code point order; the rows of
    every other workflow are in no returned table.  Without succeeded
    row, [get_stats] raises [UnboundLocalError]. *)
Theorem X_get_stats_keeps_last_workflow (remote : Remote)
    (status_df : dict StatusRecord) :
  (succeeded status_df = [] ->
     get_stats remote status_df = Raise UnboundLocalError) /\
  (NoDup (dict_keys (succeeded status_df)) ->
   forall index tables,
     get_stats remote status_df = Ok (index, tables) ->
     exists w,
       (exists row, In row (succeeded status_df) /\ workflow_of remote row = w) /\
       (forall row, In row (succeeded status_df) ->
                    String.leb (workflow_of remote row) w = true) /\
       index = dict_keys (rows_of_workflow remote status_df w)).
Proof.
  split.
  - intros E. unfold get_stats. fold (succeeded status_df). rewrite E. reflexivity.
  - intros ND index tables H.
    destruct (get_stats_last remote status_df _ ND H) as (w & I & M & T).
    exists w. split; [|split].
    + apply in_map_iff in I as (row & E & I). eauto.
    + intros row Ir. apply M. now apply in_map.
    + apply workflow_tables_index in T. exact T.
Qed.

Lemma X_get_stats_keeps_last_workflow_witness :
  (exists tables, get_stats two_workflows four_samples = Ok (["sample-2"], tables)) /\
  get_stats two_workflows
    [ ("sample-3", mkStatusRecord "Failed" (Fin 30) "sub-3" "cfg" "wf-3") ]
  = Raise UnboundLocalError.
Proof.
  destruct (get_stats two_workflows four_samples) as [[index tables]|] eqn:G;
    [|discriminate].
  split.
  - destruct (proj2 (X_get_stats_keeps_last_workflow two_workflows four_samples))
      with (index := index) (tables := tables) as (w & (row & I & Ew) & M & Ei).
    + repeat constructor; cbn; intuition discriminate.
    + exact G.
    + exists tables. f_equal. f_equal.
      assert (C : String.leb "rnaseq" w = true).
      { apply (M ("sample-2",
                  mkStatusRecord "Succeeded" (Fin 20) "sub-2" "cfg" "wf-2")).
        right. now left. }
      assert (Hw : w = "rnaseq").
      { subst w. destruct I as [<-|[<-|[<-|[]]]];
          [discriminate C|reflexivity|discriminate C]. }
      rewrite Hw in Ei. exact Ei.
  - apply (proj1 (X_get_stats_keeps_last_workflow two_workflows _)). reflexivity.
Defined.

(** *** The task tables *)

(** The loop of lines 338-359 from a table [acc]: when it ends, the
    table has one new row per entity, computed from the attempts of
    task [t] in the metadata of that entity. *)
Lemma task_df_loop (metadata_dict : dict Metadata) (t : string)
    (index : list string) (acc df : dict TaskRow) :
  NoDup (dict_keys acc ++ index) ->
  for_each
    (fun df i =>
       metadata <- dict_item metadata_dict i ;;
       call <- dict_item (calls metadata) t ;;
       row <- task_row call ;;
       Ok (dict_set i row df))
    index acc = Ok df ->
  dict_keys df = dict_keys acc ++ index /\
  (forall i r, In (i, r) acc -> In (i, r) df) /\
  (forall i, In i index ->
     exists metadata call r,
       dict_get i metadata_dict = Some metadata /\
       dict_get t (calls metadata) = Some call /\
       task_row call = Ok r /\
       In (i, r) df).
Proof.
  revert acc. induction index as [|i index IH]; intros acc ND H.
  - injection H as <-. rewrite app_nil_r. split; [reflexivity|]. split; [auto|].
    intros i [].
  - cbn [for_each] in H. apply bind_ok in H as (acc' & H1 & H).
    apply bind_ok in H1 as (metadata & Hm & H1).
    apply bind_ok in H1 as (call & Hc & H1).
    apply bind_ok in H1 as (r & Hr & [= <-]).
    assert (Hi : ~ In i (dict_keys acc)).
    { apply NoDup_remove_2 in ND. intros I. apply ND. apply in_or_app. now left. }
    rewrite dict_set_fresh in H by exact Hi.
    destruct (IH (acc ++ [(i, r)])) as (K & Keep & Rows).
    + unfold dict_keys. rewrite map_app, <- app_assoc. exact ND.
    + exact H.
    + split; [|split].
      * rewrite K. unfold dict_keys. rewrite map_app, <- app_assoc. reflexivity.
      * intros j rj I. apply Keep. apply in_or_app. now left.
      * intros j [<-|I]; [|now apply Rows].
        exists metadata, call, r.
        unfold dict_item in Hm, Hc.
        destruct (dict_get i metadata_dict); [|discriminate]. injection Hm as ->.
        destruct (dict_get t (calls metadata)); [|discriminate]. injection Hc as ->.
        repeat (split; [reflexivity || assumption|]).
        apply Keep. apply in_or_app. right. now left.
Qed.

Lemma In_dict_set {V : Type} (k k' : string) (v v' : V) (d : dict V) :
  In (k', v') (dict_set k v d) -> (k', v') = (k, v) \/ In (k', v') d.
Proof.
  induction d as [|[k0 v0] d IH]; cbn [dict_set].
  - intros [E|[]]. left. now symmetry.
  - destruct (String.eqb k k0).
    + intros [E|I]; [left; now symmetry|right; now right].
    + intros [E|I]; [right; now left|].
      destruct (IH I) as [E|I']; [now left|right; now right].
Qed.

(** The loop over the tasks: every table that it leaves was computed
    for a task with that bare name. *)
Lemma task_dfs_loop (metadata_dict : dict Metadata) (index : list string)
    (tasks : list string) (acc task_dfs : dict (dict TaskRow)) :
  for_each
    (fun task_dfs t =>
       let task_name := rsplit_last "." t in
       df <- task_df metadata_dict index t ;;
       Ok (dict_set task_name df task_dfs))
    tasks acc = Ok task_dfs ->
  forall name df, In (name, df) task_dfs ->
    In (name, df) acc \/
    exists t, In t tasks /\ rsplit_last "." t = name /\
              task_df metadata_dict index t = Ok df.
Proof.
  revert acc. induction tasks as [|t tasks IH]; intros acc H name df I.
  - injection H as <-. now left.
  - cbn [for_each] in H. apply bind_ok in H as (acc' & H1 & H).
    apply bind_ok in H1 as (df1 & Hd & [= <-]).
    destruct (IH _ H name df I) as [Ia|(t' & It & En & Ed)].
    + apply In_dict_set in Ia as [[= -> ->]|Ia]; [|now left].
      right. exists t. split; [now left|]. auto.
    + right. exists t'. split; [now right|]. auto.
Qed.

(** get_stats, task tables.  Every table that is returned is named by
    the last component of a call name and has exactly the rows of the
    returned index, in its order; the row of an entity is computed from
    the attempts of that call in the metadata of the entity. *)
Theorem X_get_stats_task_tables (remote : Remote) (status_df : dict StatusRecord)
    (index : list string) (tables : dict (dict TaskRow))
    (name : string) (df : dict TaskRow) :
  NoDup (dict_keys (succeeded status_df)) ->
  get_stats remote status_df = Ok (index, tables) ->
  In (name, df) tables ->
  dict_keys df = index /\
  exists t,
    rsplit_last "." t = name /\
    forall row, In row (succeeded status_df) -> In (fst row) index ->
      exists call r,
        dict_get t (calls (metadata_of remote row)) = Some call /\
        task_row call = Ok r /\
        dict_get (fst row) df = Some r.
Proof.
  intros ND H I.
  destruct (get_stats_last remote status_df _ ND H) as (w & _ & _ & T).
  pose proof (workflow_tables_index _ _ _ _ T) as Ei. cbn [fst] in Ei.
  set (rows := succeeded status_df) in *.
  set (metadata_dict := map (fun row => (fst row, metadata_of remote row)) rows) in *.
  unfold workflow_tables in T.
  apply bind_ok in T as (i0 & _ & T). apply bind_ok in T as (md0 & _ & T).
  apply bind_ok in T as (task_dfs & Hl & T). injection T as Ei' <-.
  rewrite Ei' in Hl.
  destruct (task_dfs_loop _ _ _ _ _ Hl name df I) as [[]|(t & _ & En & Ed)].
  assert (NDi : NoDup index).
  { rewrite Ei. unfold rows_of_workflow, dict_keys. fold rows.
    clear -ND. unfold dict_keys in ND.
    induction rows as [|row rows IH]; [constructor|].
    cbn [map] in ND. inversion ND as [|? ? Hr ND']; subst. cbn [filter].
    destruct (String.eqb _ w); [|now apply IH].
    cbn [map]. constructor; [|now apply IH].
    intros Hin. apply Hr. apply in_map_iff in Hin as (row' & E & I').
    apply filter_In in I' as (I' & _). apply in_map_iff. now exists row'. }
  unfold task_df in Ed.
  destruct (task_df_loop metadata_dict t index [] df) as (K & _ & Rows);
    [exact NDi|exact Ed|].
  split; [exact K|]. exists t. split; [exact En|].
  intros row Ir Ii. destruct (Rows _ Ii) as (metadata & call & r & Hm & Hc & Hr & Id).
  assert (Em : dict_get (fst row) metadata_dict = Some (metadata_of remote row)).
  { apply dict_get_distinct.
    - unfold metadata_dict, dict_keys. rewrite map_map. exact ND.
    - unfold metadata_dict. apply in_map_iff. now exists row. }
  rewrite Em in Hm. injection Hm as <-.
  exists call, r. split; [exact Hc|]. split; [exact Hr|].
  apply dict_get_distinct; [now rewrite K|exact Id].
Qed.

Lemma X_get_stats_task_tables_witness :
  exists tables df,
    get_stats two_workflows four_samples = Ok (["sample-2"], tables) /\
    In ("star", df) tables /\ dict_keys df = ["sample-2"].
Proof.
  destruct (get_stats two_workflows four_samples) as [[index tables]|] eqn:G;
    [|discriminate].
  assert (Ei : index = ["sample-2"]) by (vm_compute in G; now injection G as <- _).
  assert (I : exists df, In ("star", df) tables).
  { vm_compute in G. injection G as _ <-. eexists. now left. }
  destruct I as (df & I).
  destruct (X_get_stats_task_tables two_workflows four_samples index tables "star" df)
    as (K & _).
  - repeat constructor; cbn; intuition discriminate.
  - exact G.
  - exact I.
  - exists tables, df. rewrite <- Ei at 1. split; [reflexivity|].
    split; [exact I|]. now rewrite K.
Defined.

End GetStats_More.

(* ================================================================== *)
(** ** Further properties of the status table *)

Section Reducer_More.
Import StatusReducer ReducerSpec OrderSpec DiagnosticsSpec.

Lemma absorb_nil (s : Submission) (d : dict StatusRecord) : absorb s d [] = d.
Proof. reflexivity. Qed.

(** get_submission_status without entity: when the requests succeed
    and no matching submission stands for an entity (in particular when
    no submission matches the configuration), the frame of the empty
    dictionary has no column ['status'] and [KeyError] is raised. *)
Theorem X_status_of_nothing (remote : Remote) (configuration : string) :
  status_code (list_submissions remote) = 200%Z ->
  Forall (shaped remote) (matched remote configuration) ->
  Forall (fun s => derived remote s = []) (matched remote configuration) ->
  get_submission_status remote configuration = Raise (KeyError "status").
Proof.
  intros H200 Hs Hd. unfold get_submission_status.
  rewrite assert_200_ok by (now apply Z.eqb_eq). cbn [bind].
  fold (matched remote configuration).
  rewrite loop_shaped by exact Hs. cbn [bind].
  assert (G : forall d,
            fold_left (fun d s => absorb s d (derived remote s))
              (matched remote configuration) d = d).
  { clear Hs. induction Hd as [|s ss Es _ IH]; intros d; [reflexivity|].
    cbn [fold_left]. rewrite Es, absorb_nil. apply IH. }
  now rewrite G.
Qed.

Lemma X_status_of_nothing_witness :
  get_submission_status (resubmitted 10 20) "other-config"
  = Raise (KeyError "status").
Proof.
  apply X_status_of_nothing.
  - reflexivity.
  - constructor.
  - constructor.
Defined.

Lemma step_unanswered (remote : Remote) (d : dict StatusRecord) (s : Submission) :
  status_code (get_submission remote (submissionId s)) <> 200%Z ->
  step remote d s = Raise AssertionError.
Proof.
  intros N. unfold step. rewrite assert_200_fails; [reflexivity|].
  now apply Z.eqb_neq.
Qed.

Lemma loop_unanswered (remote : Remote) (submissions : list Submission)
    (d : dict StatusRecord) :
  Exists (fun s => status_code (get_submission remote (submissionId s)) <> 200%Z)
         submissions ->
  exists e, for_each (step remote) submissions d = Raise e.
Proof.
  intros E. revert d. induction E as [s ss Hs|s ss _ IH]; intros d; cbn [for_each].
  - rewrite step_unanswered by exact Hs. cbn [bind]. eauto.
  - destruct (step remote d s) as [d'|e]; cbn [bind]; [apply IH|eauto].
Qed.

(** get_submission_status requests every matching submission, also one
    of an entity type that it does not read and one that is older than
    what is recorded: a single request that is not answered with status
    200 leaves no table at all, and when the submissions before it are
    in order, what is raised is the failed assertion. *)
Theorem X_status_request_failure (remote : Remote) (configuration : string)
    (before after : list Submission) (s : Submission) :
  matched remote configuration = before ++ s :: after ->
  status_code (get_submission remote (submissionId s)) <> 200%Z ->
  (exists e, get_submission_status remote configuration = Raise e) /\
  (status_code (list_submissions remote) = 200%Z ->
   Forall (shaped remote) before ->
   get_submission_status remote configuration = Raise AssertionError).
Proof.
  intros M N. unfold get_submission_status. split.
  - destruct (assert_200 (list_submissions remote)) as [submissions|e] eqn:A.
    2:{ cbn [bind]. eauto. }
    assert (submissions = json (list_submissions remote)) as ->.
    { unfold assert_200 in A. destruct (Z.eqb _ 200); [|discriminate].
      now injection A as <-. }
    cbn [bind]. fold (matched remote configuration). rewrite M.
    destruct (loop_unanswered remote (before ++ s :: after) []) as (e & ->).
    { apply Exists_app. right. now left. }
    cbn [bind]. eauto.
  - intros H200 Hb. rewrite assert_200_ok by (now apply Z.eqb_eq). cbn [bind].
    fold (matched remote configuration). rewrite M.
    assert (G : forall d, for_each (step remote) (before ++ s :: after) d
                          = Raise AssertionError).
    { clear M. induction Hb as [|b bs Hs _ IH]; intros d; cbn [app for_each].
      - now rewrite step_unanswered.
      - rewrite step_shaped by exact Hs. cbn [bind]. apply IH. }
    now rewrite G.
Qed.

Lemma X_status_request_failure_witness :
  let unread := mkSubmission "sub-9" "ns/cfg" 5 "pair" "pair-1" in
  let upset : Remote :=
    {| list_submissions :=
         mkResponse 200%Z
           [ mkSubmission "sub-1" "ns/cfg" 10 "sample" "sample-1"; unread ];
       get_submission := fun submission_id =>
         if String.eqb submission_id "sub-9"
         then mkResponse 500%Z []
         else mkResponse 200%Z [ mkWorkflow "wf-1" "Succeeded" None ];
       get_workflow_metadata := fun _ _ =>
         mkResponse 200%Z (mkMetadata 0 None "wf" []) |} in
  get_submission_status upset "cfg" = Raise AssertionError.
Proof.
  intros unread upset.
  apply (proj2 (X_status_request_failure upset "cfg"
                  [ mkSubmission "sub-1" "ns/cfg" 10 "sample" "sample-1" ] []
                  unread eq_refl ltac:(discriminate))).
  - reflexivity.
  - repeat constructor; discriminate.
Defined.

(** *** The order of the rows *)

Lemma add_new_mem (keys : list string) (k : string) :
  existsb (String.eqb k) keys = true <-> In k keys.
Proof.
  rewrite existsb_exists. split.
  - intros (x & I & E). apply String.eqb_eq in E. now subst.
  - intros I. exists k. split; [exact I|apply String.eqb_refl].
Qed.

Lemma absorb_keys (s : Submission) (pairs : list (string * Workflow))
    (d : dict StatusRecord) :
  dict_keys (absorb s d pairs) = fold_left add_new (map fst pairs) (dict_keys d).
Proof.
  revert d. induction pairs as [|[e w] pairs IH]; intros d; [reflexivity|].
  unfold absorb. cbn [fold_left map fst snd]. fold (absorb s).
  change (fold_left _ pairs ?x) with (absorb s x pairs).
  rewrite IH. f_equal. unfold add_new, fresh_or_older.
  destruct (dict_get e d) as [r|] eqn:G.
  - assert (I : existsb (String.eqb e) (dict_keys d) = true).
    { apply add_new_mem. apply dict_get_In in G. apply in_map_iff. now exists (e, r). }
    rewrite I. destruct (ts_ltb _ _); [|reflexivity].
    rewrite dict_keys_set. unfold dict_mem. now rewrite G.
  - assert (I : existsb (String.eqb e) (dict_keys d) = false).
    { destruct (existsb _ _) eqn:E; [|reflexivity].
      apply add_new_mem in E. now apply dict_get_None_keys in G. }
    rewrite I, dict_keys_set. unfold dict_mem. now rewrite G.
Qed.

Lemma loop_keys (remote : Remote) (submissions : list Submission)
    (d : dict StatusRecord) :
  dict_keys (fold_left (fun d s => absorb s d (derived remote s)) submissions d)
  = fold_left add_new (flat_map (fun s => map fst (derived remote s)) submissions)
      (dict_keys d).
Proof.
  revert d. induction submissions as [|s ss IH]; intros d; [reflexivity|].
  cbn [fold_left flat_map]. rewrite IH, absorb_keys, fold_left_app. reflexivity.
Qed.

(** get_submission_status, order of the rows: the table lists the
    entities in the order in which the matching submissions first name
    them, whatever their timestamps; a later submission replaces the
    record of an entity in place. *)
Theorem X_status_rows_in_order_of_first_submission (remote : Remote)
    (configuration : string) (d : dict StatusRecord) :
  get_submission_status remote configuration = Ok d ->
  dict_keys d = first_occurrences (entity_ids remote configuration).
Proof.
  unfold get_submission_status. intros H.
  apply bind_ok in H as (submissions & Hs & H).
  assert (submissions = json (list_submissions remote)) as ->.
  { unfold assert_200 in Hs. destruct (Z.eqb _ 200); [|discriminate].
    now injection Hs as <-. }
  fold (matched remote configuration) in H.
  apply bind_ok in H as (d0 & Hl & H).
  apply loop_ok in Hl.
  assert (d = d0) as -> by (destruct d0; [discriminate|now injection H]).
  subst d0. apply loop_keys.
Qed.

Lemma X_status_rows_in_order_of_first_submission_witness :
  exists d,
    get_submission_status (two_samples "Failed") "cfg" = Ok d /\
    dict_keys d = ["sample-1"; "sample-2"].
Proof.
  destruct (get_submission_status (two_samples "Failed") "cfg") as [d|] eqn:E;
    [|discriminate].
  exists d. split; [reflexivity|].
  now rewrite (X_status_rows_in_order_of_first_submission _ _ _ E).
Defined.

End Reducer_More.

(* ================================================================== *)
(** ** The names of calls *)

Section CallNames.
Import Diagnostics Aggregator OrderSpec.

Lemma append_snoc (cur : string) (c : ascii) (s : string) :
  ((cur ++ String c EmptyString) ++ s = cur ++ String c s)%string.
Proof. induction cur as [|a cur IH]; cbn; [reflexivity|]. now rewrite IH. Qed.

Lemma append_empty (s : string) : (s ++ EmptyString)%string = s.
Proof. induction s as [|a s IH]; cbn; [reflexivity|]. now rewrite IH. Qed.

Lemma dotless_cons (c : ascii) (s : string) :
  dotless (String c s) -> c <> "."%char /\ dotless s.
Proof.
  unfold dotless. cbn [list_ascii_of_string]. intros H. split.
  - apply H. now left.
  - intros x I. apply H. now right.
Qed.

Lemma split_dotless (s cur : string) :
  dotless s -> split_aux "." s cur = [(cur ++ s)%string].
Proof.
  revert cur. induction s as [|c s IH]; intros cur D; cbn [split_aux].
  - now rewrite append_empty.
  - apply dotless_cons in D as (N & D).
    destruct (Ascii.eqb_spec c "."%char); [contradiction|].
    rewrite IH by exact D. now rewrite append_snoc.
Qed.

Lemma split_field (s rest cur : string) :
  dotless s ->
  split_aux "." (s ++ String "." rest) cur
  = (cur ++ s)%string :: split_aux "." rest EmptyString.
Proof.
  revert cur. induction s as [|c s IH]; intros cur D; cbn [split_aux append].
  - now rewrite append_empty.
  - apply dotless_cons in D as (N & D).
    destruct (Ascii.eqb_spec c "."%char); [contradiction|].
    rewrite IH by exact D. now rewrite append_snoc.
Qed.

(** display_status names its columns by the second component of a
    call name, get_stats names its task tables by the last one.  For a
    call name [workflow.task] both are [task]; for a name of three
    components, [workflow.sub.task], the column is [sub] and the table
    is [task]; for a name without dot the column raises [IndexError]
    and the table takes the whole name. *)
Theorem X_call_name_components (workflow sub task : string) :
  dotless workflow -> dotless sub -> dotless task ->
  (bare_name (workflow ++ "." ++ task) = Ok task /\
   rsplit_last "." (workflow ++ "." ++ task) = task) /\
  (bare_name (workflow ++ "." ++ sub ++ "." ++ task) = Ok sub /\
   rsplit_last "." (workflow ++ "." ++ sub ++ "." ++ task) = task) /\
  (bare_name task = Raise IndexError /\ rsplit_last "." task = task).
Proof.
  intros Dw Ds Dt. unfold bare_name, rsplit_last, split.
  change ("." ++ task)%string with (String "." task).
  change ("." ++ sub ++ String "." task)%string
    with (String "." (sub ++ String "." task)).
  rewrite !split_field by assumption.
  rewrite !split_dotless by assumption. cbn [append last].
  repeat split; reflexivity.
Qed.

Lemma X_call_name_components_witness :
  bare_name "rnaseq.star_align.star" = Ok "star_align" /\
  rsplit_last "." "rnaseq.star_align.star" = "star".
Proof.
  assert (D : forall s, (forall c, In c (list_ascii_of_string s) -> c <> "."%char) ->
                        dotless s) by (intros s H; exact H).
  destruct (X_call_name_components "rnaseq" "star_align" "star") as (_ & H & _).
  - apply D. cbn. intuition (subst; discriminate).
  - apply D. cbn. intuition (subst; discriminate).
  - apply D. cbn. intuition (subst; discriminate).
  - exact H.
Defined.

End CallNames.

(* ================================================================== *)
(** ** Samples of participants *)

Section Participants.
Import Repository Aggregator StatsSpec.









End Participants.
